(** * Functiomed voice agent: booking state machine, slot store and retrieval

    A shallow embedding of
      - [voice_agent/state.py]   (module [State]),
      - [database/db.py]         (module [DB]),
      - [embedding/embedding.py] (module [Embedding]),
      - [voice_agent/agent.py]   (module [Agent]),
    followed by the properties of the design document that concern them.

    Conventions.  A Python [str] is a [string] holding its UTF-8 bytes; the
    operator [in] on strings and [str.startswith] are byte-wise, which on
    well-formed UTF-8 agrees with the code-point versions.  Operations of the
    Python runtime that depend on the Unicode tables (lower-casing, white
    space, regular expressions), the clock, the float sum and the hash of
    a string are collected in the class [PyRuntime]; a float is the
    rational number it denotes; every general statement holds for any
    runtime, and the concrete evaluations use [ascii_runtime], which agrees
    with CPython on the ASCII inputs they are run on.  An exception is a
    value of [exc]. *)

From Stdlib Require Import String Ascii List Bool Arith ZArith QArith Lia.
From Stdlib Require Import Permutation Sorted.
Import ListNotations.

Set Implicit Arguments.
Unset Strict Implicit.
Open Scope string_scope.
Open Scope list_scope.
Open Scope nat_scope.

(* ------------------------------------------------------------------ *)
(** ** Exceptions *)

Inductive exn : Type :=
  | AttributeError (what : string)
  | IntegrityError (what : string)
  | OperationalError (what : string)
  | RuntimeError (what : string).

(** [str(e)] *)
Definition exn_message (e : exn) : string :=
  match e with
  | AttributeError what | IntegrityError what
  | OperationalError what | RuntimeError what => what
  end.

Inductive exc (A : Type) : Type :=
  | Ok (a : A)
  | Raise (e : exn).
Arguments Ok {A} a.
Arguments Raise {A} e.

Definition bind {A B} (m : exc A) (k : A -> exc B) : exc B :=
  match m with
  | Ok a => k a
  | Raise e => Raise e
  end.

Notation "x <- m ;; k" := (bind m (fun x => k))
  (at level 61, m at next level, right associativity).

(* ------------------------------------------------------------------ *)
(** ** Python strings *)

Module PyStr.

(** [s.startswith(p)] *)
Definition startswith (s p : string) : bool := String.prefix p s.

(** [w in s] *)
Fixpoint contains (s w : string) : bool :=
  if String.prefix w s then true
  else match s with
       | EmptyString => false
       | String _ rest => contains rest w
       end.

(** [any(w in s for w in ws)] *)
Definition any_in (s : string) (ws : list string) : bool :=
  existsb (contains s) ws.

(** [sum(1 for w in ws if w in s)] *)
Definition count_in (s : string) (ws : list string) : nat :=
  length (filter (contains s) ws).

(** truthiness of an [Optional[str]]: [None] and the empty string are falsy *)
Definition truthy (o : option string) : bool :=
  match o with
  | Some EmptyString => false
  | Some _ => true
  | None => false
  end.

(** [o or ""] *)
Definition or_empty (o : option string) : string :=
  match o with
  | Some s => s
  | None => ""
  end.

(** [f"{o}"] *)
Definition show (o : option string) : string :=
  match o with
  | Some s => s
  | None => "None"
  end.

(** [sep.join(l)] *)
Fixpoint join (sep : string) (l : list string) : string :=
  match l with
  | [] => ""
  | [x] => x
  | x :: rest => x ++ sep ++ join sep rest
  end.

(** [s.rsplit(" ", 1)[0]]: what precedes the last blank, the whole string
    when there is none. *)
Fixpoint rsplit_blank_head (s : string) : string :=
  match s with
  | EmptyString => EmptyString
  | String c rest =>
      if contains rest " " then String c (rsplit_blank_head rest)
      else if Ascii.eqb c " "%char then EmptyString
      else s
  end.

End PyStr.

(** What the model takes from the Python runtime. *)
Class PyRuntime : Type := {
  (** [str.lower], [str.strip], [str.title], [len], [s[:n]], [str.split],
      [str.zfill(2)] *)
  str_lower : string -> string;
  str_strip : string -> string;
  str_title : string -> string;
  str_len : string -> nat;
  str_take : nat -> string -> string;
  str_split : string -> list string;
  str_zfill2 : string -> string;
  (** [re.sub(r"\s+", " ", q)] *)
  re_collapse_ws : string -> string;
  (** [re.compile(r"\b\d{1,2}:\d{2}\b").search(s)] is not [None] *)
  re_has_clock_time : string -> bool;
  (** [re.sub(r"[^\d+]", "", s)] *)
  re_keep_digits_plus : string -> string;
  (** [re.search(r"\b(\d{1,2})(?::(\d{2}))?\b", s)]: groups 1 and 2 *)
  re_time : string -> option (string * option string);
  (** [re.search(r"\b(\d{4}-\d{2}-\d{2})\b", s)]: group 1 *)
  re_iso_date : string -> option string;
  (** [re.search(r"\b(\d{1,2})[.\-/](\d{1,2})[.\-/](\d{4})\b", s)] *)
  re_dmy_date : string -> option (string * string * string);
  (** [re.search(r"\b(\d{1,2})[.\-/](\d{1,2})\b", s)] *)
  re_dm_date : string -> option (string * string);
  (** [re.search(rf"\b(\d{{1,2}})\s*\.?\s*{month_name}\b", s)]: [str(int(group 1))] *)
  re_day_before : string -> string -> option string;
  (** [date.today()] and the two offsets the agent uses, as [%Y-%m-%d];
      [str(today.year)] *)
  today_iso : string;
  tomorrow_iso : string;
  next_week_iso : string;
  today_year : string;
  (** [a + b] on floats: the sum as the interpreter rounds it.  A score is
      the rational number its float denotes. *)
  float_add : Q -> Q -> Q;
  (** [hash(s)] of a [str], as the running interpreter computes it *)
  py_hash : string -> Z
}.

(* ------------------------------------------------------------------ *)
(** ** Python lists *)

Module PyList.

Section Sorted.
Variable A : Type.
(** [before x y]: [x], met earlier in the input, stays in front of [y]. *)
Variable before : A -> A -> bool.

Fixpoint insert (x : A) (l : list A) : list A :=
  match l with
  | [] => [x]
  | y :: rest => if before x y then x :: l else y :: insert x rest
  end.

(** A stable sort, which is what [sorted] and [list.sort] are: with
    [before x y := key x <= key y] it is [sorted(l, key=key)], with
    [before x y := key y <= key x] it is [sorted(l, key=key, reverse=True)]
    (equal keys keep the order of the input in both directions). *)
Definition sorted (l : list A) : list A := fold_right insert [] l.
End Sorted.

(** [l[:n]] for a Python integer [n]. *)
Definition slice_to (A : Type) (n : Z) (l : list A) : list A :=
  if (0 <=? n)%Z then firstn (Z.to_nat n) l
  else firstn (length l - Z.to_nat (- n)) l.

(** [enumerate(l)] *)
Definition enumerate (A : Type) (l : list A) : list (nat * A) :=
  combine (seq 0 (length l)) l.

End PyList.

(* ------------------------------------------------------------------ *)
(** ** database/db.py *)

Module DB.

(** A row of [available_slots]; [UNIQUE(date, time, service)]. *)
Record Slot : Type := {
  slot_id : Z;
  slot_date : string;
  slot_time : string;
  slot_service : string;
  is_booked : Z
}.

(** A row of [appointments]. *)
Record Appointment : Type := {
  id : Z;
  name : string;
  phone : string;
  service : string;
  date : string;
  time : string;
  status : string;
  created_at : string;
  room_id : string
}.

Record Database : Type := {
  available_slots : list Slot;
  appointments : list Appointment;
  (** the [sqlite_sequence] entry of [appointments] (AUTOINCREMENT) *)
  appointments_seq : Z
}.

(** A connection: what is committed, and the view inside the open
    transaction (the [sqlite3] module opens one before the first write). *)
Record Connection : Type := {
  on_disk : Database;
  in_txn : Database
}.

(** What a call takes from outside the tables: the clock of
    [datetime('now')], and an engine error (locked file, full disk) at each
    of the three statements, if any. *)
Record SqlEnv : Type := {
  now : string;
  update_error : option exn;
  insert_error : option exn;
  commit_error : option exn
}.

(** Statements run against a connection and may raise. *)
Definition sql (A : Type) : Type := Connection -> exc A * Connection.

Definition ret {A} (a : A) : sql A := fun c => (Ok a, c).

Definition seq_ {A B} (m : sql A) (k : A -> sql B) : sql B :=
  fun c =>
    match m c with
    | (Ok a, c') => k a c'
    | (Raise e, c') => (Raise e, c')
    end.

Definition get_connection (db : Database) : Connection :=
  {| on_disk := db; in_txn := db |}.

Definition commit (env : SqlEnv) : sql unit :=
  fun c =>
    match commit_error env with
    | Some e => (Raise e, c)
    | None => (Ok tt, {| on_disk := in_txn c; in_txn := in_txn c |})
    end.

Definition rollback (c : Connection) : Connection :=
  {| on_disk := on_disk c; in_txn := on_disk c |}.

(** [conn.close()]: what is not committed is lost. *)
Definition close (c : Connection) : Database := on_disk c.

(** [column = ?] with a bound parameter: never true for NULL. *)
Definition sql_eq (column : string) (param : option string) : bool :=
  match param with
  | Some v => String.eqb column v
  | None => false
  end.

Definition slot_matches (date_str time_str service : option string)
    (r : Slot) : bool :=
  sql_eq (slot_date r) date_str && sql_eq (slot_time r) time_str
  && sql_eq (slot_service r) service.

Definition set_is_booked (r : Slot) (flag : Z) : Slot :=
  {| slot_id := slot_id r; slot_date := slot_date r;
     slot_time := slot_time r; slot_service := slot_service r;
     is_booked := flag |}.

(** [UPDATE available_slots SET is_booked = flag
     WHERE date = ? AND time = ? AND service = ?] *)
Definition update_slots (flag : Z) (date_str time_str service : option string)
    (rows : list Slot) : list Slot :=
  map (fun r => if slot_matches date_str time_str service r
                then set_is_booked r flag else r) rows.

Definition execute_update_slot (env : SqlEnv) (flag : Z)
    (date_str time_str service : option string) : sql unit :=
  fun c =>
    match update_error env with
    | Some e => (Raise e, c)
    | None =>
        let t := in_txn c in
        (Ok tt,
         {| on_disk := on_disk c;
            in_txn := {| available_slots :=
                           update_slots flag date_str time_str service
                             (available_slots t);
                         appointments := appointments t;
                         appointments_seq := appointments_seq t |} |})
    end.

(** The rowid an AUTOINCREMENT insert takes. *)
Definition next_id (t : Database) : Z :=
  Z.max (appointments_seq t)
        (fold_right Z.max 0%Z (map id (appointments t))) + 1.

(** [INSERT INTO appointments (name, phone, service, date, time, room_id)
     VALUES (?, ?, ?, ?, ?, ?)]; the first five columns are NOT NULL,
    [status] and [created_at] take their defaults.  Returns
    [cursor.lastrowid]. *)
Definition execute_insert_appointment (env : SqlEnv)
    (name_ phone_ service_ date_str time_str : option string)
    (room : string) : sql Z :=
  fun c =>
    match insert_error env with
    | Some e => (Raise e, c)
    | None =>
        match name_, phone_, service_, date_str, time_str with
        | Some n, Some p, Some s, Some d, Some tm =>
            let t := in_txn c in
            let i := next_id t in
            let row := {| id := i; name := n; phone := p; service := s;
                          date := d; time := tm; status := "confirmed";
                          created_at := now env; room_id := room |} in
            (Ok i,
             {| on_disk := on_disk c;
                in_txn := {| available_slots := available_slots t;
                             appointments := appointments t ++ [row];
                             appointments_seq := i |} |})
        | _, _, _, _, _ =>
            (Raise (IntegrityError "NOT NULL constraint failed"), c)
        end
    end.

(** [{"success": True, "appointment_id": i}] or
    [{"success": False, "error": str(e)}] *)
Inductive BookResult : Type :=
  | Success (appointment_id : Z)
  | Failure (error : exn).

Definition success (r : BookResult) : bool :=
  match r with
  | Success _ => true
  | Failure _ => false
  end.

(** [book_appointment]: the [try] body, then [except] (rollback) and
    [finally] (close). *)
Definition book_appointment (env : SqlEnv)
    (name_ phone_ service_ date_str time_str : option string)
    (room : string) (db : Database) : BookResult * Database :=
  let conn := get_connection db in
  let body : sql Z :=
    seq_ (execute_update_slot env 1 date_str time_str service_) (fun _ =>
    seq_ (execute_insert_appointment env name_ phone_ service_
            date_str time_str room) (fun appointment_id =>
    seq_ (commit env) (fun _ =>
    ret appointment_id))) in
  match body conn with
  | (Ok appointment_id, c) => (Success appointment_id, close c)
  | (Raise e, c) => (Failure e, close (rollback c))
  end.

(** [ORDER BY time] *)
Definition order_by_time (rows : list Slot) : list Slot :=
  PyList.sorted (fun a b => String.leb (slot_time a) (slot_time b)) rows.

(** [get_available_slots(date_str, service)] *)
Definition get_available_slots (date_str : string) (service_ : option string)
    (db : Database) : list Slot :=
  if PyStr.truthy service_ then
    order_by_time
      (filter (fun r => String.eqb (slot_date r) date_str
                        && sql_eq (slot_service r) service_
                        && (is_booked r =? 0)%Z)
              (available_slots db))
  else
    order_by_time
      (filter (fun r => String.eqb (slot_date r) date_str
                        && (is_booked r =? 0)%Z)
              (available_slots db)).

(** *** Cancellation *)

(** The engine errors of the four statements of [cancel_appointment]. *)
Record CancelEnv : Type := {
  select_error : option exn;
  free_slot_error : option exn;
  mark_cancelled_error : option exn;
  cancel_commit_error : option exn
}.

(** The engine as the slot update and the commit of a cancellation see it. *)
Definition cancel_sql (env : CancelEnv) : SqlEnv :=
  {| now := ""; update_error := free_slot_error env; insert_error := None;
     commit_error := cancel_commit_error env |}.

(** [SELECT * FROM appointments WHERE id = ?], [fetchone()] *)
Definition execute_select_appointment (env : CancelEnv) (appointment_id : Z)
  : sql (option Appointment) :=
  fun c =>
    match select_error env with
    | Some e => (Raise e, c)
    | None =>
        (Ok (find (fun a => (id a =? appointment_id)%Z)
                  (appointments (in_txn c))), c)
    end.

Definition set_status (a : Appointment) (st : string) : Appointment :=
  {| id := id a; name := name a; phone := phone a; service := service a;
     date := date a; time := time a; status := st;
     created_at := created_at a; room_id := room_id a |}.

(** [UPDATE appointments SET status = 'cancelled' WHERE id = ?] *)
Definition mark_cancelled (appointment_id : Z) (rows : list Appointment)
  : list Appointment :=
  map (fun a => if (id a =? appointment_id)%Z then set_status a "cancelled"
                else a) rows.

Definition execute_mark_cancelled (env : CancelEnv) (appointment_id : Z)
  : sql unit :=
  fun c =>
    match mark_cancelled_error env with
    | Some e => (Raise e, c)
    | None =>
        let t := in_txn c in
        (Ok tt,
         {| on_disk := on_disk c;
            in_txn := {| available_slots := available_slots t;
                         appointments :=
                           mark_cancelled appointment_id (appointments t);
                         appointments_seq := appointments_seq t |} |})
    end.

(** [{"success": True, "appointment_id": i}] or
    [{"success": False, "error": message}] *)
Inductive CancelResult : Type :=
  | Cancelled (appointment_id : Z)
  | NotCancelled (error : string).

(** [cancel_appointment]: a missing row returns from inside the [try]
    (nothing was written, [finally] closes); an exception rolls back. *)
Definition cancel_appointment (env : CancelEnv) (appointment_id : Z)
    (db : Database) : CancelResult * Database :=
  let conn := get_connection db in
  match execute_select_appointment env appointment_id conn with
  | (Raise e, c) => (NotCancelled (exn_message e), close (rollback c))
  | (Ok None, c) => (NotCancelled "Appointment not found", close c)
  | (Ok (Some appt), c) =>
      let body : sql unit :=
        seq_ (execute_update_slot (cancel_sql env) 0 (Some (date appt))
                (Some (time appt)) (Some (service appt))) (fun _ =>
        seq_ (execute_mark_cancelled env appointment_id) (fun _ =>
        commit (cancel_sql env))) in
      match body c with
      | (Ok _, c') => (Cancelled appointment_id, close c')
      | (Raise e, c') => (NotCancelled (exn_message e), close (rollback c'))
      end
  end.

(** *** Seeding *)

Definition seed_services : list string :=
  [ "physiotherapy"; "massage"; "osteopathy"; "mental coaching" ].

Definition seed_times : list string :=
  [ "09:00"; "10:00"; "11:00"; "13:00"; "14:00"; "15:00"; "16:00" ].

(** The (day, time, service) triples in the order of the three loops. *)
Definition seed_keys (days : list string) : list (string * string * string) :=
  flat_map (fun day =>
    flat_map (fun service_ =>
      map (fun t => (day, t, service_)) seed_times) seed_services) days.

Definition has_slot (key : string * string * string) (rows : list Slot)
  : bool :=
  existsb (slot_matches (Some (fst (fst key))) (Some (snd (fst key)))
             (Some (snd key))) rows.

(** [INSERT OR IGNORE INTO available_slots (date, time, service)]: the
    UNIQUE constraint decides; [new_rowid] is the rowid the engine gives a
    row added to the table as it stands. *)
Definition insert_or_ignore_slot (new_rowid : list Slot -> Z)
    (rows : list Slot) (key : string * string * string) : list Slot :=
  if has_slot key rows then rows
  else rows ++ [ {| slot_id := new_rowid rows; slot_date := fst (fst key);
                    slot_time := snd (fst key); slot_service := snd key;
                    is_booked := 0 |} ].

(** What can go wrong while seeding: an engine error at the [attempt]-th
    INSERT, counted from 0 in the order of the three loops, and at the
    COMMIT. *)
Record SeedEnv : Type := {
  seed_insert_error : nat -> option exn;
  seed_commit_error : option exn
}.

(** The three loops from the [attempt]-th INSERT on; an INSERT that raises
    is passed over ([except Exception: pass]). *)
Fixpoint seed_inserts (new_rowid : list Slot -> Z) (env : SeedEnv)
    (attempt : nat) (keys : list (string * string * string))
    (rows : list Slot) : list Slot :=
  match keys with
  | [] => rows
  | key :: rest =>
      seed_inserts new_rowid env (S attempt) rest
        (match seed_insert_error env attempt with
         | Some _ => rows
         | None => insert_or_ignore_slot new_rowid rows key
         end)
  end.

(** [seed_slots], for the fourteen days [days] that follow today.  The
    COMMIT is not guarded: when it raises, the exception leaves
    [seed_slots] and the connection is dropped with its transaction
    open. *)
Definition seed_slots (new_rowid : list Slot -> Z) (env : SeedEnv)
    (days : list string) (db : Database) : exc unit * Database :=
  let c := get_connection db in
  let t := in_txn c in
  let c' :=
    {| on_disk := on_disk c;
       in_txn :=
         {| available_slots :=
              seed_inserts new_rowid env 0 (seed_keys days)
                (available_slots t);
            appointments := appointments t;
            appointments_seq := appointments_seq t |} |} in
  match seed_commit_error env with
  | Some e => (Raise e, close c')
  | None => (Ok tt, close {| on_disk := in_txn c'; in_txn := in_txn c' |})
  end.

(** *** The dashboard query *)

(** [ORDER BY time] and [ORDER BY date, time] on appointments *)
Definition appointments_by_time (rows : list Appointment) : list Appointment :=
  PyList.sorted (fun a b => String.leb (time a) (time b)) rows.

Definition appointments_by_date_time (rows : list Appointment)
  : list Appointment :=
  PyList.sorted
    (fun a b => String.ltb (date a) (date b)
                || (String.eqb (date a) (date b)
                    && String.leb (time a) (time b))) rows.

(** [get_appointments(date_str)] *)
Definition get_appointments (date_str : option string) (db : Database)
  : list Appointment :=
  if PyStr.truthy date_str then
    appointments_by_time
      (filter (fun a => sql_eq (date a) date_str) (appointments db))
  else appointments_by_date_time (appointments db).

End DB.

(* ------------------------------------------------------------------ *)
(** ** voice_agent/state.py *)

Module State.

Inductive ConversationState : Type :=
  | IDLE
  | GREETING
  | INTENT_DETECTION
  | FAQ
  | COLLECT_SERVICE
  | COLLECT_DATE
  | SHOW_SLOTS
  | COLLECT_SLOT
  | COLLECT_NAME
  | COLLECT_PHONE
  | CONFIRM_BOOKING
  | BOOKING_DONE.

Definition state_eqb (a b : ConversationState) : bool :=
  match a, b with
  | IDLE, IDLE | GREETING, GREETING | INTENT_DETECTION, INTENT_DETECTION
  | FAQ, FAQ | COLLECT_SERVICE, COLLECT_SERVICE | COLLECT_DATE, COLLECT_DATE
  | SHOW_SLOTS, SHOW_SLOTS | COLLECT_SLOT, COLLECT_SLOT
  | COLLECT_NAME, COLLECT_NAME | COLLECT_PHONE, COLLECT_PHONE
  | CONFIRM_BOOKING, CONFIRM_BOOKING | BOOKING_DONE, BOOKING_DONE => true
  | _, _ => false
  end.

(** Attribute access [ConversationState.<name>] on the enum class. *)
Definition member (name : string) : exc ConversationState :=
  if String.eqb name "IDLE" then Ok IDLE
  else if String.eqb name "GREETING" then Ok GREETING
  else if String.eqb name "INTENT_DETECTION" then Ok INTENT_DETECTION
  else if String.eqb name "FAQ" then Ok FAQ
  else if String.eqb name "COLLECT_SERVICE" then Ok COLLECT_SERVICE
  else if String.eqb name "COLLECT_DATE" then Ok COLLECT_DATE
  else if String.eqb name "SHOW_SLOTS" then Ok SHOW_SLOTS
  else if String.eqb name "COLLECT_SLOT" then Ok COLLECT_SLOT
  else if String.eqb name "COLLECT_NAME" then Ok COLLECT_NAME
  else if String.eqb name "COLLECT_PHONE" then Ok COLLECT_PHONE
  else if String.eqb name "CONFIRM_BOOKING" then Ok CONFIRM_BOOKING
  else if String.eqb name "BOOKING_DONE" then Ok BOOKING_DONE
  else Raise (AttributeError name).

Record BookingSession : Type := {
  room_id : string;
  language : string;
  state : ConversationState;
  (** most recent state last *)
  state_history : list ConversationState;
  service : option string;
  date : option string;
  time : option string;
  name : option string;
  phone : option string;
  available_slots : list DB.Slot;
  pre_faq_state : option ConversationState
}.

(** [BookingSession(room_id=room_id)] *)
Definition new_session (room : string) : BookingSession :=
  {| room_id := room; language := "en"; state := IDLE; state_history := [];
     service := None; date := None; time := None; name := None;
     phone := None; available_slots := []; pre_faq_state := None |}.

Definition set_state (s : BookingSession) (st : ConversationState) :=
  {| room_id := room_id s; language := language s; state := st;
     state_history := state_history s; service := service s;
     date := date s; time := time s; name := name s; phone := phone s;
     available_slots := available_slots s;
     pre_faq_state := pre_faq_state s |}.

Definition set_state_history (s : BookingSession) (h : list ConversationState) :=
  {| room_id := room_id s; language := language s; state := state s;
     state_history := h; service := service s;
     date := date s; time := time s; name := name s; phone := phone s;
     available_slots := available_slots s;
     pre_faq_state := pre_faq_state s |}.

Definition set_language (s : BookingSession) (l : string) :=
  {| room_id := room_id s; language := l; state := state s;
     state_history := state_history s; service := service s;
     date := date s; time := time s; name := name s; phone := phone s;
     available_slots := available_slots s;
     pre_faq_state := pre_faq_state s |}.

Definition set_service (s : BookingSession) (v : option string) :=
  {| room_id := room_id s; language := language s; state := state s;
     state_history := state_history s; service := v;
     date := date s; time := time s; name := name s; phone := phone s;
     available_slots := available_slots s;
     pre_faq_state := pre_faq_state s |}.

Definition set_date (s : BookingSession) (v : option string) :=
  {| room_id := room_id s; language := language s; state := state s;
     state_history := state_history s; service := service s;
     date := v; time := time s; name := name s; phone := phone s;
     available_slots := available_slots s;
     pre_faq_state := pre_faq_state s |}.

Definition set_time (s : BookingSession) (v : option string) :=
  {| room_id := room_id s; language := language s; state := state s;
     state_history := state_history s; service := service s;
     date := date s; time := v; name := name s; phone := phone s;
     available_slots := available_slots s;
     pre_faq_state := pre_faq_state s |}.

Definition set_name (s : BookingSession) (v : option string) :=
  {| room_id := room_id s; language := language s; state := state s;
     state_history := state_history s; service := service s;
     date := date s; time := time s; name := v; phone := phone s;
     available_slots := available_slots s;
     pre_faq_state := pre_faq_state s |}.

Definition set_phone (s : BookingSession) (v : option string) :=
  {| room_id := room_id s; language := language s; state := state s;
     state_history := state_history s; service := service s;
     date := date s; time := time s; name := name s; phone := v;
     available_slots := available_slots s;
     pre_faq_state := pre_faq_state s |}.

Definition set_available_slots (s : BookingSession) (v : list DB.Slot) :=
  {| room_id := room_id s; language := language s; state := state s;
     state_history := state_history s; service := service s;
     date := date s; time := time s; name := name s; phone := phone s;
     available_slots := v;
     pre_faq_state := pre_faq_state s |}.

Definition set_pre_faq_state (s : BookingSession) (v : option ConversationState) :=
  {| room_id := room_id s; language := language s; state := state s;
     state_history := state_history s; service := service s;
     date := date s; time := time s; name := name s; phone := phone s;
     available_slots := available_slots s;
     pre_faq_state := v |}.

(** [self.state_history.append(self.state); self.state = new_state] *)
Definition transition_to (s : BookingSession) (new_state : ConversationState)
  : BookingSession :=
  set_state (set_state_history s (state_history s ++ [state s])) new_state.

(** [list.pop()] on a non-empty list: what is left and the last element. *)
Fixpoint pop (l : list ConversationState)
  : option (list ConversationState * ConversationState) :=
  match l with
  | [] => None
  | x :: rest =>
      match pop rest with
      | None => Some ([], x)
      | Some (init, last) => Some (x :: init, last)
      end
  end.

(** [go_back]: the returned flag and the session afterwards. *)
Definition go_back (s : BookingSession) : bool * BookingSession :=
  match pop (state_history s) with
  | Some (init, last) => (true, set_state (set_state_history s init) last)
  | None => (false, s)
  end.

Definition reset_booking (s : BookingSession) : BookingSession :=
  {| room_id := room_id s; language := language s; state := IDLE;
     state_history := []; service := None; date := None; time := None;
     name := None; phone := None; available_slots := [];
     pre_faq_state := None |}.

(** [all([service, date, time, name, phone])] *)
Definition is_booking_complete (s : BookingSession) : bool :=
  PyStr.truthy (service s) && PyStr.truthy (date s) && PyStr.truthy (time s)
  && PyStr.truthy (name s) && PyStr.truthy (phone s).

Definition nl : string := String (ascii_of_nat 10) EmptyString.

Definition summary (s : BookingSession) : string :=
  if String.eqb (language s) "de" then
      "Name: " ++ PyStr.show (name s) ++ nl
      ++ "Service: " ++ PyStr.show (service s) ++ nl
      ++ "Datum: " ++ PyStr.show (date s) ++ " um "
      ++ PyStr.show (time s) ++ " Uhr" ++ nl
      ++ "Telefon: " ++ PyStr.show (phone s) ++ nl
  else
      "Name: " ++ PyStr.show (name s) ++ nl
      ++ "Service: " ++ PyStr.show (service s) ++ nl
      ++ "Date: " ++ PyStr.show (date s) ++ " at "
      ++ PyStr.show (time s) ++ nl
      ++ "Phone: " ++ PyStr.show (phone s) ++ nl.

(** [state.value] *)
Definition state_value (st : ConversationState) : string :=
  match st with
  | IDLE => "idle"
  | GREETING => "greeting"
  | INTENT_DETECTION => "intent_detection"
  | FAQ => "faq"
  | COLLECT_SERVICE => "collect_service"
  | COLLECT_DATE => "collect_date"
  | SHOW_SLOTS => "show_slots"
  | COLLECT_SLOT => "collect_slot"
  | COLLECT_NAME => "collect_name"
  | COLLECT_PHONE => "collect_phone"
  | CONFIRM_BOOKING => "confirm_booking"
  | BOOKING_DONE => "booking_done"
  end.

End State.

(* ------------------------------------------------------------------ *)
(** ** embedding/embedding.py *)

Module Embedding.

Open Scope Q_scope.

Definition RELEVANCE_THRESHOLD : Q := - (5 # 2).
Definition CANDIDATE_MULTIPLIER : Z := 4.
Definition RERANKER_DOC_MAX_CHARS : nat := 450.
Definition RERANKER_BATCH_SIZE : nat := 8.

(** A langchain [Document]: [page_content] and the three metadata keys in
    use ([None] when the key is absent). *)
Record Document : Type := {
  page_content : string;
  source_type : option string;
  page_name : option string;
  source_pdf : option string
}.

(** [doc.metadata.get("source_type") == "web"] *)
Definition is_web (doc : Document) : bool :=
  match source_type doc with
  | Some t => String.eqb t "web"
  | None => false
  end.

Definition info_keywords : list string :=
  [ "how"; "what"; "when"; "where"; "can i"; "wie kann";
    "book"; "appointment"; "termin"; "buchen"; "contact";
    "phone"; "email"; "opening hours"; "services"; "treatment";
    "cost"; "price"; "insurance"; "process"; "procedure";
    "öffnungszeiten"; "kontakt"; "telefon"; "angebot" ]%string.

Definition form_keywords : list string :=
  [ "registration"; "anmeldung"; "form"; "formular";
    "documents needed"; "what information"; "fill out";
    "patient form"; "which documents"; "bring to appointment" ]%string.

(** The cross-encoder: one score per (query, text) pair; a call on a batch
    may raise. *)
Record Reranker : Type := {
  predict_one : string -> string -> Q;
  predict_raises : list (string * string) -> bool
}.

(** [reranker.predict(batch)] *)
Definition predict (r : Reranker) (batch : list (string * string))
  : exc (list Q) :=
  if predict_raises r batch then Raise (RuntimeError "predict")
  else Ok (map (fun p => predict_one r (fst p) (snd p)) batch).

(** The collaborators of [retrieve]: the FAISS and BM25 retrievers with
    their [k], the loaders, and the switch read from the environment. *)
Record Collaborators : Type := {
  RERANKER_ENABLED : bool;
  build_or_load_vectorstore : exc unit;
  load_all_chunks : exc unit;
  faiss_invoke : string -> Z -> exc (list Document);
  bm25_invoke : string -> Z -> exc (list Document);
  load_reranker : exc Reranker
}.

(** [_deduplicate], the set [seen] kept as the list of the keys added to
    it. *)
Fixpoint _deduplicate_from `{rt : PyRuntime} (seen : list Z)
    (docs : list Document) : list Document :=
  match docs with
  | [] => []
  | doc :: rest =>
      let key := py_hash (page_content doc) in
      if existsb (Z.eqb key) seen
      then _deduplicate_from seen rest
      else doc :: _deduplicate_from (key :: seen) rest
  end.

Definition _deduplicate `{rt : PyRuntime} (docs : list Document)
  : list Document :=
  _deduplicate_from [] docs.

(** [for i in range(0, len(pairs), n): pairs[i : i + n]] *)
Fixpoint batches_from (A : Type) (fuel n : nat) (l : list A)
  : list (list A) :=
  match fuel, l with
  | S fuel', _ :: _ => firstn n l :: batches_from fuel' n (skipn n l)
  | _, _ => []
  end.

Definition batches (A : Type) (n : nat) (l : list A) : list (list A) :=
  batches_from (length l) n l.

(** The scoring loop: [scores.extend(reranker.predict(batch))]. *)
Fixpoint predict_batches (r : Reranker) (bs : list (list (string * string)))
  : exc (list Q) :=
  match bs with
  | [] => Ok []
  | b :: rest =>
      here <- predict r b ;;
      more <- predict_batches r rest ;;
      Ok (here ++ more)%list
  end.

(** [sorted(zip(combined, boosted_scores, scores), key=lambda x: x[1],
            reverse=True)] *)
Definition rank (rows : list (Document * Q * Q)) : list (Document * Q * Q) :=
  PyList.sorted (fun x y => Qle_bool (snd (fst y)) (snd (fst x))) rows.

Definition boosted_of (row : Document * Q * Q) : Q := snd (fst row).
Definition original_of (row : Document * Q * Q) : Q := snd row.
Definition doc_of (row : Document * Q * Q) : Document := fst (fst row).

(** The additive boost chosen from the intent. *)
Definition web_boost_of (intent : string) : Q :=
  if String.eqb intent "information" then 3
  else if String.eqb intent "form" then 0
  else 3 # 2.

(** The loop that fills [boosted_scores]. *)
Definition boost_scores `{rt : PyRuntime} (web_boost : Q)
    (combined : list Document) (scores : list Q) : list Q :=
  map (fun ds =>
         if is_web (fst ds) then float_add (snd ds) web_boost else snd ds)
      (combine combined scores).

(** STEP 5, from [ranked] to [candidate_pool]. *)
Definition threshold_filter (top_n : Z) (ranked : list (Document * Q * Q))
  : list (Document * Q * Q) :=
  let above :=
    filter (fun r => Qle_bool RELEVANCE_THRESHOLD (boosted_of r)) ranked in
  let below :=
    filter (fun r => negb (Qle_bool RELEVANCE_THRESHOLD (boosted_of r)))
           ranked in
  match above with
  | [] => PyList.slice_to top_n ranked
  | _ :: _ =>
      if (top_n <=? Z.of_nat (length above))%Z
      then PyList.slice_to top_n above
      else
        let need := (top_n - Z.of_nat (length above))%Z in
        (above ++ PyList.slice_to need below)%list
  end.

Section WithRuntime.
Context `{rt : PyRuntime}.

Definition info_count (query : string) : nat :=
  PyStr.count_in (str_lower query) info_keywords.

Definition form_count (query : string) : nat :=
  PyStr.count_in (str_lower query) form_keywords.

Definition classify_query_intent (query : string) : string :=
  let info_count := info_count query in
  let form_count := form_count query in
  if (form_count <? info_count)%nat then "information"
  else if (info_count <? form_count)%nat then "form"
  else "general".

Definition normalize_query (query : string) : string :=
  str_strip (re_collapse_ws (str_lower (str_strip query))).

(** [a or b or ""] over two optional metadata values *)
Definition first_truthy (a b : option string) : string :=
  if PyStr.truthy a then PyStr.or_empty a
  else if PyStr.truthy b then PyStr.or_empty b
  else ""%string.

Definition hours_terms : list string :=
  [ "opening hours"; "open hours"; "öffnungszeiten"; "oeffnungszeiten";
    "when is"; "wann"; "available"; "availability"; "open";
    "geöffnet"; "geoeffnet" ]%string.

(** The score the heuristic gives one document. *)
Definition heuristic_score (doc : Document) : Z :=
  let name :=
    str_strip (str_lower (first_truthy (page_name doc) (source_pdf doc))) in
  let content := str_lower (page_content doc) in
  ((if PyStr.contains name "functiotraining" then 12 else 0)
   + (if PyStr.contains name "angebot_functiotraining"
         || PyStr.contains name "en_angebot_functiotraining"
      then 20 else 0)
   + (if PyStr.contains content "öffnungszeiten"
         || PyStr.contains content "oeffnungszeiten"
         || PyStr.contains content "opening hours"
      then 10 else 0)
   + (if PyStr.contains content "trainingsfläche"
         || PyStr.contains content "trainingsflaeche"
         || PyStr.contains content "trainingsfla"
      then 6 else 0)
   + (if re_has_clock_time content then 3 else 0))%Z.

(** [scored.sort(key=lambda x: (-x[0], x[1]))] on (score, idx, doc) *)
Definition heuristic_before (x y : Z * nat * Document) : bool :=
  let kx := (- fst (fst x))%Z in
  let ky := (- fst (fst y))%Z in
  (kx <? ky)%Z || ((kx =? ky)%Z && (snd (fst x) <=? snd (fst y))%nat).

Definition _heuristic_sort_when_reranker_disabled (query : string)
    (docs : list Document) : list Document :=
  let q := str_lower query in
  let wants_hours := PyStr.any_in q hours_terms in
  if negb wants_hours || match docs with [] => true | _ => false end
  then docs
  else
    let scored :=
      map (fun id => (heuristic_score (snd id), fst id, snd id))
          (PyList.enumerate docs) in
    map snd (PyList.sorted heuristic_before scored).

Definition _truncate_for_rerank (text : string) : string :=
  if String.eqb text "" || String.eqb (str_strip text) "" then " "%string
  else
    let text := str_strip text in
    if (str_len text <=? RERANKER_DOC_MAX_CHARS)%nat then text
    else
      let cut := str_take RERANKER_DOC_MAX_CHARS text in
      let head := PyStr.rsplit_blank_head cut in
      if String.eqb head "" then cut else head.

(** The body of the outer [try] of [retrieve]. *)
Definition retrieve_try (env : Collaborators) (query : string) (top_n : Z)
  : exc (list Document) :=
  let intent := classify_query_intent query in
  let web_boost := web_boost_of intent in
  let normalized_q := normalize_query query in
  _ <- build_or_load_vectorstore env ;;
  _ <- load_all_chunks env ;;
  let n_candidates := (top_n * CANDIDATE_MULTIPLIER)%Z in
  faiss_docs <- faiss_invoke env query n_candidates ;;
  bm25_docs <- bm25_invoke env normalized_q n_candidates ;;
  let combined := _deduplicate (faiss_docs ++ bm25_docs)%list in
  match combined with
  | [] => Ok []
  | _ :: _ =>
      if negb (RERANKER_ENABLED env) then
        Ok (PyList.slice_to top_n
              (_heuristic_sort_when_reranker_disabled query combined))
      else
        reranker <- load_reranker env ;;
        let pairs :=
          map (fun doc => (query, _truncate_for_rerank (page_content doc)))
              combined in
        match predict_batches reranker
                (batches RERANKER_BATCH_SIZE pairs) with
        | Raise _ =>
            Ok (PyList.slice_to top_n
                  (_heuristic_sort_when_reranker_disabled query combined))
        | Ok scores =>
            let boosted_scores := boost_scores web_boost combined scores in
            let ranked :=
              rank (combine (combine combined boosted_scores) scores) in
            let candidate_pool := threshold_filter top_n ranked in
            Ok (map doc_of candidate_pool)
        end
  end.

(** [retrieve]: any exception ends in the empty list. *)
Definition retrieve (env : Collaborators) (query : string) (top_n : Z)
  : list Document :=
  match retrieve_try env query top_n with
  | Ok final_docs => final_docs
  | Raise _ => []
  end.

End WithRuntime.

End Embedding.

(* ------------------------------------------------------------------ *)
(** ** chating/chating.py *)

Module Chating.

(** [llm.invoke(prompt).content] for the prompt built from the question and
    the context; the call may raise. *)
Record Llm : Type := {
  invoke : string -> string -> exc string
}.

Definition no_information : string :=
  "I'm sorry, I couldn't find any relevant information.".

Section WithRuntime.
Context `{rt : PyRuntime}.

(** [ask_llm]; [vector_store] tells whether the module-level handle is
    already set, and is returned as the call leaves it. *)
Definition ask_llm (vector_store : bool) (env : Embedding.Collaborators)
    (llm : Llm) (query : string) : exc string * bool :=
  match (if vector_store then Ok tt
         else Embedding.build_or_load_vectorstore env) with
  | Raise e => (Raise e, vector_store)
  | Ok _ =>
      let context_docs := Embedding.retrieve env query 20 in
      match context_docs with
      | [] => (Ok no_information, true)
      | _ :: _ =>
          let context :=
            PyStr.join (State.nl ++ State.nl)%string
              (map Embedding.page_content context_docs) in
          match invoke llm query context with
          | Ok content => (Ok content, true)
          | Raise e =>
              (Ok ("Fehler beim Abrufen der Antwort: " ++ exn_message e)%string,
               true)
          end
      end
  end.

End WithRuntime.

End Chating.

(* ------------------------------------------------------------------ *)
(** ** voice_agent/agent.py *)

Module Agent.

Import State.

(** *** Responses

    The text of a response is kept as the sequence of its parts: a
    template of the table of [R] under its key, language and keyword
    arguments, or a literal string.  [+] on [str] is [++] here. *)

Inductive Value : Type :=
  | VNone
  | VStr (s : string)
  | VInt (i : Z).

Definition of_optional (o : option string) : Value :=
  match o with
  | Some s => VStr s
  | None => VNone
  end.

Inductive Piece : Type :=
  | Template (key lang : string) (kwargs : list (string * Value))
  | Literal (s : string).

Definition Text : Type := list Piece.

Definition R (key lang : string) (kwargs : list (string * Value)) : Text :=
  [Template key lang kwargs].

Definition lit (s : string) : Text := [Literal s].

Definition CANONICAL_SERVICES : list string :=
  [ "physiotherapy"; "massage"; "osteopathy"; "mental coaching";
    "ergotherapy"; "acupuncture"; "nutrition counseling" ].

(** [SERVICE_ALIASES.items()], in the order of the dictionary. *)
Definition SERVICE_ALIASES : list (string * string) :=
  [ ("physio", "physiotherapy");
    ("physiotherapy", "physiotherapy");
    ("physical therapy", "physiotherapy");
    ("massage", "massage");
    ("osteo", "osteopathy");
    ("osteopathy", "osteopathy");
    ("mental", "mental coaching");
    ("mental coaching", "mental coaching");
    ("coaching", "mental coaching");
    ("ergo", "ergotherapy");
    ("ergotherapy", "ergotherapy");
    ("occupational", "ergotherapy");
    ("acupuncture", "acupuncture");
    ("nutrition", "nutrition counseling");
    ("dietitian", "nutrition counseling");
    ("physiotherapie", "physiotherapy");
    ("krankengymnastik", "physiotherapy");
    ("osteopathie", "osteopathy");
    ("mentaltraining", "mental coaching");
    ("mental training", "mental coaching");
    ("ergotherapie", "ergotherapy");
    ("akupunktur", "acupuncture");
    ("ernährung", "nutrition counseling");
    ("ernährungsberatung", "nutrition counseling");
    ("ernaehrung", "nutrition counseling") ].

Definition german_words : list string :=
  [ "ich"; "bitte"; "danke"; "möchte"; "mochte"; "termin";
    "buchen"; "hallo"; "ja"; "nein"; "wie"; "können"; "konnen";
    "wann"; "welche"; "einen"; "eine"; "der"; "die"; "das";
    "für"; "fur"; "und"; "oder"; "mit"; "von"; "auf"; "ist";
    "guten"; "morgen"; "tag"; "abend" ].

Definition cancel_words : list string :=
  [ "cancel"; "stop"; "abort"; "quit"; "exit";
    "abbrechen"; "stopp"; "aufhören"; "beenden" ].

Definition back_words : list string :=
  [ "go back"; "back"; "previous"; "zurück"; "zuruck"; "nochmal" ].

Definition book_words : list string :=
  [ "book"; "appointment"; "reserve"; "schedule"; "buchen";
    "termin"; "anmelden"; "reservieren"; "möchte einen";
    "make an appointment"; "book an appointment" ].

Definition month_names : list (string * string) :=
  [ ("january", "1"); ("february", "2"); ("march", "3"); ("april", "4");
    ("may", "5"); ("june", "6"); ("july", "7"); ("august", "8");
    ("september", "9"); ("october", "10"); ("november", "11");
    ("december", "12");
    ("januar", "1"); ("februar", "2"); ("märz", "3"); ("maerz", "3");
    ("mai", "5"); ("juni", "6"); ("juli", "7");
    ("oktober", "10"); ("dezember", "12") ].

(** [word_to_hour.items()], the hour already as [str(hour_int).zfill(2)] *)
Definition word_to_hour : list (string * string) :=
  [ ("nine", "09"); ("ten", "10"); ("eleven", "11");
    ("twelve", "12"); ("one", "13"); ("two", "14");
    ("three", "15"); ("four", "16"); ("five", "17");
    ("neun", "09"); ("zehn", "10"); ("elf", "11");
    ("zwölf", "12"); ("dreizehn", "13") ].

Definition slot_yes_words : list string :=
  [ "yes"; "ja"; "ok"; "that"; "that one"; "fine"; "good" ].

Definition yes_words : list string :=
  [ "yes"; "ja"; "correct"; "korrekt"; "right"; "stimmt";
    "confirm"; "bestätigen"; "yep"; "yup"; "sure"; "ok"; "okay" ].

Definition no_words : list string :=
  [ "no"; "nein"; "wrong"; "falsch"; "cancel"; "abbrechen";
    "incorrect"; "not right"; "change" ].

(** What a turn takes from outside the session and the tables. *)
Record Env : Type := {
  (** [chating.ask_llm], which may raise *)
  ask_llm : string -> exc string;
  sql_env : DB.SqlEnv
}.

Definition in_idle_or_greeting (st : ConversationState) : bool :=
  match st with
  | IDLE | GREETING => true
  | _ => false
  end.

(** The first slot whose time starts with [hour_str + ":"]. *)
Definition slot_at_hour (hour_str : string) (slots : list DB.Slot)
  : option DB.Slot :=
  find (fun slot =>
          PyStr.startswith (DB.slot_time slot) (hour_str ++ ":")%string)
       slots.

(** The loop over [word_to_hour.items()] of [detect_time]. *)
Fixpoint spoken_hour (text_lower : string) (words : list (string * string))
    (slots : list DB.Slot) : option string :=
  match words with
  | [] => None
  | (word, hour_str) :: rest =>
      if PyStr.contains text_lower word then
        match slot_at_hour hour_str slots with
        | Some slot => Some (DB.slot_time slot)
        | None => spoken_hour text_lower rest slots
        end
      else spoken_hour text_lower rest slots
  end.

Section WithRuntime.
Context `{rt : PyRuntime}.

Definition detect_language (text : string) : string :=
  let text_lower := str_lower text in
  let score :=
    length (filter (fun word =>
                      existsb (String.eqb word) (str_split text_lower))
                   german_words) in
  if 2 <=? score then "de" else "en".

Fixpoint first_alias (text_lower : string) (aliases : list (string * string))
  : option string :=
  match aliases with
  | [] => None
  | (alias, canonical) :: rest =>
      if PyStr.contains text_lower alias then Some canonical
      else first_alias text_lower rest
  end.

Definition detect_service (text : string) : option string :=
  let text_lower := str_strip (str_lower text) in
  first_alias text_lower SERVICE_ALIASES.

Definition detect_intent (text : string) : string :=
  let text_lower := str_lower text in
  if PyStr.any_in text_lower cancel_words then "cancel"
  else if PyStr.any_in text_lower back_words then "go_back"
  else if PyStr.any_in text_lower book_words then "book"
  else if PyStr.truthy (detect_service text) then "book"
  else "faq".

Fixpoint first_month (text_low : string) (months : list (string * string))
  : option string :=
  match months with
  | [] => None
  | (month_name, month_num) :: rest =>
      match re_day_before month_name text_low with
      | Some day =>
          Some (today_year ++ "-" ++ str_zfill2 month_num ++ "-"
                ++ str_zfill2 day)%string
      | None => first_month text_low rest
      end
  end.

Definition detect_date (text : string) : option string :=
  let text_low := str_strip (str_lower text) in
  if PyStr.any_in text_low ["today"; "heute"; "jetzt"] then Some today_iso
  else if PyStr.any_in text_low ["tomorrow"; "morgen"]
  then Some tomorrow_iso
  else if PyStr.contains text_low "next week"
          || PyStr.contains text_low "nächste woche"
  then Some next_week_iso
  else
    match re_iso_date text with
    | Some iso => Some iso
    | None =>
        match re_dmy_date text with
        | Some (day, month, year) =>
            Some (year ++ "-" ++ str_zfill2 month ++ "-"
                  ++ str_zfill2 day)%string
        | None =>
            match re_dm_date text with
            | Some (day, month) =>
                Some (today_year ++ "-" ++ str_zfill2 month ++ "-"
                      ++ str_zfill2 day)%string
            | None => first_month text_low month_names
            end
        end
    end.

(** The numeric part of [detect_time]: [None] stands for falling
    through to the spoken hours. *)
Definition clock_time (text : string) (available_slots : list DB.Slot)
  : option string :=
  match re_time text with
  | Some (group1, group2) =>
      let hour := str_zfill2 group1 in
      let minute := if PyStr.truthy group2 then PyStr.or_empty group2
                    else "00" in
      let candidate := (hour ++ ":" ++ minute)%string in
      if existsb (fun slot => String.eqb (DB.slot_time slot) candidate)
                 available_slots
      then Some candidate
      else
        match slot_at_hour hour available_slots with
        | Some slot => Some (DB.slot_time slot)
        | None => None
        end
  | None => None
  end.

Definition detect_time (text : string) (available_slots : list DB.Slot)
  : option string :=
  match available_slots with
  | [] => None
  | first :: others =>
      match clock_time text available_slots with
      | Some t => Some t
      | None =>
          match spoken_hour (str_lower text) word_to_hour
                  available_slots with
          | Some t => Some t
          | None =>
              match others with
              | [] =>
                  if PyStr.any_in (str_lower text) slot_yes_words
                  then Some (DB.slot_time first)
                  else None
              | _ :: _ => None
              end
          end
      end
  end.

Definition detect_yes_no (text : string) : option string :=
  let t := str_lower text in
  if PyStr.any_in t yes_words then Some "yes"
  else if PyStr.any_in t no_words then Some "no"
  else None.

(** [", ".join(s["time"] for s in slots[:5])] *)
Definition first_times (slots : list DB.Slot) : string :=
  PyStr.join ", " (map DB.slot_time (PyList.slice_to 5 slots)).

(** [prompts.get(state, default)] *)
Fixpoint prompts_get (prompts : list (ConversationState * Text))
    (st : ConversationState) (default : Text) : Text :=
  match prompts with
  | [] => default
  | (k, v) :: rest =>
      if state_eqb k st then v else prompts_get rest st default
  end.

(** [_prompt_for_current_state]: the dictionary display is evaluated
    entry by entry, key before value, before [get] is called. *)
Definition _prompt_for_current_state (session : BookingSession)
  : exc Text :=
  let lang := language session in
  let st := state session in
  k1 <- member "COLLECT_SERVICE" ;;
  let v1 := R "ask_service" lang [] in
  k2 <- member "COLLECT_DATE" ;;
  let v2 := R "service_confirmed" lang
              [("service", VStr (PyStr.or_empty (service session)))] in
  k3 <- member "COLLECT_SLOT" ;;
  let v3 :=
    match available_slots session with
    | _ :: _ =>
        R "available_slots" lang
          [("date", VStr (PyStr.or_empty (date session)));
           ("service", VStr (PyStr.or_empty (service session)));
           ("times", VStr (first_times (available_slots session)))]
    | [] => R "ask_date" lang []
    end in
  k4 <- member "COLLECT_NAME" ;;
  let v4 := R "ask_name" lang [] in
  k5 <- member "COLLECT_EMAIL" ;;
  let v5 := R "ask_email" lang
              [("name", VStr (PyStr.or_empty (name session)))] in
  k6 <- member "COLLECT_PHONE" ;;
  let v6 := R "ask_phone" lang [] in
  k7 <- member "CONFIRM_BOOKING" ;;
  let v7 := R "confirm_booking" lang [("summary", VStr (summary session))] in
  let prompts :=
    [(k1, v1); (k2, v2); (k3, v3); (k4, v4); (k5, v5); (k6, v6); (k7, v7)] in
  Ok (prompts_get prompts st (R "welcome" lang [])).

(** [_ask_rag]: the call of [ask_llm], any exception turned into the
    apology. *)
Definition _ask_rag (env : Env) (query : string) : string :=
  match ask_llm env query with
  | Ok answer => answer
  | Raise _ => "I'm sorry, I couldn't retrieve that information right now."
  end.


(** *** The state machine

    A turn yields the response or the exception that escapes, the
    session as the turn leaves it, and the tables. *)

Definition Turn : Type := (exc Text * BookingSession * DB.Database)%type.

Definition two_newlines : string := (nl ++ nl)%string.

(** The two steps of an FAQ interrupt around the call of [_ask_rag]. *)
Definition faq_interrupt_enter (session : BookingSession)
    (st : ConversationState) : BookingSession :=
  set_state (set_pre_faq_state session (Some st)) FAQ.

Definition faq_interrupt_leave (session : BookingSession)
    (st : ConversationState) : BookingSession :=
  set_pre_faq_state (set_state session st) None.

(** UNIVERSAL: cancel *)
Definition universal_cancel (lang : string) (session : BookingSession)
    (db : DB.Database) : Turn :=
  (Ok (R "cancelled" lang []), reset_booking session, db).

(** UNIVERSAL: go back *)
Definition universal_go_back (lang : string) (session : BookingSession)
    (db : DB.Database) : Turn :=
  let (went, session) := go_back session in
  if went then
    (prompt <- _prompt_for_current_state session ;;
     Ok (R "went_back" lang [] ++ lit " " ++ prompt),
     session, db)
  else (Ok (R "at_beginning" lang []), session, db).

(** State: IDLE / GREETING *)
Definition handle_idle_greeting (env : Env) (lang text : string)
    (session : BookingSession) (db : DB.Database) : Turn :=
  let intent := detect_intent text in
  if String.eqb intent "book" then
    let session := transition_to session COLLECT_SERVICE in
    (Ok (R "ask_service" lang []), session, db)
  else
    let session := transition_to session FAQ in
    let answer := _ask_rag env text in
    let session := transition_to session IDLE in
    (Ok (lit answer), session, db).

(** State: FAQ *)
Definition handle_faq (env : Env) (lang text : string)
    (session : BookingSession) (db : DB.Database) : Turn :=
  let answer := _ask_rag env text in
  match pre_faq_state session with
  | Some saved =>
      let session := set_state session saved in
      let session := set_pre_faq_state session None in
      (resume_prompt <- _prompt_for_current_state session ;;
       Ok (lit answer ++ lit two_newlines
           ++ R "faq_resume_booking" lang [] ++ lit " " ++ resume_prompt),
       session, db)
  | None =>
      let session := set_state session IDLE in
      (Ok (lit answer), session, db)
  end.

(** State: COLLECT_SERVICE *)
Definition handle_collect_service (env : Env) (lang text : string)
    (st : ConversationState) (session : BookingSession)
    (db : DB.Database) : Turn :=
  if String.eqb (detect_intent text) "faq"
     && negb (PyStr.truthy (detect_service text))
  then
    let session := faq_interrupt_enter session st in
    let answer := _ask_rag env text in
    let session := faq_interrupt_leave session st in
    (Ok (lit answer ++ lit two_newlines ++ R "ask_service" lang []),
     session, db)
  else
    let found := detect_service text in
    if negb (PyStr.truthy found) then
      (Ok (R "service_not_found" lang []), session, db)
    else
      let session := set_service session found in
      let session := transition_to session COLLECT_DATE in
      (Ok (R "service_confirmed" lang [("service", of_optional found)]),
       session, db).

(** State: COLLECT_DATE *)
Definition handle_collect_date (env : Env) (lang text : string)
    (st : ConversationState) (session : BookingSession)
    (db : DB.Database) : Turn :=
  if String.eqb (detect_intent text) "faq"
     && negb (PyStr.truthy (detect_date text))
  then
    let session := faq_interrupt_enter session st in
    let answer := _ask_rag env text in
    let session := faq_interrupt_leave session st in
    (Ok (lit answer ++ lit two_newlines ++ R "ask_date" lang []),
     session, db)
  else
    let parsed_date := detect_date text in
    if negb (PyStr.truthy parsed_date) then
      (Ok (R "date_not_found" lang []), session, db)
    else
      let slots :=
        DB.get_available_slots (PyStr.or_empty parsed_date)
          (service session) db in
      match slots with
      | [] =>
          (Ok (R "no_slots" lang
                 [("service", of_optional (service session));
                  ("date", of_optional parsed_date)]),
           session, db)
      | _ :: _ =>
          let session := set_date session parsed_date in
          let session := set_available_slots session slots in
          let session := transition_to session COLLECT_SLOT in
          let times := first_times slots in
          (Ok (R "available_slots" lang
                 [("date", of_optional parsed_date);
                  ("service", of_optional (service session));
                  ("times", VStr times)]),
           session, db)
      end.

(** State: COLLECT_SLOT *)
Definition handle_collect_slot (lang text : string)
    (session : BookingSession) (db : DB.Database) : Turn :=
  let chosen_time := detect_time text (available_slots session) in
  if negb (PyStr.truthy chosen_time) then
    let times := first_times (available_slots session) in
    (Ok (R "time_not_found" lang [("times", VStr times)]), session, db)
  else
    let session := set_time session chosen_time in
    let session := transition_to session COLLECT_NAME in
    (Ok (R "ask_name" lang []), session, db).

(** State: COLLECT_NAME *)
Definition handle_collect_name (lang text : string)
    (session : BookingSession) (db : DB.Database) : Turn :=
  let name_ := str_title (str_strip text) in
  if str_len name_ <? 2 then (Ok (R "ask_name" lang []), session, db)
  else
    let session := set_name session (Some name_) in
    let session := transition_to session COLLECT_PHONE in
    (Ok (R "ask_phone" lang []), session, db).

(** State: COLLECT_PHONE *)
Definition handle_collect_phone (lang text : string)
    (session : BookingSession) (db : DB.Database) : Turn :=
  let phone_ := re_keep_digits_plus text in
  if str_len phone_ <? 9 then (Ok (R "phone_invalid" lang []), session, db)
  else
    let session := set_phone session (Some phone_) in
    let session := transition_to session CONFIRM_BOOKING in
    (Ok (R "confirm_booking" lang [("summary", VStr (summary session))]),
     session, db).

(** State: CONFIRM_BOOKING *)
Definition handle_confirm_booking (env : Env) (lang text : string)
    (session : BookingSession) (db : DB.Database) : Turn :=
  let answer := detect_yes_no text in
  match answer with
  | Some reply =>
      if String.eqb reply "yes" then
        let (result, db) :=
          DB.book_appointment (sql_env env) (name session) (phone session)
            (service session) (date session) (time session)
            (room_id session) db in
        match result with
        | DB.Success appt_id =>
            let session := transition_to session BOOKING_DONE in
            let session := reset_booking session in
            (Ok (R "booking_success" lang [("appt_id", VInt appt_id)]),
             session, db)
        | DB.Failure _ =>
            let session := reset_booking session in
            (Ok (R "booking_failed" lang []), session, db)
        end
      else if String.eqb reply "no" then
        (Ok (R "cancelled" lang []), reset_booking session, db)
      else (Ok (R "confirm_yes_no" lang []), session, db)
  | None => (Ok (R "confirm_yes_no" lang []), session, db)
  end.

(** The chain of [if state == ...] blocks; [again] is the recursive
    call of the BOOKING_DONE block. *)
Definition state_logic
    (again : Env -> string -> BookingSession -> DB.Database -> Turn)
    (env : Env) (lang text : string) (st : ConversationState)
    (session : BookingSession) (db : DB.Database) : Turn :=
  match st with
  | IDLE | GREETING => handle_idle_greeting env lang text session db
  | FAQ => handle_faq env lang text session db
  | COLLECT_SERVICE => handle_collect_service env lang text st session db
  | COLLECT_DATE => handle_collect_date env lang text st session db
  | COLLECT_SLOT => handle_collect_slot lang text session db
  | COLLECT_NAME => handle_collect_name lang text session db
  | COLLECT_PHONE => handle_collect_phone lang text session db
  | CONFIRM_BOOKING => handle_confirm_booking env lang text session db
  | BOOKING_DONE => again env text (reset_booking session) db
  | INTENT_DETECTION | SHOW_SLOTS =>
      (Ok (R "fallback" lang []), session, db)
  end.

(** The language block at the head of [process_message]: the session
    and the local [lang] after it. *)
Definition detect_language_early (text : string) (session : BookingSession)
  : BookingSession * string :=
  if in_idle_or_greeting (state session) then
    let detected := detect_language text in
    if negb (String.eqb detected (language session))
    then (set_language session detected, detected)
    else (session, language session)
  else (session, language session).

(** One activation of [process_message]. *)
Definition process_message_body
    (again : Env -> string -> BookingSession -> DB.Database -> Turn)
    (env : Env) (text : string) (session : BookingSession)
    (db : DB.Database) : Turn :=
  let st := state session in
  let (session, lang) := detect_language_early text session in
  if String.eqb (detect_intent text) "cancel"
     && negb (in_idle_or_greeting st)
  then universal_cancel lang session db
  else if String.eqb (detect_intent text) "go_back"
  then universal_go_back lang session db
  else state_logic again env lang text st session db.

(** [process_message].  The recursive call is made in BOOKING_DONE only,
    on a session that [reset_booking] has put in IDLE, where no further
    call is made: two activations are the whole recursion (see
    [process_message_unfold]). *)
Definition process_message (env : Env) (text : string)
    (session : BookingSession) (db : DB.Database) : Turn :=
  process_message_body
    (process_message_body
       (fun _ _ session db =>
          (Ok (R "fallback" (language session) []), session, db)))
    env text session db.

End WithRuntime.

(** *** The session store [_sessions]

    The dictionary from room names to sessions, as the list of its items. *)

Definition Sessions : Type := list (string * BookingSession).

(** [_sessions[room_id]], [None] when the key is missing *)
Fixpoint lookup_session (room : string) (sessions : Sessions)
  : option BookingSession :=
  match sessions with
  | [] => None
  | (k, v) :: rest =>
      if String.eqb k room then Some v else lookup_session room rest
  end.

(** [_sessions[room_id] = session] *)
Fixpoint store_session (room : string) (session : BookingSession)
    (sessions : Sessions) : Sessions :=
  match sessions with
  | [] => [(room, session)]
  | (k, v) :: rest =>
      if String.eqb k room then (k, session) :: rest
      else (k, v) :: store_session room session rest
  end.

(** [get_session]: the session and the store afterwards. *)
Definition get_session (room : string) (sessions : Sessions)
  : BookingSession * Sessions :=
  match lookup_session room sessions with
  | Some session => (session, sessions)
  | None =>
      (new_session room, store_session room (new_session room) sessions)
  end.

(** [clear_session]: [_sessions.pop(room_id, None)] *)
Fixpoint clear_session (room : string) (sessions : Sessions) : Sessions :=
  match sessions with
  | [] => []
  | (k, v) :: rest =>
      if String.eqb k room then rest
      else (k, v) :: clear_session room rest
  end.

End Agent.

(* ------------------------------------------------------------------ *)
(** ** main.py: the agent endpoint *)

Module Main.

(** The body of the JSON answer of [/agent/message]. *)
Record AgentReply : Type := {
  input : string;
  response : Agent.Text;
  state : string;
  session_language : string;
  session_service : option string;
  session_date : option string;
  session_time : option string;
  session_name : option string;
  session_phone : option string
}.

Section WithRuntime.
Context `{rt : PyRuntime}.

(** [test_agent_message]: the session object is the one the store holds,
    so what the turn does to it is in the store afterwards, also when the
    turn raises. *)
Definition test_agent_message (env : Agent.Env) (room text : string)
    (sessions : Agent.Sessions) (db : DB.Database)
  : exc AgentReply * Agent.Sessions * DB.Database :=
  let (session, sessions) := Agent.get_session room sessions in
  let turn := Agent.process_message env text session db in
  let session := snd (fst turn) in
  let sessions := Agent.store_session room session sessions in
  (match fst (fst turn) with
   | Ok text_out =>
       Ok {| input := text; response := text_out;
             state := State.state_value (State.state session);
             session_language := State.language session;
             session_service := State.service session;
             session_date := State.date session;
             session_time := State.time session;
             session_name := State.name session;
             session_phone := State.phone session |}
   | Raise e => Raise e
   end,
   sessions, snd turn).

End WithRuntime.

End Main.

(* ------------------------------------------------------------------ *)
(** ** A runtime for the concrete evaluations

    [ascii_runtime] implements the string operations on ASCII text; its
    regular expressions answer as CPython does on a text without a decimal
    digit (nothing matches), and its clock is fixed.  It is used below on
    such texts only.  Its float sum is the exact sum: the scores and boosts
    it is used on are halves and quarters of small integers, whose sums
    floats hold exactly.  Its hash gives every text a key of its own; the
    evaluations depend on which texts share a key only, and the few texts
    they are run on are taken not to collide under the hash of the
    interpreter. *)

Module Ascii7.

Definition is_upper (c : ascii) : bool :=
  let n := nat_of_ascii c in (65 <=? n) && (n <=? 90).

Definition is_lower (c : ascii) : bool :=
  let n := nat_of_ascii c in (97 <=? n) && (n <=? 122).

Definition is_digit (c : ascii) : bool :=
  let n := nat_of_ascii c in (48 <=? n) && (n <=? 57).

Definition is_space (c : ascii) : bool :=
  let n := nat_of_ascii c in
  ((9 <=? n) && (n <=? 13)) || ((28 <=? n) && (n <=? 32)).

Definition lower_char (c : ascii) : ascii :=
  if is_upper c then ascii_of_nat (nat_of_ascii c + 32) else c.

Definition upper_char (c : ascii) : ascii :=
  if is_lower c then ascii_of_nat (nat_of_ascii c - 32) else c.

Fixpoint lower (s : string) : string :=
  match s with
  | EmptyString => EmptyString
  | String c rest => String (lower_char c) (lower rest)
  end.

Fixpoint lstrip (s : string) : string :=
  match s with
  | EmptyString => EmptyString
  | String c rest => if is_space c then lstrip rest else s
  end.

Fixpoint rstrip (s : string) : string :=
  match s with
  | EmptyString => EmptyString
  | String c rest =>
      match rstrip rest with
      | EmptyString => if is_space c then EmptyString
                       else String c EmptyString
      | kept => String c kept
      end
  end.

Definition strip (s : string) : string := rstrip (lstrip s).

(** [str.title]: a letter is upper-cased after a character that is not a
    letter, lower-cased after a letter. *)
Fixpoint title_from (after_letter : bool) (s : string) : string :=
  match s with
  | EmptyString => EmptyString
  | String c rest =>
      let letter := is_upper c || is_lower c in
      String (if after_letter then lower_char c else upper_char c)
             (title_from letter rest)
  end.

Definition title (s : string) : string := title_from false s.

(** [str.split()]: the maximal runs without white space; [word] holds the
    run being read, reversed. *)
Fixpoint split_from (word : list ascii) (s : string) : list string :=
  let flush (k : list string) :=
    match word with
    | [] => k
    | _ :: _ => string_of_list_ascii (rev word) :: k
    end in
  match s with
  | EmptyString => flush []
  | String c rest =>
      if is_space c then flush (split_from [] rest)
      else split_from (c :: word) rest
  end.

Definition split (s : string) : list string := split_from [] s.

(** The text read as a numeral in base 256 under a leading 1: no two texts
    share a code. *)
Fixpoint code (s : string) : Z :=
  match s with
  | EmptyString => 1
  | String c rest => Z.of_nat (nat_of_ascii c) + 256 * code rest
  end.

Definition zfill2 (s : string) : string :=
  match String.length s with
  | 0 => "00"
  | 1 => "0" ++ s
  | _ => s
  end.

Fixpoint collapse_from (in_space : bool) (s : string) : string :=
  match s with
  | EmptyString => EmptyString
  | String c rest =>
      if is_space c then
        if in_space then collapse_from true rest
        else String " "%char (collapse_from true rest)
      else String c (collapse_from false rest)
  end.

Definition collapse_ws (s : string) : string := collapse_from false s.

Fixpoint keep_digits_plus (s : string) : string :=
  match s with
  | EmptyString => EmptyString
  | String c rest =>
      if is_digit c || Ascii.eqb c "+"%char
      then String c (keep_digits_plus rest)
      else keep_digits_plus rest
  end.

End Ascii7.

Definition ascii_runtime : PyRuntime :=
  {| str_lower := Ascii7.lower;
     str_strip := Ascii7.strip;
     str_title := Ascii7.title;
     str_len := String.length;
     str_take := fun n s => String.substring 0 n s;
     str_split := Ascii7.split;
     str_zfill2 := Ascii7.zfill2;
     re_collapse_ws := Ascii7.collapse_ws;
     re_has_clock_time := fun _ => false;
     re_keep_digits_plus := Ascii7.keep_digits_plus;
     re_time := fun _ => None;
     re_iso_date := fun _ => None;
     re_dmy_date := fun _ => None;
     re_dm_date := fun _ => None;
     re_day_before := fun _ _ => None;
     today_iso := "2025-03-14";
     tomorrow_iso := "2025-03-15";
     next_week_iso := "2025-03-21";
     today_year := "2025";
     float_add := Qplus;
     py_hash := Ascii7.code |}.

(* ------------------------------------------------------------------ *)
(** ** Notions used in the statements *)

(** [n] calls of [go_back] in a row, all of which return [True]. *)
Fixpoint go_back_times (n : nat) (s : State.BookingSession)
  : option State.BookingSession :=
  match n with
  | 0 => Some s
  | S k =>
      let (went, s') := State.go_back s in
      if went then go_back_times k s' else None
  end.

(** A call of [transition_to] for each state of [targets], in order. *)
Definition transitions (s : State.BookingSession)
    (targets : list State.ConversationState) : State.BookingSession :=
  fold_left State.transition_to targets s.

Definition is_none (A : Type) (o : option A) : bool :=
  match o with
  | Some _ => false
  | None => true
  end.

(** Some statement of [book_appointment] raises: an engine error, or a
    NULL bound to a NOT NULL column. *)
Definition book_raises (env : DB.SqlEnv)
    (name_ phone_ service_ date_str time_str : option string) : bool :=
  negb (is_none (DB.update_error env))
  || negb (is_none (DB.insert_error env))
  || is_none name_ || is_none phone_ || is_none service_
  || is_none date_str || is_none time_str
  || negb (is_none (DB.commit_error env)).

(** The row a successful booking adds. *)
Definition confirmed_row (i : Z) (env : DB.SqlEnv)
    (name_ phone_ service_ date_str time_str room : string) : DB.Appointment :=
  {| DB.id := i; DB.name := name_; DB.phone := phone_;
     DB.service := service_; DB.date := date_str; DB.time := time_str;
     DB.status := "confirmed"; DB.created_at := DB.now env;
     DB.room_id := room |}.

(** An engine in which the insert into [appointments] fails, and a store
    with one open slot. *)
Definition full_disk_sql : DB.SqlEnv :=
  {| DB.now := "2025-03-14 08:00:00"; DB.update_error := None;
     DB.insert_error := Some (OperationalError "database or disk is full");
     DB.commit_error := None |}.

Definition open_slot : DB.Slot :=
  {| DB.slot_id := 1; DB.slot_date := "2025-03-20"; DB.slot_time := "10:00";
     DB.slot_service := "massage"; DB.is_booked := 0 |}.

Definition open_db : DB.Database :=
  {| DB.available_slots := [open_slot]; DB.appointments := [];
     DB.appointments_seq := 0 |}.

(** A store with one slot, already booked, and the appointment that
    booked it. *)
Definition quiet_sql : DB.SqlEnv :=
  {| DB.now := "2025-03-14 08:00:00"; DB.update_error := None;
     DB.insert_error := None; DB.commit_error := None |}.

Definition taken_slot : DB.Slot :=
  {| DB.slot_id := 1; DB.slot_date := "2025-03-20"; DB.slot_time := "10:00";
     DB.slot_service := "massage"; DB.is_booked := 1 |}.

Definition taken_db : DB.Database :=
  {| DB.available_slots := [taken_slot];
     DB.appointments :=
       [confirmed_row 1 quiet_sql "Maria Muster" "+41791234567" "massage"
          "2025-03-20" "10:00" "room-1"];
     DB.appointments_seq := 1 |}.

(** A collaborator environment for the turns evaluated below: the answer
    composer returns a fixed sentence and the store raises nothing. *)
Definition quiet_env : Agent.Env :=
  {| Agent.ask_llm := fun _ => Ok "We are open from 8 to 18.";
     Agent.sql_env := quiet_sql |}.

Definition empty_db : DB.Database :=
  {| DB.available_slots := []; DB.appointments := [];
     DB.appointments_seq := 0 |}.

(** A session two steps into a booking: the service is chosen, the date is
    being asked. *)
Definition mid_booking : State.BookingSession :=
  {| State.room_id := "room-1"; State.language := "en";
     State.state := State.COLLECT_DATE;
     State.state_history := [State.IDLE; State.COLLECT_SERVICE];
     State.service := Some "massage"; State.date := None;
     State.time := None; State.name := None; State.phone := None;
     State.available_slots := []; State.pre_faq_state := None |}.

(** Three open slots of one day, and a session that has been offered
    them. *)
Definition offered_slots : list DB.Slot :=
  [ {| DB.slot_id := 1; DB.slot_date := "2025-03-20";
       DB.slot_time := "09:00"; DB.slot_service := "massage";
       DB.is_booked := 0 |};
    {| DB.slot_id := 2; DB.slot_date := "2025-03-20";
       DB.slot_time := "10:00"; DB.slot_service := "massage";
       DB.is_booked := 0 |};
    {| DB.slot_id := 3; DB.slot_date := "2025-03-20";
       DB.slot_time := "11:00"; DB.slot_service := "massage";
       DB.is_booked := 0 |} ].

Definition choosing_slot : State.BookingSession :=
  {| State.room_id := "room-1"; State.language := "en";
     State.state := State.COLLECT_SLOT;
     State.state_history :=
       [State.IDLE; State.COLLECT_SERVICE; State.COLLECT_DATE];
     State.service := Some "massage"; State.date := Some "2025-03-20";
     State.time := None; State.name := None; State.phone := None;
     State.available_slots := offered_slots;
     State.pre_faq_state := None |}.

(** A list of ranked rows in which rows of equal boosted score stand in
    the order of their pre-boost score, the higher first ([desc]) or the
    lower first ([asc]). *)
Definition ties_by_original_desc (ranked : list (Embedding.Document * Q * Q))
  : Prop :=
  forall i j x y, i < j ->
    nth_error ranked i = Some x -> nth_error ranked j = Some y ->
    (Embedding.boosted_of x == Embedding.boosted_of y)%Q ->
    (Embedding.original_of y <= Embedding.original_of x)%Q.

Definition ties_by_original_asc (ranked : list (Embedding.Document * Q * Q))
  : Prop :=
  forall i j x y, i < j ->
    nth_error ranked i = Some x -> nth_error ranked j = Some y ->
    (Embedding.boosted_of x == Embedding.boosted_of y)%Q ->
    (Embedding.original_of x <= Embedding.original_of y)%Q.

(** The rows whose boosted score is [q]. *)
Definition boosted_is (q : Q) (row : Embedding.Document * Q * Q) : bool :=
  Qeq_bool (Embedding.boosted_of row) q.

(** [x] is ranked no lower than [y]. *)
Definition boosted_desc (x y : Embedding.Document * Q * Q) : Prop :=
  (Embedding.boosted_of y <= Embedding.boosted_of x)%Q.

(** Two web chunks around a document chunk. *)
Definition web_hours : Embedding.Document :=
  {| Embedding.page_content := "Opening hours: Monday to Friday";
     Embedding.source_type := Some "web";
     Embedding.page_name := Some "kontakt";
     Embedding.source_pdf := None |}.

Definition pdf_form : Embedding.Document :=
  {| Embedding.page_content := "Patient registration form";
     Embedding.source_type := Some "pdf";
     Embedding.page_name := Some "pdf_anmeldung";
     Embedding.source_pdf := Some "anmeldung.pdf" |}.

Definition web_team : Embedding.Document :=
  {| Embedding.page_content := "Our team of therapists";
     Embedding.source_type := Some "web";
     Embedding.page_name := Some "team";
     Embedding.source_pdf := None |}.

(** The merge [web_hours; pdf_form; web_team] scored 0, 3/2, 0 under the
    GENERAL boost. *)
Definition tie_combined : list Embedding.Document :=
  [web_hours; pdf_form; web_team].

Definition tie_scores : list Q := [0%Q; (3 # 2)%Q; 0%Q].

Definition tie_boosted : list Q :=
  Embedding.boost_scores (rt := ascii_runtime)
    (Embedding.web_boost_of "general") tie_combined tie_scores.

Definition tie_ranked : list (Embedding.Document * Q * Q) :=
  Embedding.rank (combine (combine tie_combined tie_boosted) tie_scores).

(** Collaborators that find [web_hours] and [pdf_form], with reranking
    switched on: in [strict_env] the cross-encoder scores every pair -10,
    in [unloadable_env] it cannot be loaded. *)
Definition harsh_reranker : Embedding.Reranker :=
  {| Embedding.predict_one := fun _ _ => (- (10))%Q;
     Embedding.predict_raises := fun _ => false |}.

Definition strict_env : Embedding.Collaborators :=
  {| Embedding.RERANKER_ENABLED := true;
     Embedding.build_or_load_vectorstore := Ok tt;
     Embedding.load_all_chunks := Ok tt;
     Embedding.faiss_invoke := fun _ _ => Ok [web_hours; pdf_form];
     Embedding.bm25_invoke := fun _ _ => Ok [pdf_form];
     Embedding.load_reranker := Ok harsh_reranker |}.

Definition unloadable_env : Embedding.Collaborators :=
  {| Embedding.RERANKER_ENABLED := true;
     Embedding.build_or_load_vectorstore := Ok tt;
     Embedding.load_all_chunks := Ok tt;
     Embedding.faiss_invoke := fun _ _ => Ok [web_hours; pdf_form];
     Embedding.bm25_invoke := fun _ _ => Ok [pdf_form];
     Embedding.load_reranker :=
       Raise (RuntimeError "cross-encoder model not available") |}.

(** The rows [retrieve] ranks, from the merge and the scores. *)
Definition ranked_rows `{rt : PyRuntime} (web_boost : Q)
    (combined : list Embedding.Document) (scores : list Q)
  : list (Embedding.Document * Q * Q) :=
  Embedding.rank
    (combine (combine combined
                (Embedding.boost_scores web_boost combined scores))
             scores).

(** A store whose rows are not in order of time: two free massage slots, a
    booked one, and a free slot of another service. *)
Definition shuffled_db : DB.Database :=
  {| DB.available_slots :=
       [ {| DB.slot_id := 1; DB.slot_date := "2025-03-20";
            DB.slot_time := "11:00"; DB.slot_service := "massage";
            DB.is_booked := 0 |};
         {| DB.slot_id := 2; DB.slot_date := "2025-03-20";
            DB.slot_time := "10:00"; DB.slot_service := "massage";
            DB.is_booked := 1 |};
         {| DB.slot_id := 3; DB.slot_date := "2025-03-20";
            DB.slot_time := "09:00"; DB.slot_service := "massage";
            DB.is_booked := 0 |};
         {| DB.slot_id := 4; DB.slot_date := "2025-03-20";
            DB.slot_time := "09:00"; DB.slot_service := "osteopathy";
            DB.is_booked := 0 |} ];
     DB.appointments := [];
     DB.appointments_seq := 0 |}.

(** A cancellation whose four statements raise nothing. *)
Definition quiet_cancel : DB.CancelEnv :=
  {| DB.select_error := None; DB.free_slot_error := None;
     DB.mark_cancelled_error := None; DB.cancel_commit_error := None |}.

(** The (date, time, service) of a slot row, and a table in which they
    are pairwise distinct, as [UNIQUE(date, time, service)] keeps them. *)
Definition slot_key (r : DB.Slot) : string * string * string :=
  (DB.slot_date r, DB.slot_time r, DB.slot_service r).

Definition unique_slots (rows : list DB.Slot) : Prop :=
  NoDup (map slot_key rows).

(** A German-speaking session with every booking field filled, waiting
    for the confirmation. *)
Definition confirming : State.BookingSession :=
  {| State.room_id := "room-1"; State.language := "de";
     State.state := State.CONFIRM_BOOKING;
     State.state_history :=
       [State.IDLE; State.COLLECT_SERVICE; State.COLLECT_DATE;
        State.COLLECT_SLOT; State.COLLECT_NAME; State.COLLECT_PHONE];
     State.service := Some "massage"; State.date := Some "2025-03-20";
     State.time := Some "10:00"; State.name := Some "Maria Muster";
     State.phone := Some "+41791234567";
     State.available_slots := [open_slot];
     State.pre_faq_state := None |}.

(** The store of [shuffled_db] with its slots on the day after the fixed
    today of [ascii_runtime], and an English session asked for its name. *)
Definition tomorrow_db : DB.Database :=
  {| DB.available_slots :=
       [ {| DB.slot_id := 1; DB.slot_date := "2025-03-15";
            DB.slot_time := "11:00"; DB.slot_service := "massage";
            DB.is_booked := 0 |};
         {| DB.slot_id := 2; DB.slot_date := "2025-03-15";
            DB.slot_time := "10:00"; DB.slot_service := "massage";
            DB.is_booked := 1 |};
         {| DB.slot_id := 3; DB.slot_date := "2025-03-15";
            DB.slot_time := "09:00"; DB.slot_service := "massage";
            DB.is_booked := 0 |} ];
     DB.appointments := [];
     DB.appointments_seq := 0 |}.

Definition naming : State.BookingSession :=
  {| State.room_id := "room-1"; State.language := "en";
     State.state := State.COLLECT_NAME;
     State.state_history :=
       [State.IDLE; State.COLLECT_SERVICE; State.COLLECT_DATE;
        State.COLLECT_SLOT];
     State.service := Some "massage"; State.date := Some "2025-03-20";
     State.time := Some "10:00"; State.name := None; State.phone := None;
     State.available_slots := offered_slots;
     State.pre_faq_state := None |}.

(** A store with two conversations. *)
Definition two_rooms : Agent.Sessions :=
  [("room-1", choosing_slot); ("room-2", mid_booking)].

(** The key under which [_deduplicate] remembers a document, and a list
    in which no two different contents share a key. *)
Definition content_hash `{rt : PyRuntime} (doc : Embedding.Document) : Z :=
  py_hash (Embedding.page_content doc).

Definition collision_free `{rt : PyRuntime}
    (docs : list Embedding.Document) : Prop :=
  forall a b, In a docs -> In b docs ->
    content_hash a = content_hash b ->
    Embedding.page_content a = Embedding.page_content b.

(** Seeding in which no statement raises, and seeding whose first INSERT
    raises. *)
Definition quiet_seed : DB.SeedEnv :=
  {| DB.seed_insert_error := fun _ => None; DB.seed_commit_error := None |}.

Definition first_insert_fails : DB.SeedEnv :=
  {| DB.seed_insert_error :=
       fun attempt =>
         match attempt with
         | 0 => Some (OperationalError "database is locked")
         | S _ => None
         end;
     DB.seed_commit_error := None |}.

(** The session invariant of the design: the interrupt memory is set only
    while the state is FAQ. *)
Definition session_invariant (s : State.BookingSession) : Prop :=
  State.pre_faq_state s <> None -> State.state s = State.FAQ.

(** The session a turn leaves, its outcome and the tables. *)
Definition outcome_of (t : exc Agent.Text * State.BookingSession * DB.Database)
  : exc Agent.Text := fst (fst t).
Definition session_of (t : exc Agent.Text * State.BookingSession * DB.Database)
  : State.BookingSession := snd (fst t).
Definition db_of (t : exc Agent.Text * State.BookingSession * DB.Database)
  : DB.Database := snd t.

(** The turn returned: no exception escaped. *)
Definition returned (t : exc Agent.Text * State.BookingSession * DB.Database)
  : Prop := exists r, outcome_of t = Ok r.

(** The turns of one conversation, one after the other.  The caller logs
    an exception that escapes a turn and goes on with the session as that
    turn left it. *)
Section Runs.
Context `{rt : PyRuntime}.

Fixpoint run_turns (turns : list (Agent.Env * string))
    (session : State.BookingSession) (db : DB.Database)
  : State.BookingSession * DB.Database :=
  match turns with
  | [] => (session, db)
  | (env, text) :: rest =>
      let t := Agent.process_message env text session db in
      run_turns rest (session_of t) (db_of t)
  end.

End Runs.

(* ------------------------------------------------------------------ *)
(** ** Booking session: history *)

Lemma pop_snoc (l : list State.ConversationState) (x : State.ConversationState) :
  State.pop (l ++ [x]) = Some (l, x).
Proof.
  induction l as [| y l IH]; simpl.
  - reflexivity.
  - rewrite IH. reflexivity.
Qed.

Lemma go_back_transition_to (s : State.BookingSession)
    (t : State.ConversationState) :
  State.go_back (State.transition_to s t) = (true, s).
Proof.
  unfold State.go_back, State.transition_to. simpl.
  rewrite pop_snoc. destruct s; reflexivity.
Qed.

Lemma transitions_snoc (s : State.BookingSession)
    (targets : list State.ConversationState) (t : State.ConversationState) :
  transitions s (targets ++ [t])
  = State.transition_to (transitions s targets) t.
Proof. unfold transitions. rewrite fold_left_app. reflexivity. Qed.

(** C8.  State-history round trip: after a [transition_to] for each state
    of any finite list, as many calls of [go_back] all return [True] and
    leave the session it started from, state and [state_history]
    included. *)
Theorem state_history_round_trip (s : State.BookingSession)
    (targets : list State.ConversationState) :
  go_back_times (length targets) (transitions s targets) = Some s.
Proof.
  induction targets as [| t targets IH] using rev_ind.
  - reflexivity.
  - rewrite transitions_snoc, length_app, Nat.add_comm. simpl.
    rewrite go_back_transition_to. exact IH.
Qed.

Lemma transition_to_pushes (s : State.BookingSession)
    (t : State.ConversationState) :
  State.state_history (State.transition_to s t)
  = State.state_history s ++ [State.state s]
  /\ State.state (State.transition_to s t) = t.
Proof. split; reflexivity. Qed.

(* ------------------------------------------------------------------ *)
(** ** Slot store: the booking transaction *)

Lemma update_slots_marks (flag : Z) (d t s : option string)
    (rows : list DB.Slot) (r : DB.Slot) :
  In r (DB.update_slots flag d t s rows) ->
  DB.slot_matches d t s r = true -> DB.is_booked r = flag.
Proof.
  unfold DB.update_slots. rewrite in_map_iff.
  intros [r0 [Hr0 _]] Hmatch.
  destruct (DB.slot_matches d t s r0) eqn:E0; subst r.
  - reflexivity.
  - congruence.
Qed.

Lemma update_slots_keeps (flag : Z) (d t s : option string)
    (rows : list DB.Slot) (r : DB.Slot) :
  In r rows -> DB.is_booked r = flag ->
  In r (DB.update_slots flag d t s rows).
Proof.
  intros Hin Hflag. unfold DB.update_slots. apply in_map_iff.
  exists r. split; [| exact Hin].
  destruct (DB.slot_matches d t s r); [| reflexivity].
  destruct r; simpl in *; subst; reflexivity.
Qed.

Lemma update_slots_sets (flag : Z) (d t s : option string)
    (rows : list DB.Slot) (r : DB.Slot) :
  In r rows -> DB.slot_matches d t s r = true ->
  In (DB.set_is_booked r flag) (DB.update_slots flag d t s rows).
Proof.
  intros Hin Hm. unfold DB.update_slots. apply in_map_iff.
  exists r. rewrite Hm. split; [reflexivity | exact Hin].
Qed.

Lemma update_slots_no_match (flag : Z) (d t s : option string)
    (rows : list DB.Slot) :
  (forall r, In r rows -> DB.slot_matches d t s r = false) ->
  DB.update_slots flag d t s rows = rows.
Proof.
  intros Hno. unfold DB.update_slots.
  rewrite <- (map_id rows) at 2. apply map_ext_in.
  intros r Hin. rewrite (Hno r Hin). reflexivity.
Qed.

(** What [book_appointment] returns, by cases on [book_raises]. *)
Lemma book_appointment_cases (env : DB.SqlEnv)
    (n p s d t : option string) (room : string) (db : DB.Database) :
  (book_raises env n p s d t = true /\
   exists e, DB.book_appointment env n p s d t room db = (DB.Failure e, db))
  \/
  (book_raises env n p s d t = false /\
   exists n' p' s' d' t',
     n = Some n' /\ p = Some p' /\ s = Some s' /\ d = Some d' /\ t = Some t' /\
     let db1 :=
       {| DB.available_slots :=
            DB.update_slots 1 d t s (DB.available_slots db);
          DB.appointments := DB.appointments db;
          DB.appointments_seq := DB.appointments_seq db |} in
     DB.book_appointment env n p s d t room db
     = (DB.Success (DB.next_id db1),
        {| DB.available_slots :=
             DB.update_slots 1 d t s (DB.available_slots db);
           DB.appointments :=
             DB.appointments db
             ++ [confirmed_row (DB.next_id db1) env n' p' s' d' t' room];
           DB.appointments_seq := DB.next_id db1 |})).
Proof.
  unfold book_raises, DB.book_appointment, DB.seq_, DB.ret,
    DB.execute_update_slot, DB.execute_insert_appointment, DB.commit,
    DB.get_connection, DB.rollback, DB.close.
  destruct (DB.update_error env) as [e1 |]; simpl.
  { left. split; [reflexivity | eauto]. }
  destruct (DB.insert_error env) as [e2 |]; simpl.
  { left. split; [reflexivity | eauto]. }
  destruct n as [n' |]; simpl; [| left; split; [reflexivity | eauto]].
  destruct p as [p' |]; simpl; [| left; split; [reflexivity | eauto]].
  destruct s as [s' |]; simpl; [| left; split; [reflexivity | eauto]].
  destruct d as [d' |]; simpl; [| left; split; [reflexivity | eauto]].
  destruct t as [t' |]; simpl; [| left; split; [reflexivity | eauto]].
  destruct (DB.commit_error env) as [e3 |]; simpl.
  { left. split; [reflexivity | eauto]. }
  right. split; [reflexivity |].
  exists n', p', s', d', t'. repeat split; reflexivity.
Qed.

(** C2, as stated, fails: the store holds no slot row for (2025-03-20,
    12:00, massage); booking that key succeeds and appends a confirmed
    appointment, the slot table is as before, and no row of that key has
    [is_booked = 1]. *)
Lemma book_appointment_marks_no_slot :
  (forall slot, In slot (DB.available_slots open_db) ->
     DB.slot_matches (Some "2025-03-20") (Some "12:00") (Some "massage") slot
     = false)
  /\ DB.book_appointment quiet_sql (Some "Jo Doe") (Some "+41790000000")
       (Some "massage") (Some "2025-03-20") (Some "12:00") "room-2" open_db
     = (DB.Success 1,
        {| DB.available_slots := [open_slot];
           DB.appointments :=
             [confirmed_row 1 quiet_sql "Jo Doe" "+41790000000" "massage"
                "2025-03-20" "12:00" "room-2"];
           DB.appointments_seq := 1 |})
  /\ ~ (exists slot,
          In slot
            (DB.available_slots
               (snd (DB.book_appointment quiet_sql (Some "Jo Doe")
                       (Some "+41790000000") (Some "massage")
                       (Some "2025-03-20") (Some "12:00") "room-2" open_db)))
          /\ DB.slot_matches (Some "2025-03-20") (Some "12:00")
               (Some "massage") slot = true
          /\ DB.is_booked slot = 1%Z).
Proof.
  split; [intros slot [<- | []]; reflexivity |].
  split; [reflexivity |].
  intros (slot & [<- | []] & Hm & _). discriminate Hm.
Qed.

(** C2, amended.  The booking transaction is atomic, and it does not look
    for the slot.  A call either succeeds, and then exactly one appointment
    row (confirmed, with the generated id) has been appended and every slot
    row of that (date, time, service) has [is_booked = 1], the other rows
    being as before; or it fails, and then the tables are exactly as before
    the call.  In particular, when the slot update went through and the
    insert raises, the call fails and the slot update is not retained.  The
    call succeeds exactly when none of its statements raises: on success
    each slot row of the key that the store held is marked, and when the
    store holds no row of the key the slot table is left as it was. *)
Theorem book_appointment_atomic (env : DB.SqlEnv)
    (n p s d t : option string) (room : string) (db : DB.Database) :
  let r := fst (DB.book_appointment env n p s d t room db) in
  let db' := snd (DB.book_appointment env n p s d t room db) in
  ((exists i row,
      r = DB.Success i
      /\ DB.appointments db' = DB.appointments db ++ [row]
      /\ DB.id row = i /\ DB.status row = "confirmed"
      /\ DB.available_slots db'
         = DB.update_slots 1 d t s (DB.available_slots db)
      /\ (forall slot, In slot (DB.available_slots db') ->
            DB.slot_matches d t s slot = true -> DB.is_booked slot = 1%Z))
   \/ (exists e, r = DB.Failure e /\ db' = db))
  /\ (DB.update_error env = None ->
      (exists e, fst (DB.execute_insert_appointment env n p s d t room
                        (snd (DB.execute_update_slot env 1 d t s
                                (DB.get_connection db)))) = Raise e) ->
      DB.success r = false /\ db' = db)
  /\ (DB.success r = true <-> book_raises env n p s d t = false)
  /\ (DB.success r = true ->
      forall slot, In slot (DB.available_slots db) ->
        DB.slot_matches d t s slot = true ->
        In (DB.set_is_booked slot 1) (DB.available_slots db'))
  /\ ((forall slot, In slot (DB.available_slots db) ->
         DB.slot_matches d t s slot = false) ->
      DB.available_slots db' = DB.available_slots db).
Proof.
  cbv zeta. split; [| split; [| split; [| split]]].
  - destruct (book_appointment_cases env n p s d t room db)
      as [[_ [e He]] | [_ (n' & p' & s' & d' & t' & _ & _ & _ & _ & _ & He)]];
      cbv zeta in He; rewrite He; simpl.
    + right. eauto.
    + left. eexists _, _. repeat split.
      intros slot Hin Hm. eapply update_slots_marks; eauto.
  - intros Hup [e He].
    destruct (book_appointment_cases env n p s d t room db)
      as [[_ [e' He']] | [Hno (n' & p' & s' & d' & t' & -> & -> & -> & -> & -> & _)]].
    + rewrite He'. split; reflexivity.
    + exfalso. unfold book_raises in Hno.
      unfold DB.execute_insert_appointment, DB.execute_update_slot in He.
      rewrite Hup in He, Hno. simpl in He, Hno.
      destruct (DB.insert_error env); simpl in He, Hno; congruence.
  - destruct (book_appointment_cases env n p s d t room db)
      as [[Hr [e He]] | [Hr (n' & p' & s' & d' & t' & _ & _ & _ & _ & _ & He)]];
      cbv zeta in He; rewrite He, Hr; simpl; split; congruence.
  - destruct (book_appointment_cases env n p s d t room db)
      as [[_ [e He]] | [_ (n' & p' & s' & d' & t' & _ & _ & _ & _ & _ & He)]];
      cbv zeta in He; rewrite He; simpl.
    + discriminate.
    + intros _ slot Hin Hm. apply update_slots_sets; assumption.
  - intros Hno.
    destruct (book_appointment_cases env n p s d t room db)
      as [[_ [e He]] | [_ (n' & p' & s' & d' & t' & _ & _ & _ & _ & _ & He)]];
      cbv zeta in He; rewrite He; simpl.
    + reflexivity.
    + apply update_slots_no_match. exact Hno.
Qed.

Lemma book_appointment_atomic_witness :
  DB.available_slots
    (DB.in_txn
       (snd (DB.execute_update_slot full_disk_sql 1 (Some "2025-03-20")
               (Some "10:00") (Some "massage") (DB.get_connection open_db))))
  = [DB.set_is_booked open_slot 1]
  /\ (DB.success
        (fst (DB.book_appointment full_disk_sql (Some "Jo Doe")
                (Some "+41790000000") (Some "massage") (Some "2025-03-20")
                (Some "10:00") "room-2" open_db)) = false
      /\ snd (DB.book_appointment full_disk_sql (Some "Jo Doe")
                (Some "+41790000000") (Some "massage") (Some "2025-03-20")
                (Some "10:00") "room-2" open_db) = open_db)
  /\ In (DB.set_is_booked open_slot 1)
       (DB.available_slots
          (snd (DB.book_appointment quiet_sql (Some "Jo Doe")
                  (Some "+41790000000") (Some "massage") (Some "2025-03-20")
                  (Some "10:00") "room-2" open_db)))
  /\ DB.available_slots
       (snd (DB.book_appointment quiet_sql (Some "Jo Doe")
               (Some "+41790000000") (Some "massage") (Some "2025-03-20")
               (Some "12:00") "room-2" open_db))
     = DB.available_slots open_db.
Proof.
  split; [reflexivity |].
  destruct (@book_appointment_atomic full_disk_sql (Some "Jo Doe")
              (Some "+41790000000") (Some "massage") (Some "2025-03-20")
              (Some "10:00") "room-2" open_db) as (_ & Hrollback & _).
  destruct (@book_appointment_atomic quiet_sql (Some "Jo Doe")
              (Some "+41790000000") (Some "massage") (Some "2025-03-20")
              (Some "10:00") "room-2" open_db) as (_ & _ & _ & Hmarks & _).
  destruct (@book_appointment_atomic quiet_sql (Some "Jo Doe")
              (Some "+41790000000") (Some "massage") (Some "2025-03-20")
              (Some "12:00") "room-2" open_db) as (_ & _ & _ & _ & Hnone).
  split; [| split].
  - apply Hrollback; [reflexivity | eexists; reflexivity].
  - apply Hmarks; [reflexivity | left; reflexivity | reflexivity].
  - apply Hnone. intros slot [<- | []]. reflexivity.
Defined.

(** C1, as stated, fails: the slot (2025-03-20, 10:00, massage) has
    [is_booked = 1] and an appointment; booking it again succeeds and adds
    a second confirmed appointment for it. *)
Lemma book_appointment_double_books :
  In taken_slot (DB.available_slots taken_db)
  /\ DB.is_booked taken_slot = 1%Z
  /\ DB.slot_matches (Some "2025-03-20") (Some "10:00") (Some "massage")
       taken_slot = true
  /\ DB.book_appointment quiet_sql (Some "Jo Doe") (Some "+41790000000")
       (Some "massage") (Some "2025-03-20") (Some "10:00") "room-2" taken_db
     = (DB.Success 2,
        {| DB.available_slots := [taken_slot];
           DB.appointments :=
             [confirmed_row 1 quiet_sql "Maria Muster" "+41791234567"
                "massage" "2025-03-20" "10:00" "room-1";
              confirmed_row 2 quiet_sql "Jo Doe" "+41790000000"
                "massage" "2025-03-20" "10:00" "room-2"];
           DB.appointments_seq := 2 |})
  /\ ~ (DB.success
          (fst (DB.book_appointment quiet_sql (Some "Jo Doe")
                  (Some "+41790000000") (Some "massage") (Some "2025-03-20")
                  (Some "10:00") "room-2" taken_db)) = false
        /\ DB.appointments
             (snd (DB.book_appointment quiet_sql (Some "Jo Doe")
                     (Some "+41790000000") (Some "massage")
                     (Some "2025-03-20") (Some "10:00") "room-2" taken_db))
           = DB.appointments taken_db).
Proof.
  split; [left; reflexivity |].
  split; [reflexivity |].
  split; [reflexivity |].
  split; [reflexivity |].
  intros [Hfail _]. vm_compute in Hfail. discriminate.
Qed.

(** C1, amended.  [book_appointment] does not read the flag: for a slot
    whose [is_booked] is already 1, a call for its (date, time, service)
    leaves that row as it is, and it reports failure exactly when one of
    its statements raises, in which case the tables are unchanged;
    otherwise it reports success and appends one confirmed appointment for
    that slot. *)
Theorem book_appointment_on_booked_slot (env : DB.SqlEnv)
    (n p s d t : option string) (room : string) (db : DB.Database)
    (slot : DB.Slot) :
  In slot (DB.available_slots db) ->
  DB.slot_matches d t s slot = true ->
  DB.is_booked slot = 1%Z ->
  let r := fst (DB.book_appointment env n p s d t room db) in
  let db' := snd (DB.book_appointment env n p s d t room db) in
  In slot (DB.available_slots db')
  /\ (DB.success r = false <-> book_raises env n p s d t = true)
  /\ (DB.success r = false -> db' = db)
  /\ (DB.success r = true ->
      exists i row,
        r = DB.Success i
        /\ DB.appointments db' = DB.appointments db ++ [row]
        /\ DB.id row = i /\ DB.status row = "confirmed"
        /\ Some (DB.date row) = d /\ Some (DB.time row) = t
        /\ Some (DB.service row) = s).
Proof.
  intros Hin Hm Hb. cbv zeta.
  destruct (book_appointment_cases env n p s d t room db)
    as [[Hr [e He]] | [Hr (n' & p' & s' & d' & t' & -> & -> & -> & -> & -> & He)]];
    cbv zeta in He; rewrite He; simpl.
  - repeat split; auto; intros; congruence.
  - split; [apply update_slots_keeps; assumption |].
    split; [split; intros; congruence |].
    split; [intros; congruence |].
    intros _. eexists _, _. repeat split.
Qed.

Lemma book_appointment_on_booked_slot_witness :
  In taken_slot (DB.available_slots taken_db)
  /\ DB.success
       (fst (DB.book_appointment quiet_sql (Some "Jo Doe")
               (Some "+41790000000") (Some "massage") (Some "2025-03-20")
               (Some "10:00") "room-2" taken_db)) = true
  /\ In taken_slot
       (DB.available_slots
          (snd (DB.book_appointment quiet_sql (Some "Jo Doe")
                  (Some "+41790000000") (Some "massage") (Some "2025-03-20")
                  (Some "10:00") "room-2" taken_db))).
Proof.
  split; [left; reflexivity |].
  split; [reflexivity |].
  apply (@book_appointment_on_booked_slot quiet_sql (Some "Jo Doe")
           (Some "+41790000000") (Some "massage") (Some "2025-03-20")
           (Some "10:00") "room-2" taken_db taken_slot).
  - left; reflexivity.
  - reflexivity.
  - reflexivity.
Defined.

(* ------------------------------------------------------------------ *)
(** ** Dialogue engine: the recursion, go back, cancel *)

Section Engine.
Context `{rt : PyRuntime}.

(** The dictionary display of [_prompt_for_current_state] names
    [ConversationState.COLLECT_EMAIL], which the enumeration does not have:
    the function raises for every session. *)
Lemma prompt_for_current_state_raises (session : State.BookingSession) :
  Agent._prompt_for_current_state session
  = Raise (AttributeError "COLLECT_EMAIL").
Proof. reflexivity. Qed.

Lemma process_message_body_again
    (a1 a2 : Agent.Env -> string -> State.BookingSession -> DB.Database
             -> Agent.Turn)
    (env : Agent.Env) (text : string) (session : State.BookingSession)
    (db : DB.Database) :
  State.state session <> State.BOOKING_DONE ->
  Agent.process_message_body a1 env text session db
  = Agent.process_message_body a2 env text session db.
Proof.
  intros Hst. unfold Agent.process_message_body.
  destruct (Agent.detect_language_early text session) as [session' lang].
  destruct (_ && _); [reflexivity |].
  destruct (String.eqb _ "go_back"); [reflexivity |].
  destruct (State.state session) eqn:Est; cbn [Agent.state_logic];
    try reflexivity.
  exfalso. apply Hst. reflexivity.
Qed.

(** [process_message] satisfies the recursive equation of the source. *)
Lemma process_message_unfold (env : Agent.Env) (text : string)
    (session : State.BookingSession) (db : DB.Database) :
  Agent.process_message env text session db
  = Agent.process_message_body Agent.process_message env text session db.
Proof.
  unfold Agent.process_message at 1.
  destruct (State.state session) eqn:Est.
  12: { unfold Agent.process_message_body at 1 3. rewrite Est.
        destruct (Agent.detect_language_early text session) as [session' lang].
        destruct (_ && _); [reflexivity |].
        destruct (String.eqb _ "go_back"); [reflexivity |].
        cbn [Agent.state_logic]. unfold Agent.process_message.
        apply process_message_body_again. discriminate. }
  all: apply process_message_body_again; rewrite Est; discriminate.
Qed.

Lemma detect_language_early_fields (text : string)
    (session : State.BookingSession) :
  let s' := fst (Agent.detect_language_early text session) in
  State.state s' = State.state session
  /\ State.state_history s' = State.state_history session
  /\ State.pre_faq_state s' = State.pre_faq_state session
  /\ State.available_slots s' = State.available_slots session
  /\ State.time s' = State.time session.
Proof.
  unfold Agent.detect_language_early.
  destruct (Agent.in_idle_or_greeting _); [| repeat split].
  destruct (negb _); repeat split.
Qed.

(** A go-back intent is never a cancel intent. *)
Lemma go_back_not_cancel (text : string) :
  Agent.detect_intent text = "go_back" ->
  String.eqb (Agent.detect_intent text) "cancel" = false.
Proof. intros ->. reflexivity. Qed.

(** With a go-back intent the turn is the universal go-back branch, in
    every state. *)
Lemma go_back_intent_branch (env : Agent.Env) (text : string)
    (session : State.BookingSession) (db : DB.Database) :
  Agent.detect_intent text = "go_back" ->
  Agent.process_message env text session db
  = Agent.universal_go_back
      (snd (Agent.detect_language_early text session))
      (fst (Agent.detect_language_early text session)) db.
Proof.
  intros Hi. unfold Agent.process_message, Agent.process_message_body.
  destruct (Agent.detect_language_early text session) as [session' lang].
  rewrite Hi. reflexivity.
Qed.

(** Go back at the start: the "already at start" message, the state and
    the (empty) history unchanged. *)
Lemma go_back_at_start (env : Agent.Env) (text : string)
    (session : State.BookingSession) (db : DB.Database) :
  Agent.detect_intent text = "go_back" ->
  State.state_history session = [] ->
  Agent.process_message env text session db
  = (Ok (Agent.R "at_beginning"
           (snd (Agent.detect_language_early text session)) []),
     fst (Agent.detect_language_early text session), db).
Proof.
  intros Hi Hh. rewrite go_back_intent_branch by exact Hi.
  unfold Agent.universal_go_back, State.go_back.
  destruct (detect_language_early_fields text session) as (_ & Hh' & _).
  cbv zeta in Hh'. rewrite Hh', Hh. reflexivity.
Qed.


End Engine.

(** C3 at a session two steps into a booking.  The design has "go back"
    restore COLLECT_SERVICE and return its prompt; the turn does restore
    COLLECT_SERVICE, and then raises [AttributeError] instead of returning
    a response. *)
Theorem go_back_mid_booking_raises :
  Agent.process_message (rt := ascii_runtime) quiet_env "go back"
    mid_booking empty_db
  = (Raise (AttributeError "COLLECT_EMAIL"),
     State.set_state (State.set_state_history mid_booking [State.IDLE])
       State.COLLECT_SERVICE,
     empty_db).
Proof. vm_compute. reflexivity. Qed.

(* ------------------------------------------------------------------ *)
(** ** Dialogue engine: cancel and go back in IDLE and GREETING *)

Section Universal.
Context `{rt : PyRuntime}.

Lemma cancel_keyword_intent (text : string) :
  PyStr.any_in (str_lower text) Agent.cancel_words = true ->
  Agent.detect_intent text = "cancel".
Proof. intros Hk. unfold Agent.detect_intent. rewrite Hk. reflexivity. Qed.

Lemma back_keyword_intent (text : string) :
  PyStr.any_in (str_lower text) Agent.cancel_words = false ->
  PyStr.any_in (str_lower text) Agent.back_words = true ->
  Agent.detect_intent text = "go_back".
Proof.
  intros Hc Hb. unfold Agent.detect_intent. rewrite Hc, Hb. reflexivity.
Qed.

(** C4, amended.  Only the universal cancel transition is skipped in IDLE
    and GREETING: there an input with a cancel keyword goes to the
    IDLE/GREETING logic, which answers it as an FAQ and resets nothing.  An
    input with a go-back keyword (and no cancel keyword) is handled by the
    universal go-back branch in every state, IDLE and GREETING included. *)
Theorem cancel_skipped_go_back_universal (env : Agent.Env) (text : string)
    (session : State.BookingSession) (db : DB.Database) :
  let session' := fst (Agent.detect_language_early text session) in
  let lang := snd (Agent.detect_language_early text session) in
  (Agent.in_idle_or_greeting (State.state session) = true ->
   PyStr.any_in (str_lower text) Agent.cancel_words = true ->
   Agent.process_message env text session db
   = Agent.handle_idle_greeting env lang text session' db
   /\ Agent.process_message env text session db
      = (Ok (Agent.lit (Agent._ask_rag env text)),
         State.transition_to (State.transition_to session' State.FAQ)
           State.IDLE,
         db))
  /\ (PyStr.any_in (str_lower text) Agent.cancel_words = false ->
      PyStr.any_in (str_lower text) Agent.back_words = true ->
      Agent.process_message env text session db
      = Agent.universal_go_back lang session' db).
Proof.
  cbv zeta. split.
  - intros Hst Hk. pose proof (cancel_keyword_intent Hk) as Hi.
    assert (Hpm : Agent.process_message env text session db
                  = Agent.handle_idle_greeting env
                      (snd (Agent.detect_language_early text session)) text
                      (fst (Agent.detect_language_early text session)) db).
    { unfold Agent.process_message, Agent.process_message_body.
      destruct (Agent.detect_language_early text session) as [s' lang].
      rewrite Hi, Hst. cbn [String.eqb Ascii.eqb Bool.eqb andb negb fst snd].
      destruct (State.state session); try discriminate Hst; reflexivity. }
    split; [exact Hpm |].
    rewrite Hpm. unfold Agent.handle_idle_greeting. rewrite Hi. reflexivity.
  - intros Hc Hb. apply go_back_intent_branch.
    apply back_keyword_intent; assumption.
Qed.

End Universal.

(** C4, as stated, fails for go back: a fresh session is in IDLE, "go back"
    holds a go-back keyword, and the turn is the universal go-back branch
    ("already at start", session untouched), not the IDLE logic, which
    would have answered an FAQ and moved through FAQ back to IDLE. *)
Lemma go_back_in_idle_is_universal :
  State.state (State.new_session "room-1") = State.IDLE
  /\ PyStr.any_in (str_lower (PyRuntime := ascii_runtime) "go back")
       Agent.back_words = true
  /\ Agent.process_message (rt := ascii_runtime) quiet_env "go back"
       (State.new_session "room-1") empty_db
     = (Ok (Agent.R "at_beginning" "en" []), State.new_session "room-1",
        empty_db)
  /\ Agent.process_message (rt := ascii_runtime) quiet_env "go back"
       (State.new_session "room-1") empty_db
     = Agent.universal_go_back "en"
         (State.new_session "room-1") empty_db
  /\ Agent.process_message (rt := ascii_runtime) quiet_env "go back"
       (State.new_session "room-1") empty_db
     <> Agent.handle_idle_greeting (rt := ascii_runtime) quiet_env "en"
          "go back" (State.new_session "room-1") empty_db.
Proof.
  split; [reflexivity |].
  split; [vm_compute; reflexivity |].
  split; [vm_compute; reflexivity |].
  split; [vm_compute; reflexivity |].
  vm_compute. discriminate.
Qed.

Lemma cancel_skipped_go_back_universal_witness :
  Agent.process_message (rt := ascii_runtime) quiet_env "cancel"
    (State.new_session "room-1") empty_db
  = (Ok (Agent.lit "We are open from 8 to 18."),
     State.transition_to
       (State.transition_to (State.new_session "room-1") State.FAQ)
       State.IDLE,
     empty_db)
  /\ Agent.process_message (rt := ascii_runtime) quiet_env "go back"
       mid_booking empty_db
     = Agent.universal_go_back "en" mid_booking empty_db.
Proof.
  destruct (@cancel_skipped_go_back_universal ascii_runtime quiet_env "cancel"
              (State.new_session "room-1") empty_db) as [Hcancel _].
  destruct (@cancel_skipped_go_back_universal ascii_runtime quiet_env
              "go back" mid_booking empty_db) as [_ Hback].
  split.
  - apply Hcancel; vm_compute; reflexivity.
  - apply Hback; vm_compute; reflexivity.
Defined.

(* ------------------------------------------------------------------ *)
(** ** Dialogue engine: the interrupt memory *)

Section Interrupt.
Context `{rt : PyRuntime}.

(** Breaks the goal along the tests of a handler. *)
Ltac split_tests :=
  repeat match goal with
    | |- context [if ?b then _ else _] => destruct b
    | |- context [match ?x with Some _ => _ | None => _ end] => destruct x
    | |- context [match ?x with [] => _ | _ :: _ => _ end] => destruct x
    | |- context [let (_, _) := ?p in _] => destruct p
    | |- context [match ?r with DB.Success _ => _ | DB.Failure _ => _ end] =>
        destruct r
    end.

Lemma universal_go_back_pre (lang : string) (session : State.BookingSession)
    (db : DB.Database) :
  State.pre_faq_state (session_of (Agent.universal_go_back lang session db))
  = State.pre_faq_state session.
Proof.
  unfold Agent.universal_go_back, State.go_back.
  destruct (State.pop (State.state_history session)) as [[init last] |];
    reflexivity.
Qed.

(** A returned go-back turn has left the session as it was. *)
Lemma universal_go_back_returned (lang : string)
    (session : State.BookingSession) (db : DB.Database) :
  returned (Agent.universal_go_back lang session db) ->
  session_of (Agent.universal_go_back lang session db) = session.
Proof.
  unfold Agent.universal_go_back, State.go_back.
  destruct (State.pop (State.state_history session)) as [[init last] |].
  - intros [r Hr]. discriminate Hr.
  - reflexivity.
Qed.

(** Outside FAQ, each state block keeps an empty interrupt memory empty. *)
Lemma state_logic_pre_none
    (again : Agent.Env -> string -> State.BookingSession -> DB.Database
             -> Agent.Turn)
    (env : Agent.Env) (lang text : string) (st : State.ConversationState)
    (session : State.BookingSession) (db : DB.Database) :
  (forall e t s d, State.pre_faq_state s = None ->
     State.pre_faq_state (session_of (again e t s d)) = None) ->
  State.pre_faq_state session = None ->
  State.pre_faq_state
    (session_of (Agent.state_logic again env lang text st session db)) = None.
Proof.
  intros Hagain Hpre. unfold session_of.
  destruct st; cbn [Agent.state_logic].
  - unfold Agent.handle_idle_greeting. split_tests; exact Hpre.
  - unfold Agent.handle_idle_greeting. split_tests; exact Hpre.
  - exact Hpre.
  - unfold Agent.handle_faq. rewrite Hpre. exact Hpre.
  - unfold Agent.handle_collect_service. split_tests; first [exact Hpre | reflexivity].
  - unfold Agent.handle_collect_date. split_tests; first [exact Hpre | reflexivity].
  - exact Hpre.
  - unfold Agent.handle_collect_slot. split_tests; exact Hpre.
  - unfold Agent.handle_collect_name. split_tests; exact Hpre.
  - unfold Agent.handle_collect_phone. split_tests; exact Hpre.
  - unfold Agent.handle_confirm_booking. split_tests; first [exact Hpre | reflexivity].
  - apply Hagain. reflexivity.
Qed.

Lemma process_message_body_pre_none
    (again : Agent.Env -> string -> State.BookingSession -> DB.Database
             -> Agent.Turn)
    (env : Agent.Env) (text : string) (session : State.BookingSession)
    (db : DB.Database) :
  (forall e t s d, State.pre_faq_state s = None ->
     State.pre_faq_state (session_of (again e t s d)) = None) ->
  State.pre_faq_state session = None ->
  State.pre_faq_state
    (session_of (Agent.process_message_body again env text session db)) = None.
Proof.
  intros Hagain Hpre. unfold Agent.process_message_body.
  destruct (detect_language_early_fields text session) as (_ & _ & Hp & _).
  cbv zeta in Hp.
  destruct (Agent.detect_language_early text session) as [s' lang].
  cbn [fst] in Hp. rewrite <- Hp in Hpre.
  destruct (_ && _); [reflexivity |].
  destruct (String.eqb _ "go_back").
  - rewrite universal_go_back_pre. exact Hpre.
  - apply state_logic_pre_none; assumption.
Qed.

(** An empty interrupt memory is empty after the turn, whether the turn
    returned or raised. *)
Lemma process_message_pre_none (env : Agent.Env) (text : string)
    (session : State.BookingSession) (db : DB.Database) :
  State.pre_faq_state session = None ->
  State.pre_faq_state (session_of (Agent.process_message env text session db))
  = None.
Proof.
  intros Hpre. unfold Agent.process_message.
  apply process_message_body_pre_none; [| exact Hpre].
  intros e t s d Hs. apply process_message_body_pre_none; [| exact Hs].
  intros e0 t0 s0 d0 Hs0. exact Hs0.
Qed.

Lemma invariant_of_pre_none (s : State.BookingSession) :
  State.pre_faq_state s = None -> session_invariant s.
Proof. intros Hn Hs. congruence. Qed.

(** Between the turns of a conversation that starts with a new session,
    in IDLE or set to GREETING by the entry point, the interrupt memory is
    empty, and so the session invariant holds. *)
Lemma run_turns_pre_none (turns : list (Agent.Env * string))
    (session : State.BookingSession) (db : DB.Database) :
  State.pre_faq_state session = None ->
  State.pre_faq_state (fst (run_turns turns session db)) = None
  /\ session_invariant (fst (run_turns turns session db)).
Proof.
  revert session db.
  induction turns as [| [env text] turns IH]; intros session db Hpre.
  - split; [exact Hpre | apply invariant_of_pre_none, Hpre].
  - cbn [run_turns]. apply IH. apply process_message_pre_none, Hpre.
Qed.

(** C9.  The session invariant (interrupt memory set only in FAQ) holds
    after every turn of [process_message] that returns, from any session
    that satisfies it; a session whose interrupt memory is empty, as every
    new session's is, keeps it empty through every turn, returned or not.
    An FAQ interrupt sets the memory together with the state FAQ, and
    restores the saved state and clears the memory before it returns;
    [reset_booking] clears it. *)
Theorem pre_faq_state_invariant (env : Agent.Env) (text : string)
    (session : State.BookingSession) (db : DB.Database) :
  session_invariant session ->
  let t := Agent.process_message env text session db in
  (returned t -> session_invariant (session_of t))
  /\ (State.pre_faq_state session = None ->
      State.pre_faq_state (session_of t) = None)
  /\ State.pre_faq_state (State.reset_booking session) = None
  /\ (forall st,
        session_invariant (Agent.faq_interrupt_enter session st)
        /\ State.pre_faq_state
             (Agent.faq_interrupt_leave (Agent.faq_interrupt_enter session st)
                st) = None
        /\ State.state
             (Agent.faq_interrupt_leave (Agent.faq_interrupt_enter session st)
                st) = st).
Proof.
  intros Hinv. cbv zeta.
  split; [| split; [apply process_message_pre_none
                   | split; [reflexivity
                            | intros st; repeat split]]].
  intros Hret.
  destruct (State.pre_faq_state session) as [saved |] eqn:Hpre.
  2: { apply invariant_of_pre_none, process_message_pre_none, Hpre. }
  assert (Hfaq : State.state session = State.FAQ)
    by (apply Hinv; congruence).
  revert Hret. rewrite process_message_unfold.
  unfold Agent.process_message_body.
  destruct (detect_language_early_fields text session)
    as (Hs & _ & Hp & _).
  cbv zeta in Hs, Hp.
  destruct (Agent.detect_language_early text session) as [s' lang].
  cbn [fst] in Hs, Hp. rewrite Hfaq.
  destruct (_ && _).
  { intros _. apply invariant_of_pre_none. reflexivity. }
  destruct (String.eqb _ "go_back").
  { intros Hret. rewrite (universal_go_back_returned Hret).
    intros _. congruence. }
  cbn [Agent.state_logic]. unfold Agent.handle_faq.
  rewrite Hp, Hpre. intros [r Hr]. discriminate Hr.
Qed.

End Interrupt.

Lemma pre_faq_state_invariant_witness :
  session_invariant mid_booking
  /\ session_invariant
       (session_of
          (Agent.process_message (rt := ascii_runtime) quiet_env
             "what are your hours" mid_booking empty_db))
  /\ State.state
       (session_of
          (Agent.process_message (rt := ascii_runtime) quiet_env
             "what are your hours" mid_booking empty_db))
     = State.COLLECT_DATE.
Proof.
  assert (Hinv : session_invariant mid_booking)
    by (intros Hs; exfalso; apply Hs; reflexivity).
  split; [exact Hinv |].
  split; [| vm_compute; reflexivity].
  apply (@pre_faq_state_invariant ascii_runtime quiet_env
           "what are your hours" mid_booking empty_db Hinv).
  vm_compute. eexists. reflexivity.
Defined.

(* ------------------------------------------------------------------ *)
(** ** Dialogue engine: the chosen time *)

Section ChosenTime.
Context `{rt : PyRuntime}.

Lemma slot_at_hour_in (hour_str : string) (slots : list DB.Slot)
    (slot : DB.Slot) :
  Agent.slot_at_hour hour_str slots = Some slot -> In slot slots.
Proof.
  unfold Agent.slot_at_hour. intros Hf.
  apply find_some in Hf. exact (proj1 Hf).
Qed.

Lemma spoken_hour_in (text_lower : string) (words : list (string * string))
    (slots : list DB.Slot) (t : string) :
  Agent.spoken_hour text_lower words slots = Some t ->
  In t (map DB.slot_time slots).
Proof.
  induction words as [| [word hour_str] words IH]; simpl.
  - discriminate.
  - destruct (PyStr.contains text_lower word); [| exact IH].
    destruct (Agent.slot_at_hour hour_str slots) as [slot |] eqn:Hs;
      [| exact IH].
    intros Ht. injection Ht as <-.
    apply in_map, (slot_at_hour_in Hs).
Qed.

Lemma clock_time_in (text : string) (slots : list DB.Slot) (t : string) :
  Agent.clock_time text slots = Some t -> In t (map DB.slot_time slots).
Proof.
  unfold Agent.clock_time.
  destruct (re_time text) as [[group1 group2] |]; [| discriminate].
  destruct (existsb _ slots) eqn:Hex.
  - intros Ht.
    apply existsb_exists in Hex. destruct Hex as [slot [Hin Heq]].
    apply String.eqb_eq in Heq.
    assert (Et : t = DB.slot_time slot).
    { rewrite Heq. injection Ht as Ht. symmetry. exact Ht. }
    rewrite Et. apply in_map, Hin.
  - destruct (Agent.slot_at_hour _ slots) as [slot |] eqn:Hs;
      [| discriminate].
    intros Ht. injection Ht as <-. apply in_map, (slot_at_hour_in Hs).
Qed.

(** Whatever [detect_time] returns is the time of a slot of the list. *)
Lemma detect_time_in (text : string) (slots : list DB.Slot) (t : string) :
  Agent.detect_time text slots = Some t -> In t (map DB.slot_time slots).
Proof.
  unfold Agent.detect_time.
  destruct slots as [| first others]; [discriminate |].
  destruct (Agent.clock_time text (first :: others)) as [t1 |] eqn:H1.
  { intros Ht. injection Ht as <-. exact (clock_time_in H1). }
  destruct (Agent.spoken_hour _ _ (first :: others)) as [t2 |] eqn:H2.
  { intros Ht. injection Ht as <-. exact (spoken_hour_in H2). }
  destruct others; [| discriminate].
  destruct (PyStr.any_in _ _); [| discriminate].
  intros Ht. injection Ht as <-. left. reflexivity.
Qed.

(** C10.  [detect_time] returns [None] or the time of one of the slots it
    is given, whichever of its four modes answers; and a turn taken in
    COLLECT_SLOT that returns in COLLECT_NAME has stored in [session.time]
    the time of one of the slots the session held in [available_slots], a
    list the turn leaves as it is. *)
Theorem chosen_time_is_available (env : Agent.Env) (text : string)
    (session : State.BookingSession) (db : DB.Database) :
  (forall slots t,
     Agent.detect_time text slots = Some t -> In t (map DB.slot_time slots))
  /\ (State.state session = State.COLLECT_SLOT ->
      let turn := Agent.process_message env text session db in
      returned turn ->
      State.state (session_of turn) = State.COLLECT_NAME ->
      exists t,
        State.time (session_of turn) = Some t
        /\ In t (map DB.slot_time (State.available_slots session))
        /\ State.available_slots (session_of turn)
           = State.available_slots session).
Proof.
  split; [intros slots t; apply detect_time_in |].
  intros Hst. cbv zeta. unfold Agent.process_message, Agent.process_message_body.
  destruct (detect_language_early_fields text session)
    as (Hs & _ & _ & Hav & _).
  cbv zeta in Hs, Hav.
  destruct (Agent.detect_language_early text session) as [s' lang].
  cbn [fst] in Hs, Hav. rewrite Hst.
  destruct (_ && _).
  { intros _ Hname. discriminate Hname. }
  destruct (String.eqb _ "go_back").
  { intros Hret. rewrite (universal_go_back_returned Hret).
    intros Hname. congruence. }
  cbn [Agent.state_logic]. unfold Agent.handle_collect_slot.
  destruct (Agent.detect_time text (State.available_slots s')) as [t |] eqn:Hd.
  - destruct (negb (PyStr.truthy (Some t))).
    + intros _ Hname. unfold session_of in Hname. simpl in Hname. congruence.
    + intros _ _. exists t. unfold session_of. simpl.
      split; [reflexivity |]. split; [| exact Hav].
      rewrite <- Hav. exact (detect_time_in Hd).
  - intros _ Hname. unfold session_of in Hname. simpl in Hname. congruence.
Qed.

End ChosenTime.

Lemma chosen_time_is_available_witness :
  Agent.detect_time (rt := ascii_runtime) "ten please" offered_slots
  = Some "10:00"
  /\ In "10:00" (map DB.slot_time offered_slots)
  /\ exists t,
       State.time
         (session_of
            (Agent.process_message (rt := ascii_runtime) quiet_env
               "ten please" choosing_slot empty_db)) = Some t
       /\ In t (map DB.slot_time (State.available_slots choosing_slot))
       /\ State.available_slots
            (session_of
               (Agent.process_message (rt := ascii_runtime) quiet_env
                  "ten please" choosing_slot empty_db))
          = State.available_slots choosing_slot.
Proof.
  destruct (@chosen_time_is_available ascii_runtime quiet_env "ten please"
              choosing_slot empty_db) as [Hdetect Hturn].
  split; [vm_compute; reflexivity |].
  split.
  - apply (Hdetect offered_slots "10:00"). vm_compute. reflexivity.
  - apply Hturn.
    + reflexivity.
    + vm_compute. eexists. reflexivity.
    + vm_compute. reflexivity.
Defined.

(* ------------------------------------------------------------------ *)
(** ** Retrieval: the boosted scores *)

Lemma boost_scores_nth `{rt : PyRuntime} (web_boost : Q)
    (combined : list Embedding.Document) (scores : list Q) (i : nat)
    (doc : Embedding.Document) (score : Q) :
  nth_error combined i = Some doc ->
  nth_error scores i = Some score ->
  nth_error (Embedding.boost_scores web_boost combined scores) i
  = Some (if Embedding.is_web doc then float_add score web_boost else score).
Proof.
  unfold Embedding.boost_scores.
  revert scores i. induction combined as [| d combined IH];
    intros scores i Hd Hs.
  - destruct i; discriminate Hd.
  - destruct scores as [| sc scores]; [destruct i; discriminate Hs |].
    destruct i as [| i]; simpl in *.
    + injection Hd as <-. injection Hs as <-. reflexivity.
    + apply IH; assumption.
Qed.

Lemma boost_scores_length `{rt : PyRuntime} (web_boost : Q)
    (combined : list Embedding.Document) (scores : list Q) :
  length scores = length combined ->
  length (Embedding.boost_scores web_boost combined scores) = length combined.
Proof.
  intros Hl. unfold Embedding.boost_scores.
  rewrite length_map, length_combine, Hl. apply Nat.min_id.
Qed.

(* ------------------------------------------------------------------ *)
(** ** Retrieval: the order of [ranked] *)

Section StableSort.
Variable A : Type.
Variable before : A -> A -> bool.

Lemma insert_perm (x : A) (l : list A) :
  Permutation (x :: l) (PyList.insert before x l).
Proof.
  induction l as [| y l IH]; simpl.
  - apply Permutation_refl.
  - destruct (before x y).
    + apply Permutation_refl.
    + eapply perm_trans; [apply perm_swap |]. apply perm_skip, IH.
Qed.

Lemma sorted_perm (l : list A) : Permutation l (PyList.sorted before l).
Proof.
  induction l as [| x l IH]; simpl.
  - apply perm_nil.
  - eapply perm_trans; [apply perm_skip, IH |]. apply insert_perm.
Qed.

Lemma sorted_length (l : list A) : length (PyList.sorted before l) = length l.
Proof. symmetry. apply Permutation_length, sorted_perm. Qed.

(** Filtering commutes with an insertion as soon as the inserted element
    goes in front of every kept element it is compared with. *)
Lemma filter_insert (keep : A -> bool) (x : A) (l : list A) :
  (forall y, keep x = true -> keep y = true -> before x y = true) ->
  filter keep (PyList.insert before x l)
  = if keep x then x :: filter keep l else filter keep l.
Proof.
  intros Hfront. induction l as [| y l IH]; simpl.
  - reflexivity.
  - destruct (before x y) eqn:Hb; simpl.
    + reflexivity.
    + rewrite IH. destruct (keep x) eqn:Hx, (keep y) eqn:Hy; try reflexivity.
      rewrite (Hfront y eq_refl Hy) in Hb. discriminate Hb.
Qed.

Lemma filter_sorted (keep : A -> bool) (l : list A) :
  (forall x y, keep x = true -> keep y = true -> before x y = true) ->
  filter keep (PyList.sorted before l) = filter keep l.
Proof.
  intros Hfront. induction l as [| x l IH]; simpl.
  - reflexivity.
  - rewrite filter_insert by (intros y; apply Hfront). rewrite IH.
    reflexivity.
Qed.

End StableSort.

Lemma rank_insert_sorted (x : Embedding.Document * Q * Q)
    (l : list (Embedding.Document * Q * Q)) :
  StronglySorted boosted_desc l ->
  StronglySorted boosted_desc
    (PyList.insert
       (fun x y => Qle_bool (snd (fst y)) (snd (fst x))) x l).
Proof.
  induction 1 as [| y l Hs IH Hy]; simpl.
  - constructor; constructor.
  - destruct (Qle_bool (snd (fst y)) (snd (fst x))) eqn:Hb.
    + apply Qle_bool_iff in Hb.
      constructor; [constructor; assumption |].
      constructor; [exact Hb |].
      eapply Forall_impl; [| exact Hy].
      intros z Hz. unfold boosted_desc, Embedding.boosted_of in *.
      eapply Qle_trans; eassumption.
    + constructor; [exact IH |].
      assert (Hxy : boosted_desc y x).
      { unfold boosted_desc, Embedding.boosted_of.
        destruct (Qlt_le_dec (snd (fst x)) (snd (fst y))) as [Hlt | Hle].
        - apply Qlt_le_weak, Hlt.
        - apply Qle_bool_iff in Hle. congruence. }
      eapply Permutation_Forall; [apply insert_perm |].
      constructor; assumption.
Qed.

(** C6, amended.  [ranked] holds the candidates (it is a permutation of
    them) by boosted score, highest first, and candidates of equal boosted
    score stand in the order they had in the deduplicated merge: for every
    value, the rows with that boosted score are the same sequence before
    and after the sort.  The pre-boost score is not a sort key. *)
Theorem rank_is_stable_by_boosted (rows : list (Embedding.Document * Q * Q)) :
  Permutation rows (Embedding.rank rows)
  /\ StronglySorted boosted_desc (Embedding.rank rows)
  /\ forall q : Q,
       filter (boosted_is q) (Embedding.rank rows)
       = filter (boosted_is q) rows.
Proof.
  split; [apply sorted_perm |]. split.
  - unfold Embedding.rank. induction rows as [| x rows IH]; simpl.
    + constructor.
    + apply rank_insert_sorted, IH.
  - intros q. apply filter_sorted.
    intros x y Hx Hy. unfold boosted_is, Embedding.boosted_of in *.
    apply Qeq_bool_iff in Hx. apply Qeq_bool_iff in Hy.
    apply Qle_bool_iff. rewrite Hx, Hy. apply Qle_refl.
Qed.

(** C6, as stated, fails.  With the GENERAL boost 3/2, the web chunks of
    score 0 and the document chunk of score 3/2 between them all have the
    boosted score 3/2; [ranked] keeps them in the order of the merge, so
    the pre-boost scores read 0, 3/2, 0: neither the higher nor the lower
    pre-boost score comes first among the ties. *)
Lemma rank_ignores_original_score :
  tie_boosted = [(0 + (3 # 2))%Q; (3 # 2)%Q; (0 + (3 # 2))%Q]
  /\ map Embedding.doc_of tie_ranked = [web_hours; pdf_form; web_team]
  /\ map Embedding.original_of tie_ranked = [0%Q; (3 # 2)%Q; 0%Q]
  /\ ~ ties_by_original_desc tie_ranked
  /\ ~ ties_by_original_asc tie_ranked.
Proof.
  split; [reflexivity |]. split; [reflexivity |].
  split; [reflexivity |]. split.
  - intros Hties.
    specialize (Hties 0 1 (web_hours, (0 + (3 # 2))%Q, 0%Q)
                  (pdf_form, (3 # 2)%Q, (3 # 2)%Q)).
    assert (Hle : ((3 # 2) <= 0)%Q).
    { apply Hties; [lia | reflexivity | reflexivity | reflexivity]. }
    revert Hle. unfold Qle. simpl. lia.
  - intros Hties.
    specialize (Hties 1 2 (pdf_form, (3 # 2)%Q, (3 # 2)%Q)
                  (web_team, (0 + (3 # 2))%Q, 0%Q)).
    assert (Hle : ((3 # 2) <= 0)%Q).
    { apply Hties; [lia | reflexivity | reflexivity | reflexivity]. }
    revert Hle. unfold Qle. simpl. lia.
Qed.

(* ------------------------------------------------------------------ *)
(** ** Retrieval: graceful degradation *)

Lemma slice_to_length (A : Type) (n : Z) (l : list A) :
  (0 <= n)%Z ->
  length (PyList.slice_to n l) = Nat.min (Z.to_nat n) (length l).
Proof.
  intros Hn. unfold PyList.slice_to.
  destruct (Z.leb_spec 0 n); [apply length_firstn | lia].
Qed.

Lemma slice_to_nonempty (A : Type) (n : Z) (l : list A) :
  (0 < n)%Z -> l <> [] -> PyList.slice_to n l <> [].
Proof.
  intros Hn Hl Hs. apply (f_equal (@length A)) in Hs.
  rewrite slice_to_length in Hs by lia.
  destruct l as [| x l]; [congruence |]. simpl in Hs. lia.
Qed.

Lemma filter_none (A : Type) (keep : A -> bool) (l : list A) :
  (forall x, In x l -> keep x = false) -> filter keep l = [].
Proof.
  induction l as [| x l IH]; intros Hall; simpl.
  - reflexivity.
  - rewrite (Hall x (or_introl eq_refl)). apply IH.
    intros y Hy. apply Hall. right. exact Hy.
Qed.

(** The batches of a list, put end to end, are the list. *)
Lemma concat_batches_from (A : Type) (n fuel : nat) (l : list A) :
  0 < n -> length l <= fuel ->
  concat (Embedding.batches_from fuel n l) = l.
Proof.
  intros Hn. revert l. induction fuel as [| fuel IH]; intros l Hl.
  - destruct l; [reflexivity | simpl in Hl; lia].
  - destruct l as [| x l]; [reflexivity |].
    cbn [Embedding.batches_from concat].
    rewrite IH; [apply firstn_skipn |].
    rewrite length_skipn. change (length (x :: l)) with (S (length l)) in *.
    lia.
Qed.

Lemma predict_batches_scores (r : Embedding.Reranker)
    (bs : list (list (string * string))) (scores : list Q) :
  Embedding.predict_batches r bs = Ok scores ->
  scores
  = map (fun p => Embedding.predict_one r (fst p) (snd p)) (concat bs).
Proof.
  revert scores. induction bs as [| b bs IH]; intros scores; simpl.
  - intros Hs. injection Hs as <-. reflexivity.
  - unfold Embedding.predict.
    destruct (Embedding.predict_raises r b); [discriminate |]. simpl.
    destruct (Embedding.predict_batches r bs) as [more |]; [| discriminate].
    simpl. intros Hs. injection Hs as <-.
    rewrite map_app, (IH more eq_refl). reflexivity.
Qed.

(** The scoring loop, when it does not raise, yields one score per pair. *)
Lemma predict_batches_length (r : Embedding.Reranker)
    (pairs : list (string * string)) (scores : list Q) :
  Embedding.predict_batches r
    (Embedding.batches Embedding.RERANKER_BATCH_SIZE pairs) = Ok scores ->
  length scores = length pairs.
Proof.
  intros Hs. apply predict_batches_scores in Hs. subst scores.
  unfold Embedding.batches.
  rewrite concat_batches_from, length_map;
    [reflexivity | unfold Embedding.RERANKER_BATCH_SIZE; lia | lia].
Qed.

Lemma ranked_rows_length `{rt : PyRuntime} (web_boost : Q)
    (combined : list Embedding.Document) (scores : list Q) :
  length scores = length combined ->
  length (ranked_rows web_boost combined scores) = length combined.
Proof.
  intros Hl. unfold ranked_rows, Embedding.rank.
  rewrite sorted_length, !length_combine, boost_scores_length, Hl by exact Hl.
  rewrite !Nat.min_id. reflexivity.
Qed.

(** STEP 5 keeps something of a non-empty ranking, and at most [top_n]. *)
Lemma threshold_filter_bounds (top_n : Z)
    (ranked : list (Embedding.Document * Q * Q)) :
  (0 < top_n)%Z -> ranked <> [] ->
  Embedding.threshold_filter top_n ranked <> []
  /\ (Z.of_nat (length (Embedding.threshold_filter top_n ranked)) <= top_n)%Z.
Proof.
  intros Hn Hr. unfold Embedding.threshold_filter.
  destruct (filter _ ranked) as [| a above] eqn:Habove.
  - split; [apply slice_to_nonempty; assumption |].
    rewrite slice_to_length by lia. lia.
  - destruct (Z.leb_spec top_n (Z.of_nat (length (a :: above)))) as [Hle | Hgt].
    + split; [apply slice_to_nonempty; [assumption | discriminate] |].
      rewrite slice_to_length by lia. lia.
    + split; [discriminate |].
      rewrite length_app, slice_to_length by lia. lia.
Qed.

Lemma threshold_filter_all_below (top_n : Z)
    (ranked : list (Embedding.Document * Q * Q)) :
  (forall row, In row ranked ->
     (Embedding.boosted_of row < Embedding.RELEVANCE_THRESHOLD)%Q) ->
  Embedding.threshold_filter top_n ranked = PyList.slice_to top_n ranked.
Proof.
  intros Hall. unfold Embedding.threshold_filter.
  rewrite filter_none; [reflexivity |].
  intros row Hin.
  destruct (Qle_bool Embedding.RELEVANCE_THRESHOLD (Embedding.boosted_of row))
    eqn:Hb; [| reflexivity].
  apply Qle_bool_iff in Hb. apply Qle_not_lt in Hb.
  exfalso. apply Hb, Hall, Hin.
Qed.

Section Retrieve.
Context `{rt : PyRuntime}.

Lemma heuristic_sort_length (query : string) (docs : list Embedding.Document) :
  length (Embedding._heuristic_sort_when_reranker_disabled query docs)
  = length docs.
Proof.
  unfold Embedding._heuristic_sort_when_reranker_disabled.
  destruct (_ || _); [reflexivity |].
  rewrite length_map, sorted_length, length_map.
  unfold PyList.enumerate. rewrite length_combine, length_seq.
  apply Nat.min_id.
Qed.

Lemma heuristic_slice_bounds (query : string) (top_n : Z)
    (docs : list Embedding.Document) :
  (0 < top_n)%Z -> docs <> [] ->
  let final_docs :=
    PyList.slice_to top_n
      (Embedding._heuristic_sort_when_reranker_disabled query docs) in
  final_docs <> [] /\ (Z.of_nat (length final_docs) <= top_n)%Z.
Proof.
  intros Hn Hd. cbv zeta. split.
  - apply slice_to_nonempty; [exact Hn |].
    intros He. apply (f_equal (@length _)) in He.
    rewrite heuristic_sort_length in He.
    destruct docs; [congruence | discriminate He].
  - rewrite slice_to_length by lia. lia.
Qed.

(** What [retrieve] returns when no call raises before the ranking. *)
Lemma retrieve_cases (env : Embedding.Collaborators)
    (query : string) (top_n : Z) (faiss_docs bm25_docs : list Embedding.Document) :
  Embedding.build_or_load_vectorstore env = Ok tt ->
  Embedding.load_all_chunks env = Ok tt ->
  Embedding.faiss_invoke env query (top_n * Embedding.CANDIDATE_MULTIPLIER)
  = Ok faiss_docs ->
  Embedding.bm25_invoke env (Embedding.normalize_query query)
    (top_n * Embedding.CANDIDATE_MULTIPLIER) = Ok bm25_docs ->
  let combined := Embedding._deduplicate (faiss_docs ++ bm25_docs) in
  let heuristic :=
    PyList.slice_to top_n
      (Embedding._heuristic_sort_when_reranker_disabled query combined) in
  let pairs :=
    map (fun doc =>
           (query, Embedding._truncate_for_rerank (Embedding.page_content doc)))
        combined in
  Embedding.retrieve env query top_n
  = match combined with
    | [] => []
    | _ :: _ =>
        if negb (Embedding.RERANKER_ENABLED env) then heuristic
        else
          match Embedding.load_reranker env with
          | Raise _ => []
          | Ok reranker =>
              match Embedding.predict_batches reranker
                      (Embedding.batches Embedding.RERANKER_BATCH_SIZE pairs)
              with
              | Raise _ => heuristic
              | Ok scores =>
                  map Embedding.doc_of
                    (Embedding.threshold_filter top_n
                       (ranked_rows
                          (Embedding.web_boost_of
                             (Embedding.classify_query_intent query))
                          combined scores))
              end
          end
    end.
Proof.
  intros Hvs Hch Hfaiss Hbm25. cbv zeta.
  unfold Embedding.retrieve, Embedding.retrieve_try.
  rewrite Hvs, Hch. cbn [bind]. rewrite Hfaiss. cbn [bind].
  rewrite Hbm25. cbn [bind].
  destruct (Embedding._deduplicate (faiss_docs ++ bm25_docs)) as [| d rest];
    [reflexivity |].
  destruct (negb (Embedding.RERANKER_ENABLED env)); [reflexivity |].
  destruct (Embedding.load_reranker env) as [reranker | e]; [| reflexivity].
  cbn [bind].
  destruct (Embedding.predict_batches reranker _) as [scores | e];
    reflexivity.
Qed.

(** The bounds of the result.  Let no collaborator call raise before the
    ranking: the vector store and the chunks load, both retrievers answer,
    and the reranker is switched off or loads (its scoring may still raise,
    which selects the heuristic order).  Then for [top_n > 0]: if
    deduplication yields a candidate, [retrieve] returns a non-empty list of
    at most [top_n] chunks; when the scoring succeeded and every boosted
    score is below the threshold, that list is the first [top_n] of the
    ranking; and [retrieve] returns the empty list only if deduplication
    yields none. *)
Theorem retrieve_degrades_gracefully (env : Embedding.Collaborators)
    (query : string) (top_n : Z) (faiss_docs bm25_docs : list Embedding.Document) :
  (0 < top_n)%Z ->
  Embedding.build_or_load_vectorstore env = Ok tt ->
  Embedding.load_all_chunks env = Ok tt ->
  Embedding.faiss_invoke env query (top_n * Embedding.CANDIDATE_MULTIPLIER)
  = Ok faiss_docs ->
  Embedding.bm25_invoke env (Embedding.normalize_query query)
    (top_n * Embedding.CANDIDATE_MULTIPLIER) = Ok bm25_docs ->
  (Embedding.RERANKER_ENABLED env = false
   \/ exists reranker, Embedding.load_reranker env = Ok reranker) ->
  let combined := Embedding._deduplicate (faiss_docs ++ bm25_docs) in
  let final_docs := Embedding.retrieve env query top_n in
  (combined <> [] ->
   final_docs <> [] /\ (Z.of_nat (length final_docs) <= top_n)%Z)
  /\ (final_docs = [] -> combined = [])
  /\ (combined = [] -> final_docs = [])
  /\ (forall reranker scores,
        Embedding.RERANKER_ENABLED env = true ->
        Embedding.load_reranker env = Ok reranker ->
        Embedding.predict_batches reranker
          (Embedding.batches Embedding.RERANKER_BATCH_SIZE
             (map (fun doc =>
                     (query,
                      Embedding._truncate_for_rerank
                        (Embedding.page_content doc)))
                  combined)) = Ok scores ->
        (forall row,
           In row
             (ranked_rows
                (Embedding.web_boost_of
                   (Embedding.classify_query_intent query))
                combined scores) ->
           (Embedding.boosted_of row < Embedding.RELEVANCE_THRESHOLD)%Q) ->
        combined <> [] ->
        final_docs
        = map Embedding.doc_of
            (PyList.slice_to top_n
               (ranked_rows
                  (Embedding.web_boost_of
                     (Embedding.classify_query_intent query))
                  combined scores))).
Proof.
  intros Hn Hvs Hch Hfaiss Hbm25 Hrr. cbv zeta.
  rewrite (retrieve_cases Hvs Hch Hfaiss Hbm25). cbv zeta.
  set (combined := Embedding._deduplicate (faiss_docs ++ bm25_docs)).
  assert (Hbounds :
    combined <> [] ->
    let final_docs :=
      if negb (Embedding.RERANKER_ENABLED env)
      then PyList.slice_to top_n
             (Embedding._heuristic_sort_when_reranker_disabled query combined)
      else
        match Embedding.load_reranker env with
        | Raise _ => []
        | Ok reranker =>
            match Embedding.predict_batches reranker
                    (Embedding.batches Embedding.RERANKER_BATCH_SIZE
                       (map (fun doc =>
                               (query,
                                Embedding._truncate_for_rerank
                                  (Embedding.page_content doc)))
                            combined))
            with
            | Raise _ =>
                PyList.slice_to top_n
                  (Embedding._heuristic_sort_when_reranker_disabled query
                     combined)
            | Ok scores =>
                map Embedding.doc_of
                  (Embedding.threshold_filter top_n
                     (ranked_rows
                        (Embedding.web_boost_of
                           (Embedding.classify_query_intent query))
                        combined scores))
            end
        end in
    final_docs <> [] /\ (Z.of_nat (length final_docs) <= top_n)%Z).
  { intros Hne. cbv zeta.
    destruct (Embedding.RERANKER_ENABLED env) eqn:Hen; cbn [negb];
      [| apply heuristic_slice_bounds; assumption].
    destruct Hrr as [Hoff | [reranker Hload]]; [discriminate Hoff |].
    rewrite Hload.
    destruct (Embedding.predict_batches reranker _) as [scores | e] eqn:Hp;
      [| apply heuristic_slice_bounds; assumption].
    apply predict_batches_length in Hp. rewrite length_map in Hp.
    destruct (@threshold_filter_bounds top_n
                (ranked_rows
                   (Embedding.web_boost_of
                      (Embedding.classify_query_intent query))
                   combined scores) Hn) as [Hnonempty Hlen].
    { intros He. apply (f_equal (@length _)) in He.
      rewrite ranked_rows_length in He by exact Hp.
      destruct combined; [congruence | discriminate He]. }
    rewrite length_map. split; [| exact Hlen].
    intros He. apply map_eq_nil in He. exact (Hnonempty He). }
  destruct combined as [| d rest] eqn:Hc.
  - split; [intros Hne; congruence |].
    split; [reflexivity |]. split; [reflexivity |].
    intros reranker scores _ _ _ _ Hne. congruence.
  - specialize (Hbounds ltac:(discriminate)). cbv zeta in Hbounds.
    split; [intros _; exact Hbounds |].
    split; [intros He; exfalso; exact (proj1 Hbounds He) |].
    split; [discriminate |].
    intros reranker scores Hen Hload Hp Hbelow _.
    rewrite Hen, Hload. cbn [negb]. rewrite Hp.
    rewrite threshold_filter_all_below by exact Hbelow. reflexivity.
Qed.

End Retrieve.

(** C5.  The design has [retrieve] return a non-empty list of at most
    [top_n] chunks whenever deduplication yields a candidate, a failing
    relevance model selecting the heuristic order.  The code does otherwise
    when the model cannot be loaded: [load_reranker] is called outside the
    [try] whose handler selects the heuristic order.  Here the two
    retrievers find [web_hours] and [pdf_form], deduplication yields these
    two candidates, reranking is switched on and the cross-encoder cannot
    be loaded: the exception reaches the outer handler of [retrieve], which
    returns the empty list. *)
Lemma retrieve_empty_with_candidates :
  Embedding._deduplicate (rt := ascii_runtime)
    ([web_hours; pdf_form] ++ [pdf_form])
  = [web_hours; pdf_form]
  /\ Embedding.faiss_invoke unloadable_env "opening hours"
       (3 * Embedding.CANDIDATE_MULTIPLIER) = Ok [web_hours; pdf_form]
  /\ Embedding.bm25_invoke unloadable_env
       (Embedding.normalize_query (rt := ascii_runtime) "opening hours")
       (3 * Embedding.CANDIDATE_MULTIPLIER) = Ok [pdf_form]
  /\ Embedding.retrieve (rt := ascii_runtime) unloadable_env "opening hours" 3
     = [].
Proof. repeat split. Qed.

Lemma retrieve_degrades_gracefully_witness :
  Embedding._deduplicate (rt := ascii_runtime)
    ([web_hours; pdf_form] ++ [pdf_form])
  = [web_hours; pdf_form]
  /\ Embedding.retrieve (rt := ascii_runtime) strict_env "opening hours" 1
     = [web_hours]
  /\ Embedding.retrieve (rt := ascii_runtime) strict_env "opening hours" 1
     <> []
  /\ (Z.of_nat
        (length
           (Embedding.retrieve (rt := ascii_runtime) strict_env
              "opening hours" 1)) <= 1)%Z.
Proof.
  split; [reflexivity |]. split; [vm_compute; reflexivity |].
  apply (@retrieve_degrades_gracefully ascii_runtime strict_env
           "opening hours" 1%Z [web_hours; pdf_form] [pdf_form]).
  - lia.
  - reflexivity.
  - reflexivity.
  - reflexivity.
  - reflexivity.
  - right. exists harsh_reranker. reflexivity.
  - discriminate.
Defined.

(* ------------------------------------------------------------------ *)
(** ** Retrieval: the boost inside [retrieve] *)

Section Intent.
Context `{rt : PyRuntime}.

(** The boost [retrieve] uses, from the two counts. *)
Lemma web_boost_of_counts (query : string) :
  Embedding.web_boost_of (Embedding.classify_query_intent query)
  = (if Embedding.form_count query <? Embedding.info_count query then 3%Q
     else if Embedding.info_count query <? Embedding.form_count query
          then 0%Q
          else (3 # 2)%Q).
Proof.
  unfold Embedding.classify_query_intent.
  destruct (Embedding.form_count query <? Embedding.info_count query);
    [reflexivity |].
  destruct (Embedding.info_count query <? Embedding.form_count query);
    reflexivity.
Qed.

(** C7.  The two counts are those of the informational and of the form
    keywords that occur in the lower-cased query; the intent is INFORMATION
    exactly when more informational keywords occur, FORM exactly when more
    form keywords do, GENERAL otherwise.  When [retrieve] reaches the
    ranking (no collaborator call raises, reranking is switched on, the
    cross-encoder loads and scores every batch), every candidate has a
    score, and what [retrieve] returns is selected from the candidates
    ranked by boosted score, where the boosted score of a candidate whose
    source type is web is the float sum of its score and the boost (3 for
    INFORMATION, 0 for FORM, 3/2 for GENERAL), and the boosted score of any
    other candidate is its score. *)
Theorem intent_selects_web_boost (env : Embedding.Collaborators)
    (query : string) (top_n : Z)
    (faiss_docs bm25_docs : list Embedding.Document)
    (reranker : Embedding.Reranker) (scores : list Q) :
  let intent := Embedding.classify_query_intent query in
  let info := Embedding.info_count query in
  let form := Embedding.form_count query in
  let web_boost : Q :=
    if form <? info then 3%Q else if info <? form then 0%Q else (3 # 2)%Q in
  let combined := Embedding._deduplicate (faiss_docs ++ bm25_docs) in
  info = PyStr.count_in (str_lower query) Embedding.info_keywords
  /\ form = PyStr.count_in (str_lower query) Embedding.form_keywords
  /\ (intent = "information" <-> form < info)
  /\ (intent = "form" <-> info < form)
  /\ (intent = "general" <-> info = form)
  /\ (Embedding.build_or_load_vectorstore env = Ok tt ->
      Embedding.load_all_chunks env = Ok tt ->
      Embedding.faiss_invoke env query
        (top_n * Embedding.CANDIDATE_MULTIPLIER) = Ok faiss_docs ->
      Embedding.bm25_invoke env (Embedding.normalize_query query)
        (top_n * Embedding.CANDIDATE_MULTIPLIER) = Ok bm25_docs ->
      Embedding.RERANKER_ENABLED env = true ->
      Embedding.load_reranker env = Ok reranker ->
      Embedding.predict_batches reranker
        (Embedding.batches Embedding.RERANKER_BATCH_SIZE
           (map (fun doc =>
                   (query,
                    Embedding._truncate_for_rerank
                      (Embedding.page_content doc)))
                combined)) = Ok scores ->
      exists boosted_scores : list Q,
        length scores = length combined
        /\ length boosted_scores = length combined
        /\ (forall i doc score,
              nth_error combined i = Some doc ->
              nth_error scores i = Some score ->
              nth_error boosted_scores i
              = Some (if Embedding.is_web doc
                      then float_add score web_boost
                      else score))
        /\ Embedding.retrieve env query top_n
           = map Embedding.doc_of
               (Embedding.threshold_filter top_n
                  (Embedding.rank
                     (combine (combine combined boosted_scores) scores)))).
Proof.
  cbv zeta. split; [reflexivity |]. split; [reflexivity |].
  assert (Hcases :
    (Embedding.form_count query < Embedding.info_count query
     /\ Embedding.classify_query_intent query = "information")
    \/ (Embedding.info_count query < Embedding.form_count query
        /\ Embedding.classify_query_intent query = "form")
    \/ (Embedding.info_count query = Embedding.form_count query
        /\ Embedding.classify_query_intent query = "general")).
  { unfold Embedding.classify_query_intent.
    destruct (Nat.ltb_spec (Embedding.form_count query)
                (Embedding.info_count query)) as [Hlt | Hge];
      [left; split; [exact Hlt | reflexivity] |].
    destruct (Nat.ltb_spec (Embedding.info_count query)
                (Embedding.form_count query)) as [Hlt | Hge'];
      [right; left; split; [exact Hlt | reflexivity] |].
    right; right. split; [lia | reflexivity]. }
  split; [| split; [| split]].
  - destruct Hcases as [[Hc ->] | [[Hc ->] | [Hc ->]]];
      split; intros Hx; try assumption; try reflexivity;
      try discriminate Hx; lia.
  - destruct Hcases as [[Hc ->] | [[Hc ->] | [Hc ->]]];
      split; intros Hx; try assumption; try reflexivity;
      try discriminate Hx; lia.
  - destruct Hcases as [[Hc ->] | [[Hc ->] | [Hc ->]]];
      split; intros Hx; try assumption; try reflexivity;
      try discriminate Hx; lia.
  - intros Hvs Hch Hfaiss Hbm25 Hen Hload Hp.
    pose proof (predict_batches_length Hp) as Hlen.
    rewrite length_map in Hlen.
    exists (Embedding.boost_scores
              (Embedding.web_boost_of (Embedding.classify_query_intent query))
              (Embedding._deduplicate (faiss_docs ++ bm25_docs)) scores).
    split; [exact Hlen |].
    split; [apply boost_scores_length; exact Hlen |].
    split.
    + intros i doc score Hd Hs. rewrite <- web_boost_of_counts.
      apply boost_scores_nth; assumption.
    + rewrite (retrieve_cases Hvs Hch Hfaiss Hbm25). cbv zeta.
      rewrite Hen, Hload. cbn [negb]. 
      destruct (Embedding._deduplicate (faiss_docs ++ bm25_docs))
        as [| d rest] eqn:Hc.
      * destruct scores; [| discriminate Hlen].
        cbn. unfold PyList.slice_to.
        destruct (0 <=? top_n)%Z; [rewrite firstn_nil |]; reflexivity.
      * rewrite Hp. reflexivity.
Qed.

End Intent.

Lemma intent_selects_web_boost_witness :
  Embedding.classify_query_intent (rt := ascii_runtime) "How can I book?"
  = "information"
  /\ Embedding.classify_query_intent (rt := ascii_runtime)
       "patient form and formular" = "form"
  /\ Embedding.classify_query_intent (rt := ascii_runtime) "massage"
     = "general"
  /\ exists boosted_scores : list Q,
       nth_error boosted_scores 0 = Some (- (10) + 3)%Q
       /\ nth_error boosted_scores 1 = Some (- (10))%Q
       /\ Embedding.retrieve (rt := ascii_runtime) strict_env
            "opening hours" 1
          = map Embedding.doc_of
              (Embedding.threshold_filter 1
                 (Embedding.rank
                    (combine (combine [web_hours; pdf_form] boosted_scores)
                       [(- (10))%Q; (- (10))%Q]))).
Proof.
  destruct (@intent_selects_web_boost ascii_runtime strict_env
              "How can I book?" 1%Z [] [] harsh_reranker [])
    as (_ & _ & [_ Hinfo] & _).
  destruct (@intent_selects_web_boost ascii_runtime strict_env
              "patient form and formular" 1%Z [] [] harsh_reranker [])
    as (_ & _ & _ & [_ Hform] & _).
  destruct (@intent_selects_web_boost ascii_runtime strict_env
              "massage" 1%Z [] [] harsh_reranker [])
    as (_ & _ & _ & _ & [_ Hgeneral] & _).
  destruct (@intent_selects_web_boost ascii_runtime strict_env
              "opening hours" 1%Z [web_hours; pdf_form] [pdf_form]
              harsh_reranker [(- (10))%Q; (- (10))%Q])
    as (_ & _ & _ & _ & _ & Hretrieve).
  split; [apply Hinfo; vm_compute; lia |].
  split; [apply Hform; vm_compute; lia |].
  split; [apply Hgeneral; vm_compute; reflexivity |].
  destruct Hretrieve as (boosted_scores & _ & _ & Hboost & Hret);
    try reflexivity.
  exists boosted_scores.
  split; [apply (Hboost 0 web_hours (- (10))%Q); reflexivity |].
  split; [apply (Hboost 1 pdf_form (- (10))%Q); reflexivity |].
  exact Hret.
Defined.

(* ================================================================== *)
(** * Further properties of the code *)

(* ------------------------------------------------------------------ *)
(** ** Sorting *)

Section SortedOrder.
Variable A : Type.
Variable before : A -> A -> bool.
Hypothesis before_total :
  forall x y, before x y = false -> before y x = true.

Lemma insert_hdrel (a x : A) (l : list A) :
  before a x = true ->
  HdRel (fun u v => before u v = true) a l ->
  HdRel (fun u v => before u v = true) a (PyList.insert before x l).
Proof.
  intros Hax Hal. destruct l as [| y l]; simpl.
  - constructor. exact Hax.
  - destruct (before x y); constructor; [exact Hax |].
    inversion Hal; assumption.
Qed.

Lemma insert_keeps_sorted (x : A) (l : list A) :
  Sorted (fun u v => before u v = true) l ->
  Sorted (fun u v => before u v = true) (PyList.insert before x l).
Proof.
  induction 1 as [| y l Hs IH Hy]; simpl.
  - constructor; constructor.
  - destruct (before x y) eqn:Hb.
    + constructor; [constructor; assumption |]. constructor. exact Hb.
    + constructor; [exact IH |].
      apply insert_hdrel; [apply before_total, Hb | exact Hy].
Qed.

(** The output of the sort is in order, whatever total test it is given. *)
Lemma sorted_in_order (l : list A) :
  Sorted (fun u v => before u v = true) (PyList.sorted before l).
Proof.
  induction l as [| x l IH]; simpl.
  - constructor.
  - apply insert_keeps_sorted, IH.
Qed.

End SortedOrder.

(* ------------------------------------------------------------------ *)
(** ** Slot store: what the agent is offered *)

Lemma leb_time_total (a b : DB.Slot) :
  String.leb (DB.slot_time a) (DB.slot_time b) = false ->
  String.leb (DB.slot_time b) (DB.slot_time a) = true.
Proof.
  intros Hab.
  destruct (String.leb_total (DB.slot_time a) (DB.slot_time b)) as [H | H];
    congruence.
Qed.

(** X1.  [get_available_slots] returns exactly the rows of the date (and
    of the service, when one is given) whose [is_booked] is 0, each once,
    in ascending order of time. *)
Theorem get_available_slots_free_and_ordered (date_str : string)
    (service_ : option string) (db : DB.Database) :
  let slots := DB.get_available_slots date_str service_ db in
  Permutation
    (filter (fun r =>
               String.eqb (DB.slot_date r) date_str
               && (if PyStr.truthy service_
                   then DB.sql_eq (DB.slot_service r) service_ else true)
               && (DB.is_booked r =? 0)%Z)
            (DB.available_slots db))
    slots
  /\ (forall slot, In slot slots ->
        In slot (DB.available_slots db)
        /\ DB.is_booked slot = 0%Z
        /\ DB.slot_date slot = date_str
        /\ (PyStr.truthy service_ = true ->
            Some (DB.slot_service slot) = service_))
  /\ Sorted (fun a b => String.leb (DB.slot_time a) (DB.slot_time b) = true)
       slots.
Proof.
  cbv zeta. unfold DB.get_available_slots, DB.order_by_time.
  split; [| split].
  - destruct (PyStr.truthy service_).
    + apply sorted_perm.
    + eapply perm_trans; [| apply sorted_perm].
      erewrite filter_ext; [apply Permutation_refl |].
      intros r. simpl. rewrite andb_true_r. reflexivity.
  - intros slot Hin.
    destruct (PyStr.truthy service_) eqn:Ht;
      apply (Permutation_in _ (Permutation_sym (sorted_perm _ _))) in Hin;
      apply filter_In in Hin; destruct Hin as [Hin Hk];
      repeat (apply andb_true_iff in Hk; destruct Hk as [Hk ?]).
    + repeat split; try assumption.
      * apply Z.eqb_eq. assumption.
      * apply String.eqb_eq. assumption.
      * intros _. unfold DB.sql_eq in *.
        destruct service_ as [v |]; [| discriminate].
        f_equal. apply String.eqb_eq. assumption.
    + repeat split; try assumption.
      * apply Z.eqb_eq. assumption.
      * apply String.eqb_eq. assumption.
      * discriminate.
  - destruct (PyStr.truthy service_);
      apply sorted_in_order; intros a b; apply leb_time_total.
Qed.

Lemma get_available_slots_free_and_ordered_witness :
  map DB.slot_time
    (DB.get_available_slots "2025-03-20" (Some "massage") shuffled_db)
  = ["09:00"; "11:00"]
  /\ forall slot,
       In slot (DB.get_available_slots "2025-03-20" (Some "massage")
                  shuffled_db) ->
       DB.is_booked slot = 0%Z.
Proof.
  split; [reflexivity |].
  intros slot Hin.
  apply (proj1 (proj2 (@get_available_slots_free_and_ordered "2025-03-20"
                         (Some "massage") shuffled_db)) slot Hin).
Defined.

(** X2.  Once a booking of (date, time, service) has succeeded, no slot of
    that (date, time, service) is offered any more, whatever date and
    service are asked for, and every other slot is offered as before. *)
Theorem booked_slot_is_not_offered (env : DB.SqlEnv)
    (n p s d t : option string) (room : string) (db : DB.Database)
    (ask_date : string) (ask_service : option string) :
  DB.success (fst (DB.book_appointment env n p s d t room db)) = true ->
  let db' := snd (DB.book_appointment env n p s d t room db) in
  (forall slot,
     In slot (DB.get_available_slots ask_date ask_service db') ->
     DB.slot_matches d t s slot = false
     /\ In slot (DB.get_available_slots ask_date ask_service db))
  /\ (forall slot,
        In slot (DB.get_available_slots ask_date ask_service db) ->
        DB.slot_matches d t s slot = false ->
        In slot (DB.get_available_slots ask_date ask_service db')).
Proof.
  intros Hok. cbv zeta.
  destruct (book_appointment_cases env n p s d t room db)
    as [[_ [e He]] | [_ (n' & p' & s' & d' & t' & _ & _ & _ & _ & _ & He)]];
    cbv zeta in He; rewrite He in *; simpl in Hok; [discriminate Hok |].
  cbn [snd].
  assert (Hrows : forall keep slot,
            In slot (filter keep
                       (DB.update_slots 1 d t s (DB.available_slots db))) ->
            (forall r, keep r = true -> DB.is_booked r = 0%Z) ->
            DB.slot_matches d t s slot = false
            /\ In slot (filter keep (DB.available_slots db))).
  { intros keep slot Hin Hfree. apply filter_In in Hin.
    destruct Hin as [Hin Hk]. unfold DB.update_slots in Hin.
    apply in_map_iff in Hin. destruct Hin as [r [Hr Hin]].
    destruct (DB.slot_matches d t s r) eqn:Hm.
    - subst slot. apply Hfree in Hk. discriminate Hk.
    - subst slot. split; [exact Hm |]. apply filter_In. split; assumption. }
  assert (Hback : forall keep slot,
            In slot (filter keep (DB.available_slots db)) ->
            DB.slot_matches d t s slot = false ->
            In slot (filter keep
                       (DB.update_slots 1 d t s (DB.available_slots db)))).
  { intros keep slot Hin Hm. apply filter_In in Hin.
    destruct Hin as [Hin Hk]. apply filter_In. split; [| exact Hk].
    unfold DB.update_slots. apply in_map_iff. exists slot.
    rewrite Hm. split; [reflexivity | exact Hin]. }
  unfold DB.get_available_slots, DB.order_by_time. cbn [DB.available_slots].
  split.
  - intros slot Hin.
    destruct (PyStr.truthy ask_service);
      apply (Permutation_in _ (Permutation_sym (sorted_perm _ _))) in Hin;
      apply Hrows in Hin;
      try (destruct Hin as [Hm Hin]; split; [exact Hm |];
           apply (Permutation_in _ (sorted_perm _ _)); exact Hin);
      intros r Hk; apply andb_true_iff in Hk; destruct Hk as [_ Hk];
      apply Z.eqb_eq; exact Hk.
  - intros slot Hin Hm.
    destruct (PyStr.truthy ask_service);
      apply (Permutation_in _ (Permutation_sym (sorted_perm _ _))) in Hin;
      apply (Permutation_in _ (sorted_perm _ _));
      apply Hback; assumption.
Qed.

Lemma booked_slot_is_not_offered_witness :
  map DB.slot_time
    (DB.get_available_slots "2025-03-20" (Some "massage") shuffled_db)
  = ["09:00"; "11:00"]
  /\ map DB.slot_time
       (DB.get_available_slots "2025-03-20" (Some "massage")
          (snd (DB.book_appointment quiet_sql (Some "Jo Doe")
                  (Some "+41790000000") (Some "massage") (Some "2025-03-20")
                  (Some "09:00") "room-2" shuffled_db)))
     = ["11:00"]
  /\ forall slot,
       In slot
         (DB.get_available_slots "2025-03-20" (Some "massage")
            (snd (DB.book_appointment quiet_sql (Some "Jo Doe")
                    (Some "+41790000000") (Some "massage")
                    (Some "2025-03-20") (Some "09:00") "room-2"
                    shuffled_db))) ->
       DB.slot_matches (Some "2025-03-20") (Some "09:00") (Some "massage")
         slot = false.
Proof.
  split; [reflexivity |]. split; [reflexivity |].
  intros slot Hin.
  apply (proj1 (@booked_slot_is_not_offered quiet_sql (Some "Jo Doe")
                  (Some "+41790000000") (Some "massage") (Some "2025-03-20")
                  (Some "09:00") "room-2" shuffled_db "2025-03-20"
                  (Some "massage") eq_refl) slot Hin).
Defined.

(* ------------------------------------------------------------------ *)
(** ** Slot store: cancellation *)

Lemma update_slots_length (flag : Z) (d t s : option string)
    (rows : list DB.Slot) :
  length (DB.update_slots flag d t s rows) = length rows.
Proof. apply length_map. Qed.

Lemma mark_cancelled_length (i : Z) (rows : list DB.Appointment) :
  length (DB.mark_cancelled i rows) = length rows.
Proof. apply length_map. Qed.

(** What [cancel_appointment] returns, by cases. *)
Lemma cancel_appointment_cases (env : DB.CancelEnv) (i : Z)
    (db : DB.Database) :
  (exists msg, DB.cancel_appointment env i db = (DB.NotCancelled msg, db))
  \/ (exists appt,
        DB.select_error env = None /\ DB.free_slot_error env = None
        /\ DB.mark_cancelled_error env = None
        /\ DB.cancel_commit_error env = None
        /\ find (fun a => (DB.id a =? i)%Z) (DB.appointments db) = Some appt
        /\ DB.cancel_appointment env i db
           = (DB.Cancelled i,
              {| DB.available_slots :=
                   DB.update_slots 0 (Some (DB.date appt))
                     (Some (DB.time appt)) (Some (DB.service appt))
                     (DB.available_slots db);
                 DB.appointments :=
                   DB.mark_cancelled i (DB.appointments db);
                 DB.appointments_seq := DB.appointments_seq db |})).
Proof.
  unfold DB.cancel_appointment, DB.execute_select_appointment,
    DB.get_connection, DB.close, DB.rollback.
  destruct (DB.select_error env) as [e |] eqn:Hsel; [left; eauto |].
  cbn [DB.in_txn DB.on_disk].
  destruct (find _ (DB.appointments db)) as [appt |] eqn:Hfind;
    [| left; eauto].
  unfold DB.seq_, DB.execute_update_slot, DB.execute_mark_cancelled,
    DB.commit, DB.cancel_sql.
  cbn [DB.update_error DB.commit_error DB.in_txn DB.on_disk].
  destruct (DB.free_slot_error env) as [e |] eqn:Hfree; [left; eauto |].
  destruct (DB.mark_cancelled_error env) as [e |] eqn:Hmark;
    [left; eauto |].
  cbn [DB.in_txn DB.on_disk DB.available_slots DB.appointments
       DB.appointments_seq].
  destruct (DB.cancel_commit_error env) as [e |] eqn:Hcommit;
    [left; eauto |].
  right. exists appt. repeat split; reflexivity.
Qed.

(** X3.  [cancel_appointment] is all or nothing and deletes nothing.  It
    either fails and leaves the tables exactly as they were, which is what
    happens when no appointment has the id ("Appointment not found"); or it
    succeeds, and then every appointment row with that id has the status
    cancelled, the other rows and the number of rows are unchanged, and
    every slot row of the appointment's (date, time, service) has
    [is_booked = 0]. *)
Theorem cancel_appointment_all_or_nothing (env : DB.CancelEnv) (i : Z)
    (db : DB.Database) :
  let r := fst (DB.cancel_appointment env i db) in
  let db' := snd (DB.cancel_appointment env i db) in
  ((exists msg, r = DB.NotCancelled msg /\ db' = db)
   \/ (exists appt,
         r = DB.Cancelled i
         /\ In appt (DB.appointments db) /\ DB.id appt = i
         /\ length (DB.appointments db') = length (DB.appointments db)
         /\ length (DB.available_slots db') = length (DB.available_slots db)
         /\ (forall a, In a (DB.appointments db') ->
               DB.id a = i -> DB.status a = "cancelled")
         /\ (forall a, In a (DB.appointments db) ->
               DB.id a <> i -> In a (DB.appointments db'))
         /\ (forall slot, In slot (DB.available_slots db') ->
               DB.slot_matches (Some (DB.date appt)) (Some (DB.time appt))
                 (Some (DB.service appt)) slot = true ->
               DB.is_booked slot = 0%Z)))
  /\ (DB.select_error env = None ->
      (forall a, In a (DB.appointments db) -> DB.id a <> i) ->
      r = DB.NotCancelled "Appointment not found" /\ db' = db).
Proof.
  cbv zeta. split.
  - destruct (cancel_appointment_cases env i db)
      as [[msg He] | [appt (_ & _ & _ & _ & Hfind & He)]]; rewrite He;
      cbn [fst snd].
    + left. eauto.
    + right. exists appt. apply find_some in Hfind.
      destruct Hfind as [Hin Hid]. apply Z.eqb_eq in Hid.
      split; [reflexivity |]. split; [exact Hin |]. split; [exact Hid |].
      cbn [DB.appointments DB.available_slots].
      split; [apply mark_cancelled_length |].
      split; [apply update_slots_length |].
      split; [| split].
      * intros a Ha Hida. unfold DB.mark_cancelled in Ha.
        apply in_map_iff in Ha. destruct Ha as [a0 [Ha0 _]].
        destruct (DB.id a0 =? i)%Z eqn:E; subst a; [reflexivity |].
        apply Z.eqb_neq in E. congruence.
      * intros a Ha Hne. unfold DB.mark_cancelled. apply in_map_iff.
        exists a. split; [| exact Ha].
        destruct (Z.eqb_spec (DB.id a) i); [congruence | reflexivity].
      * intros slot Hs Hm. eapply update_slots_marks; eassumption.
  - intros Hsel Hnone.
    unfold DB.cancel_appointment, DB.execute_select_appointment,
      DB.get_connection, DB.close.
    rewrite Hsel. cbn [DB.in_txn DB.on_disk].
    destruct (find _ (DB.appointments db)) as [appt |] eqn:Hfind.
    + apply find_some in Hfind. destruct Hfind as [Hin Hid].
      apply Z.eqb_eq in Hid. exfalso. exact (Hnone appt Hin Hid).
    + split; reflexivity.
Qed.

Lemma cancel_appointment_all_or_nothing_witness :
  fst (DB.cancel_appointment quiet_cancel 7 taken_db)
  = DB.NotCancelled "Appointment not found"
  /\ snd (DB.cancel_appointment quiet_cancel 7 taken_db) = taken_db.
Proof.
  apply (proj2 (@cancel_appointment_all_or_nothing quiet_cancel 7 taken_db)).
  - reflexivity.
  - intros a [<- | []]. discriminate.
Defined.

Lemma id_below_next_id (t : DB.Database) (a : DB.Appointment) :
  In a (DB.appointments t) -> (DB.id a < DB.next_id t)%Z.
Proof.
  unfold DB.next_id. intros Hin.
  assert (Hmax : (DB.id a
                  <= fold_right Z.max 0%Z (map DB.id (DB.appointments t)))%Z).
  { induction (DB.appointments t) as [| b rows IH]; [destruct Hin |].
    simpl. destruct Hin as [<- | Hin]; [lia |].
    specialize (IH Hin). lia. }
  lia.
Qed.

Lemma free_after_booked (d t s : option string) (rows : list DB.Slot) :
  (forall r, In r rows -> DB.slot_matches d t s r = true ->
             DB.is_booked r = 0%Z) ->
  DB.update_slots 0 d t s (DB.update_slots 1 d t s rows) = rows.
Proof.
  intros Hfree. unfold DB.update_slots. rewrite map_map.
  rewrite <- (map_id rows) at 2. apply map_ext_in.
  intros r Hin. destruct (DB.slot_matches d t s r) eqn:Hm.
  - assert (Hm' : DB.slot_matches d t s (DB.set_is_booked r 1) = true)
      by exact Hm.
    rewrite Hm'. specialize (Hfree r Hin Hm).
    destruct r; simpl in *; subst; reflexivity.
  - rewrite Hm. reflexivity.
Qed.

Lemma mark_cancelled_other (i : Z) (rows : list DB.Appointment) :
  (forall a, In a rows -> DB.id a <> i) -> DB.mark_cancelled i rows = rows.
Proof.
  intros Hne. unfold DB.mark_cancelled. rewrite <- (map_id rows) at 2.
  apply map_ext_in. intros a Hin.
  destruct (Z.eqb_spec (DB.id a) i); [exfalso; exact (Hne a Hin e) |].
  reflexivity.
Qed.

Lemma find_new_row (i : Z) (rows : list DB.Appointment)
    (row : DB.Appointment) :
  (forall a, In a rows -> DB.id a <> i) -> DB.id row = i ->
  find (fun a => (DB.id a =? i)%Z) (rows ++ [row]) = Some row.
Proof.
  intros Hne Hid. induction rows as [| a rows IH]; simpl.
  - rewrite Hid, Z.eqb_refl. reflexivity.
  - destruct (Z.eqb_spec (DB.id a) i) as [e | _];
      [exfalso; exact (Hne a (or_introl eq_refl) e) |].
    apply IH. intros b Hb. apply Hne. right. exact Hb.
Qed.

(** X4.  Booking a free slot and cancelling the appointment just made is
    a round trip on the slots: when both calls run without an error, the
    second finds the new appointment under the returned id, the table of
    slots is afterwards exactly what it was before the booking, and the
    appointment stays in its table, with the status cancelled. *)
Theorem book_then_cancel_round_trip (env : DB.SqlEnv) (cenv : DB.CancelEnv)
    (n p s d t room : string) (db : DB.Database) :
  book_raises env (Some n) (Some p) (Some s) (Some d) (Some t) = false ->
  DB.select_error cenv = None -> DB.free_slot_error cenv = None ->
  DB.mark_cancelled_error cenv = None ->
  DB.cancel_commit_error cenv = None ->
  (forall r, In r (DB.available_slots db) ->
     DB.slot_matches (Some d) (Some t) (Some s) r = true ->
     DB.is_booked r = 0%Z) ->
  exists i,
    let booked :=
      DB.book_appointment env (Some n) (Some p) (Some s) (Some d) (Some t)
        room db in
    let cancelled := DB.cancel_appointment cenv i (snd booked) in
    fst booked = DB.Success i
    /\ fst cancelled = DB.Cancelled i
    /\ DB.available_slots (snd cancelled) = DB.available_slots db
    /\ DB.appointments (snd cancelled)
       = DB.appointments db
         ++ [DB.set_status (confirmed_row i env n p s d t room) "cancelled"].
Proof.
  intros Hno Hsel Hfree Hmark Hcommit Hopen.
  destruct (book_appointment_cases env (Some n) (Some p) (Some s) (Some d)
              (Some t) room db)
    as [[Hr _] | [_ (n' & p' & s' & d' & t' & En & Ep & Es & Ed & Et & He)]];
    [congruence |].
  injection En as <-. injection Ep as <-. injection Es as <-.
  injection Ed as <-. injection Et as <-. cbv zeta in He.
  eexists. cbv zeta. rewrite He. cbn [fst snd].
  split; [reflexivity |].
  set (db1 := {| DB.available_slots :=
                   DB.update_slots 1 (Some d) (Some t) (Some s)
                     (DB.available_slots db);
                 DB.appointments := DB.appointments db;
                 DB.appointments_seq := DB.appointments_seq db |}).
  set (i := DB.next_id db1).
  assert (Hids : forall a, In a (DB.appointments db) -> DB.id a <> i).
  { intros a Hin. pose proof (@id_below_next_id db1 a Hin). subst i. lia. }
  unfold DB.cancel_appointment, DB.execute_select_appointment,
    DB.get_connection, DB.close, DB.rollback.
  rewrite Hsel. cbn [DB.in_txn DB.on_disk DB.appointments].
  rewrite (@find_new_row i (DB.appointments db)
             (confirmed_row i env n p s d t room) Hids eq_refl).
  unfold DB.seq_, DB.execute_update_slot, DB.execute_mark_cancelled,
    DB.commit, DB.cancel_sql.
  cbn [DB.update_error DB.commit_error DB.in_txn DB.on_disk].
  rewrite Hfree, Hmark.
  cbn [DB.in_txn DB.on_disk DB.available_slots DB.appointments
       DB.appointments_seq].
  rewrite Hcommit. cbn [fst snd DB.on_disk DB.in_txn DB.available_slots
                        DB.appointments].
  split; [reflexivity |]. split.
  - apply free_after_booked. exact Hopen.
  - unfold DB.mark_cancelled. rewrite map_app.
    change (map (fun a => if (DB.id a =? i)%Z
                          then DB.set_status a "cancelled" else a)
              (DB.appointments db))
      with (DB.mark_cancelled i (DB.appointments db)).
    rewrite (mark_cancelled_other Hids). simpl.
    rewrite Z.eqb_refl. reflexivity.
Qed.

Lemma book_then_cancel_round_trip_witness :
  exists i,
    fst (DB.book_appointment quiet_sql (Some "Jo Doe") (Some "+41790000000")
           (Some "massage") (Some "2025-03-20") (Some "10:00") "room-2"
           open_db) = DB.Success i
    /\ DB.available_slots
         (snd (DB.cancel_appointment quiet_cancel i
                 (snd (DB.book_appointment quiet_sql (Some "Jo Doe")
                         (Some "+41790000000") (Some "massage")
                         (Some "2025-03-20") (Some "10:00") "room-2"
                         open_db))))
       = DB.available_slots open_db.
Proof.
  destruct (@book_then_cancel_round_trip quiet_sql quiet_cancel "Jo Doe"
              "+41790000000" "massage" "2025-03-20" "10:00" "room-2" open_db
              eq_refl eq_refl eq_refl eq_refl eq_refl)
    as [i (Hbook & _ & Hslots & _)].
  - intros r [<- | []] _. reflexivity.
  - exists i. split; [exact Hbook | exact Hslots].
Defined.

(* ------------------------------------------------------------------ *)
(** ** Slot store: seeding *)

Section Seeding.
Variable new_rowid : list DB.Slot -> Z.

Lemma has_slot_app (key : string * string * string) (rows more : list DB.Slot) :
  DB.has_slot key rows = true -> DB.has_slot key (rows ++ more) = true.
Proof.
  unfold DB.has_slot. intros H. rewrite existsb_app, H. reflexivity.
Qed.

Lemma insert_or_ignore_extends (rows : list DB.Slot)
    (key : string * string * string) :
  exists added,
    DB.insert_or_ignore_slot new_rowid rows key = rows ++ added
    /\ Forall (fun r => DB.is_booked r = 0%Z) added.
Proof.
  unfold DB.insert_or_ignore_slot. destruct (DB.has_slot key rows).
  - exists []. split; [symmetry; apply app_nil_r | constructor].
  - eexists. split; [reflexivity |]. constructor; [reflexivity | constructor].
Qed.

Lemma insert_or_ignore_has (rows : list DB.Slot)
    (key : string * string * string) :
  DB.has_slot key (DB.insert_or_ignore_slot new_rowid rows key) = true.
Proof.
  unfold DB.insert_or_ignore_slot.
  destruct (DB.has_slot key rows) eqn:Hk; [exact Hk |].
  unfold DB.has_slot. rewrite existsb_app. simpl.
  unfold DB.slot_matches, DB.sql_eq. simpl.
  rewrite !String.eqb_refl. simpl. apply orb_true_r.
Qed.

Lemma has_slot_false_not_in (key : string * string * string)
    (rows : list DB.Slot) :
  DB.has_slot key rows = false ->
  ~ In key (map slot_key rows).
Proof.
  intros Hk Hin. apply in_map_iff in Hin. destruct Hin as [r [Hr Hin]].
  assert (Hhas : DB.has_slot key rows = true).
  { unfold DB.has_slot. apply existsb_exists. exists r. split; [exact Hin |].
    subst key. unfold DB.slot_matches, DB.sql_eq. simpl.
    rewrite !String.eqb_refl. reflexivity. }
  congruence.
Qed.

Lemma insert_or_ignore_unique (rows : list DB.Slot)
    (key : string * string * string) :
  unique_slots rows ->
  unique_slots (DB.insert_or_ignore_slot new_rowid rows key).
Proof.
  intros Hu. unfold DB.insert_or_ignore_slot.
  destruct (DB.has_slot key rows) eqn:Hk; [exact Hu |].
  unfold unique_slots in *. rewrite map_app.
  apply (@Permutation_NoDup _ (key :: map slot_key rows)).
  - destruct key as [[d t] s]. apply Permutation_cons_append.
  - constructor; [apply has_slot_false_not_in, Hk | exact Hu].
Qed.

Section Loop.
Variable env : DB.SeedEnv.

(** One round of the loop body, with its [try]. *)
Lemma seed_step_extends (attempt : nat) (rows : list DB.Slot)
    (key : string * string * string) :
  exists added,
    match DB.seed_insert_error env attempt with
    | Some _ => rows
    | None => DB.insert_or_ignore_slot new_rowid rows key
    end = rows ++ added
    /\ Forall (fun r => DB.is_booked r = 0%Z) added.
Proof.
  destruct (DB.seed_insert_error env attempt).
  - exists []. split; [symmetry; apply app_nil_r | constructor].
  - apply insert_or_ignore_extends.
Qed.

Lemma seed_inserts_extends (keys : list (string * string * string))
    (attempt : nat) (rows : list DB.Slot) :
  exists added,
    DB.seed_inserts new_rowid env attempt keys rows = rows ++ added
    /\ Forall (fun r => DB.is_booked r = 0%Z) added.
Proof.
  revert attempt rows.
  induction keys as [| key keys IH]; intros attempt rows; simpl.
  - exists []. split; [symmetry; apply app_nil_r | constructor].
  - destruct (seed_step_extends attempt rows key) as [a1 [E1 F1]].
    rewrite E1.
    destruct (IH (S attempt) (rows ++ a1)) as [a2 [E2 F2]].
    exists (a1 ++ a2). split.
    + rewrite E2, app_assoc. reflexivity.
    + apply Forall_app. split; assumption.
Qed.

Lemma seed_inserts_keeps (keys : list (string * string * string))
    (attempt : nat) (rows : list DB.Slot) (key : string * string * string) :
  DB.has_slot key rows = true ->
  DB.has_slot key (DB.seed_inserts new_rowid env attempt keys rows) = true.
Proof.
  intros Hhas.
  destruct (seed_inserts_extends keys attempt rows) as [added [E _]].
  rewrite E. apply has_slot_app, Hhas.
Qed.

Lemma seed_inserts_has (keys : list (string * string * string))
    (attempt : nat) (rows : list DB.Slot) (i : nat)
    (key : string * string * string) :
  nth_error keys i = Some key ->
  DB.seed_insert_error env (attempt + i) = None ->
  DB.has_slot key (DB.seed_inserts new_rowid env attempt keys rows) = true.
Proof.
  revert attempt rows i.
  induction keys as [| k keys IH]; intros attempt rows i Hk Hok.
  - destruct i; discriminate Hk.
  - destruct i as [| i]; simpl in *.
    + injection Hk as ->. rewrite Nat.add_0_r in Hok. rewrite Hok.
      apply seed_inserts_keeps, insert_or_ignore_has.
    + apply (IH (S attempt) _ i Hk).
      rewrite <- Hok. f_equal. lia.
Qed.

Lemma seed_inserts_nothing_new (keys : list (string * string * string))
    (attempt : nat) (rows : list DB.Slot) :
  (forall key, In key keys -> DB.has_slot key rows = true) ->
  DB.seed_inserts new_rowid env attempt keys rows = rows.
Proof.
  revert attempt.
  induction keys as [| k keys IH]; intros attempt Hall; simpl.
  - reflexivity.
  - unfold DB.insert_or_ignore_slot.
    rewrite (Hall k (or_introl eq_refl)).
    destruct (DB.seed_insert_error env attempt);
      apply IH; intros key Hin; apply Hall; right; exact Hin.
Qed.

Lemma seed_inserts_unique (keys : list (string * string * string))
    (attempt : nat) (rows : list DB.Slot) :
  unique_slots rows ->
  unique_slots (DB.seed_inserts new_rowid env attempt keys rows).
Proof.
  revert attempt rows.
  induction keys as [| k keys IH]; intros attempt rows Hu; simpl.
  - exact Hu.
  - apply IH. destruct (DB.seed_insert_error env attempt); [exact Hu |].
    apply insert_or_ignore_unique, Hu.
Qed.

End Loop.

(** X5.  Seeding touches nothing that exists, and it is idempotent once it
    has gone through.  When the COMMIT raises, the exception leaves
    [seed_slots] and the tables are as before.  Otherwise [seed_slots]
    returns, whatever INSERT raised.  In both cases the rows of
    [available_slots] are kept as they are, booked ones included, only free
    slots are appended, rows with pairwise distinct (date, time, service)
    stay so, and the appointments are untouched.  After a committed run
    every (day, time, service) whose INSERT did not raise has a slot.  A
    run over a table that has a slot for every (day, time, service) of the
    three loops changes nothing; so, after a run in which no statement
    raised, seeding again for the same days changes nothing, whatever
    raises in the later run. *)
Theorem seed_slots_idempotent (env : DB.SeedEnv) (days : list string)
    (db : DB.Database) :
  let r := fst (DB.seed_slots new_rowid env days db) in
  let seeded := snd (DB.seed_slots new_rowid env days db) in
  (forall e, DB.seed_commit_error env = Some e -> r = Raise e /\ seeded = db)
  /\ (DB.seed_commit_error env = None -> r = Ok tt)
  /\ (exists added,
        DB.available_slots seeded = DB.available_slots db ++ added
        /\ Forall (fun r => DB.is_booked r = 0%Z) added)
  /\ (DB.seed_commit_error env = None ->
      forall i key,
        nth_error (DB.seed_keys days) i = Some key ->
        DB.seed_insert_error env i = None ->
        DB.has_slot key (DB.available_slots seeded) = true)
  /\ (unique_slots (DB.available_slots db) ->
      unique_slots (DB.available_slots seeded))
  /\ DB.appointments seeded = DB.appointments db
  /\ DB.appointments_seq seeded = DB.appointments_seq db
  /\ ((forall key, In key (DB.seed_keys days) ->
         DB.has_slot key (DB.available_slots db) = true) ->
      seeded = db)
  /\ (DB.seed_commit_error env = None ->
      (forall i, DB.seed_insert_error env i = None) ->
      forall later,
        snd (DB.seed_slots new_rowid later days seeded) = seeded).
Proof.
  cbv zeta.
  assert (Hfixed : forall env0 db0,
    (forall key, In key (DB.seed_keys days) ->
       DB.has_slot key (DB.available_slots db0) = true) ->
    snd (DB.seed_slots new_rowid env0 days db0) = db0).
  { intros env0 db0 Hall. unfold DB.seed_slots, DB.get_connection, DB.close.
    cbn [DB.on_disk DB.in_txn].
    destruct (DB.seed_commit_error env0); cbn [snd DB.on_disk DB.in_txn];
      [reflexivity |].
    rewrite seed_inserts_nothing_new by exact Hall.
    destruct db0; reflexivity. }
  split; [| split; [| split; [| split; [| split; [| split; [| split;
    [| split]]]]]]].
  - intros e He. unfold DB.seed_slots. rewrite He. split; reflexivity.
  - intros He. unfold DB.seed_slots. rewrite He. reflexivity.
  - unfold DB.seed_slots, DB.get_connection, DB.close.
    destruct (DB.seed_commit_error env);
      cbn [snd DB.on_disk DB.in_txn DB.available_slots].
    + exists []. split; [symmetry; apply app_nil_r | constructor].
    + apply seed_inserts_extends.
  - intros He i key Hk Hok. unfold DB.seed_slots, DB.get_connection, DB.close.
    rewrite He. cbn [snd DB.on_disk DB.in_txn DB.available_slots].
    apply (@seed_inserts_has env (DB.seed_keys days) 0 _ i key Hk Hok).
  - intros Hu. unfold DB.seed_slots, DB.get_connection, DB.close.
    destruct (DB.seed_commit_error env);
      cbn [snd DB.on_disk DB.in_txn DB.available_slots];
      [exact Hu | apply seed_inserts_unique, Hu].
  - unfold DB.seed_slots. destruct (DB.seed_commit_error env); reflexivity.
  - unfold DB.seed_slots. destruct (DB.seed_commit_error env); reflexivity.
  - apply Hfixed.
  - intros He Hok later. apply Hfixed.
    intros key Hin. apply In_nth_error in Hin. destruct Hin as [i Hi].
    unfold DB.seed_slots, DB.get_connection, DB.close.
    rewrite He. cbn [snd DB.on_disk DB.in_txn DB.available_slots].
    apply (@seed_inserts_has env (DB.seed_keys days) 0 _ i key Hi (Hok i)).
Qed.

End Seeding.

Lemma seed_slots_idempotent_witness :
  length
    (DB.available_slots
       (snd (DB.seed_slots (fun rows => Z.of_nat (S (length rows)))
               quiet_seed ["2025-03-20"; "2025-03-21"] taken_db))) = 56
  /\ length
       (DB.available_slots
          (snd (DB.seed_slots (fun rows => Z.of_nat (S (length rows)))
                  first_insert_fails ["2025-03-20"; "2025-03-21"] taken_db)))
     = 55
  /\ unique_slots
       (DB.available_slots
          (snd (DB.seed_slots (fun rows => Z.of_nat (S (length rows)))
                  first_insert_fails ["2025-03-20"; "2025-03-21"] taken_db)))
  /\ DB.has_slot ("2025-03-20", "10:00", "physiotherapy")
       (DB.available_slots
          (snd (DB.seed_slots (fun rows => Z.of_nat (S (length rows)))
                  first_insert_fails ["2025-03-20"; "2025-03-21"] taken_db)))
     = true
  /\ snd (DB.seed_slots (fun rows => Z.of_nat (S (length rows)))
            first_insert_fails ["2025-03-20"; "2025-03-21"]
            (snd (DB.seed_slots (fun rows => Z.of_nat (S (length rows)))
                    quiet_seed ["2025-03-20"; "2025-03-21"] taken_db)))
     = snd (DB.seed_slots (fun rows => Z.of_nat (S (length rows)))
              quiet_seed ["2025-03-20"; "2025-03-21"] taken_db).
Proof.
  split; [vm_compute; reflexivity |].
  split; [vm_compute; reflexivity |].
  destruct (@seed_slots_idempotent (fun rows => Z.of_nat (S (length rows)))
              first_insert_fails ["2025-03-20"; "2025-03-21"] taken_db)
    as (_ & _ & _ & Hhas & Hunique & _).
  destruct (@seed_slots_idempotent (fun rows => Z.of_nat (S (length rows)))
              quiet_seed ["2025-03-20"; "2025-03-21"] taken_db)
    as (_ & _ & _ & _ & _ & _ & _ & _ & Hagain).
  split; [apply Hunique; constructor; [intros [] | constructor] |].
  split; [apply (Hhas eq_refl 1); reflexivity |].
  apply Hagain; [reflexivity | intros i; reflexivity].
Defined.

(* ------------------------------------------------------------------ *)
(** ** Retrieval: deduplication *)

Section Deduplication.
Context `{rt : PyRuntime}.

Lemma seen_spec (k : Z) (seen : list Z) :
  existsb (Z.eqb k) seen = true <-> In k seen.
Proof.
  rewrite existsb_exists. split.
  - intros [x [Hin Heq]]. apply Z.eqb_eq in Heq. subst x. exact Hin.
  - intros Hin. exists k. split; [exact Hin | apply Z.eqb_refl].
Qed.

Lemma deduplicate_from_in (seen : list Z)
    (docs : list Embedding.Document) (d : Embedding.Document) :
  In d (Embedding._deduplicate_from seen docs) ->
  In d docs /\ ~ In (content_hash d) seen.
Proof.
  revert seen. induction docs as [| doc docs IH]; intros seen; simpl.
  - intros [].
  - destruct (existsb _ seen) eqn:Hs.
    + intros Hin. destruct (IH seen Hin) as [H1 H2]. split; [right |]; assumption.
    + intros [<- | Hin].
      * split; [left; reflexivity |]. intros Hc.
        apply seen_spec in Hc. unfold content_hash in Hc. congruence.
      * destruct (IH _ Hin) as [H1 H2]. split; [right; exact H1 |].
        intros Hc. apply H2. right. exact Hc.
Qed.

Lemma deduplicate_from_nodup_hash (seen : list Z)
    (docs : list Embedding.Document) :
  NoDup (map content_hash (Embedding._deduplicate_from seen docs)).
Proof.
  revert seen. induction docs as [| doc docs IH]; intros seen; simpl.
  - constructor.
  - destruct (existsb _ seen); [apply IH |].
    simpl. constructor; [| apply IH].
    intros Hin. apply in_map_iff in Hin. destruct Hin as [d [Hc Hd]].
    apply deduplicate_from_in in Hd. destruct Hd as [_ Hd].
    apply Hd. left. symmetry. exact Hc.
Qed.

(** Equal contents have equal keys: no content is returned twice. *)
Lemma deduplicate_from_nodup (seen : list Z)
    (docs : list Embedding.Document) :
  NoDup (map Embedding.page_content (Embedding._deduplicate_from seen docs)).
Proof.
  apply (NoDup_map_inv py_hash). rewrite map_map.
  apply deduplicate_from_nodup_hash.
Qed.

Lemma deduplicate_from_covers (seen : list Z)
    (docs : list Embedding.Document) (d : Embedding.Document) :
  In d docs -> ~ In (content_hash d) seen ->
  In (content_hash d)
     (map content_hash (Embedding._deduplicate_from seen docs)).
Proof.
  revert seen. induction docs as [| doc docs IH]; intros seen; simpl.
  - intros [].
  - intros Hin Hseen. destruct (existsb _ seen) eqn:Hs.
    + destruct Hin as [<- | Hin].
      * apply seen_spec in Hs. contradiction.
      * apply IH; assumption.
    + simpl. destruct Hin as [<- | Hin]; [left; reflexivity |].
      destruct (Z.eq_dec (content_hash doc) (content_hash d)) as [E | NE];
        [left; exact E |].
      right. apply IH; [exact Hin |].
      intros [Hc | Hc]; [exact (NE Hc) | exact (Hseen Hc)].
Qed.

Lemma deduplicate_from_fixed (seen : list Z)
    (docs : list Embedding.Document) :
  NoDup (map content_hash docs) ->
  (forall d, In d docs -> ~ In (content_hash d) seen) ->
  Embedding._deduplicate_from seen docs = docs.
Proof.
  revert seen. induction docs as [| doc docs IH]; intros seen Hnd Hseen; simpl.
  - reflexivity.
  - destruct (existsb _ seen) eqn:Hs.
    + apply seen_spec in Hs. exfalso.
      exact (Hseen doc (or_introl eq_refl) Hs).
    + f_equal. inversion Hnd as [| c cs Hnot Hnd']; subst.
      apply IH; [exact Hnd' |].
      intros d Hd [Hc | Hc].
      * apply Hnot. fold (content_hash doc) in Hc. rewrite Hc.
        apply in_map. exact Hd.
      * exact (Hseen d (or_intror Hd) Hc).
Qed.

Lemma deduplicate_from_app (seen : list Z)
    (first second : list Embedding.Document) :
  exists seen',
    Embedding._deduplicate_from seen (first ++ second)
    = Embedding._deduplicate_from seen first
      ++ Embedding._deduplicate_from seen' second.
Proof.
  revert seen. induction first as [| doc first IH]; intros seen; simpl.
  - exists seen. reflexivity.
  - destruct (existsb _ seen).
    + apply IH.
    + destruct (IH (py_hash (Embedding.page_content doc) :: seen))
        as [seen' E].
      exists seen'. rewrite E. reflexivity.
Qed.

(** Where no two different contents share a key, a list without repeated
    content is a list without repeated key. *)
Lemma nodup_hash_of_content (docs : list Embedding.Document) :
  collision_free docs ->
  NoDup (map Embedding.page_content docs) ->
  NoDup (map content_hash docs).
Proof.
  induction docs as [| doc docs IH]; intros Hfree Hnd; simpl.
  - constructor.
  - inversion Hnd as [| c cs Hnot Hnd']; subst. constructor.
    + intros Hin. apply in_map_iff in Hin. destruct Hin as [d [Hk Hd]].
      apply Hnot. apply in_map_iff. exists d. split; [| exact Hd].
      apply Hfree; [right; exact Hd | left; reflexivity | exact Hk].
    + apply IH; [| exact Hnd'].
      intros a b Ha Hb. apply Hfree; right; assumption.
Qed.

(** X6.  [_deduplicate] goes by the hash of the content.  It returns
    documents of its input, no two with the same key (so no two with the
    same content), and a document of the key of every document of the
    input; what comes from the first of two concatenated lists keeps its
    place ahead of everything that the second list adds; a list without
    repeated key is returned as it is, so deduplicating twice is
    deduplicating once.  Where no two different contents of the input
    share a key, every content of the input is returned, and a list
    without repeated content is returned as it is. *)
Theorem deduplicate_keeps_first_occurrences
    (docs more : list Embedding.Document) :
  NoDup (map content_hash (Embedding._deduplicate docs))
  /\ NoDup (map Embedding.page_content (Embedding._deduplicate docs))
  /\ (forall d, In d (Embedding._deduplicate docs) -> In d docs)
  /\ (forall d, In d docs ->
        In (content_hash d)
           (map content_hash (Embedding._deduplicate docs)))
  /\ (exists added,
        Embedding._deduplicate (docs ++ more)
        = Embedding._deduplicate docs ++ added
        /\ forall d, In d added -> In d more)
  /\ (NoDup (map content_hash docs) ->
      Embedding._deduplicate docs = docs)
  /\ Embedding._deduplicate (Embedding._deduplicate docs)
     = Embedding._deduplicate docs
  /\ (collision_free docs ->
      (forall d, In d docs ->
         In (Embedding.page_content d)
            (map Embedding.page_content (Embedding._deduplicate docs)))
      /\ (NoDup (map Embedding.page_content docs) ->
          Embedding._deduplicate docs = docs)).
Proof.
  unfold Embedding._deduplicate.
  split; [apply deduplicate_from_nodup_hash |].
  split; [apply deduplicate_from_nodup |].
  split; [intros d Hd; apply (deduplicate_from_in Hd) |].
  split; [intros d Hd; apply deduplicate_from_covers;
          [exact Hd | intros []] |].
  split.
  { destruct (deduplicate_from_app [] docs more) as [seen' E].
    eexists. split; [exact E |].
    intros d Hd. apply (deduplicate_from_in Hd). }
  split.
  { intros Hnd. apply deduplicate_from_fixed; [exact Hnd | intros d _ []]. }
  split.
  { apply deduplicate_from_fixed;
      [apply deduplicate_from_nodup_hash | intros d _ []]. }
  intros Hfree. split.
  - intros d Hd.
    assert (Hk : In (content_hash d)
                   (map content_hash (Embedding._deduplicate_from [] docs)))
      by (apply deduplicate_from_covers; [exact Hd | intros []]).
    apply in_map_iff in Hk. destruct Hk as [d' [Hk Hd']].
    apply in_map_iff. exists d'. split; [| exact Hd'].
    apply Hfree; [apply (deduplicate_from_in Hd') | exact Hd | exact Hk].
  - intros Hnd. apply deduplicate_from_fixed; [| intros d _ []].
    apply nodup_hash_of_content; assumption.
Qed.

End Deduplication.

Lemma deduplicate_keeps_first_occurrences_witness :
  Embedding._deduplicate (rt := ascii_runtime)
    ([web_hours; pdf_form; web_hours] ++ [pdf_form; web_team])
  = [web_hours; pdf_form; web_team]
  /\ (forall d, In d [web_hours; pdf_form; web_team] ->
        In (Embedding.page_content d)
           (map Embedding.page_content
              (Embedding._deduplicate (rt := ascii_runtime)
                 [web_hours; pdf_form; web_team])))
  /\ Embedding._deduplicate (rt := ascii_runtime)
       [web_hours; pdf_form; web_team]
     = [web_hours; pdf_form; web_team].
Proof.
  split; [reflexivity |].
  destruct (@deduplicate_keeps_first_occurrences ascii_runtime
              [web_hours; pdf_form; web_team] [])
    as (_ & _ & _ & _ & _ & _ & _ & Hfree).
  assert (Hno : collision_free (rt := ascii_runtime)
                  [web_hours; pdf_form; web_team]).
  { intros a b Ha Hb.
    simpl in Ha, Hb.
    destruct Ha as [<- | [<- | [<- | []]]];
      destruct Hb as [<- | [<- | [<- | []]]];
      intros Hk; try reflexivity; vm_compute in Hk; discriminate Hk. }
  destruct (Hfree Hno) as [Hcover Hfixed].
  split; [exact Hcover |].
  apply Hfixed.
  repeat constructor; simpl; intuition discriminate.
Defined.

(* ------------------------------------------------------------------ *)
(** ** Retrieval: the threshold and the scoring loop *)

Lemma rank_sorted (rows : list (Embedding.Document * Q * Q)) :
  StronglySorted boosted_desc (Embedding.rank rows).
Proof.
  unfold Embedding.rank. induction rows as [| x rows IH]; simpl.
  - constructor.
  - apply rank_insert_sorted, IH.
Qed.

(** In a ranking, the rows at or above the threshold come first. *)
Lemma above_then_below (ranked : list (Embedding.Document * Q * Q)) :
  StronglySorted boosted_desc ranked ->
  filter (fun r => Qle_bool Embedding.RELEVANCE_THRESHOLD
                     (Embedding.boosted_of r)) ranked
  ++ filter (fun r => negb (Qle_bool Embedding.RELEVANCE_THRESHOLD
                              (Embedding.boosted_of r))) ranked
  = ranked.
Proof.
  induction 1 as [| x l Hs IH Hx]; simpl.
  - reflexivity.
  - destruct (Qle_bool Embedding.RELEVANCE_THRESHOLD (Embedding.boosted_of x))
      eqn:Hb; simpl.
    + rewrite IH. reflexivity.
    + assert (Hnone :
        filter (fun r => Qle_bool Embedding.RELEVANCE_THRESHOLD
                           (Embedding.boosted_of r)) l = []).
      { apply filter_none. intros y Hy.
        destruct (Qle_bool Embedding.RELEVANCE_THRESHOLD
                    (Embedding.boosted_of y)) eqn:Hby; [| reflexivity].
        apply Qle_bool_iff in Hby.
        rewrite Forall_forall in Hx. specialize (Hx y Hy).
        unfold boosted_desc in Hx.
        assert (Hbx : Qle_bool Embedding.RELEVANCE_THRESHOLD
                        (Embedding.boosted_of x) = true)
          by (apply Qle_bool_iff; eapply Qle_trans; eassumption).
        congruence. }
      rewrite Hnone in IH |- *. simpl in *. rewrite IH. reflexivity.
Qed.

Lemma threshold_filter_sorted (top_n : Z)
    (ranked : list (Embedding.Document * Q * Q)) :
  (0 <= top_n)%Z -> StronglySorted boosted_desc ranked ->
  Embedding.threshold_filter top_n ranked = PyList.slice_to top_n ranked.
Proof.
  intros Hn Hsorted. pose proof (above_then_below Hsorted) as Hsplit.
  unfold Embedding.threshold_filter.
  remember (filter (fun r => Qle_bool Embedding.RELEVANCE_THRESHOLD
                               (Embedding.boosted_of r)) ranked)
    as above eqn:Eabove.
  remember (filter (fun r => negb (Qle_bool Embedding.RELEVANCE_THRESHOLD
                                     (Embedding.boosted_of r))) ranked)
    as below eqn:Ebelow.
  clear Eabove Ebelow.
  destruct above as [| a above']; [reflexivity |].
  remember (a :: above') as above eqn:Eabove. clear Eabove a above'.
  rewrite <- Hsplit. unfold PyList.slice_to.
  assert (H0 : (0 <=? top_n)%Z = true) by (apply Z.leb_le; exact Hn).
  rewrite H0, firstn_app.
  destruct (Z.leb_spec top_n (Z.of_nat (length above))) as [Hle | Hgt].
  - replace (Z.to_nat top_n - length above) with 0 by lia.
    simpl. rewrite app_nil_r. reflexivity.
  - assert (H2 : (0 <=? top_n - Z.of_nat (length above))%Z = true)
      by (apply Z.leb_le; lia).
    rewrite H2. rewrite (@firstn_all2 _ (Z.to_nat top_n) above) by lia.
    f_equal. f_equal. lia.
Qed.

(** X7.  On a ranking (rows in descending order of boosted score, as
    [rank] leaves them) STEP 5 selects the first [top_n] rows, whatever
    their scores: the relevance threshold never changes which chunks are
    returned, nor their order. *)
Theorem threshold_never_changes_selection (top_n : Z)
    (rows : list (Embedding.Document * Q * Q)) :
  (0 <= top_n)%Z ->
  Embedding.threshold_filter top_n (Embedding.rank rows)
  = PyList.slice_to top_n (Embedding.rank rows).
Proof.
  intros Hn. apply threshold_filter_sorted; [exact Hn |].
  unfold Embedding.rank. induction rows as [| x rows IH]; simpl.
  - constructor.
  - apply rank_insert_sorted, IH.
Qed.

Lemma threshold_never_changes_selection_witness :
  map Embedding.doc_of (Embedding.threshold_filter 2 tie_ranked)
  = [web_hours; pdf_form].
Proof.
  unfold tie_ranked.
  rewrite (@threshold_never_changes_selection 2
             (combine (combine tie_combined tie_boosted) tie_scores));
    [reflexivity | lia].
Defined.

Lemma batches_from_bounds (A : Type) (n fuel : nat) (l : list A) :
  0 < n ->
  Forall (fun b => 0 < length b <= n) (Embedding.batches_from fuel n l).
Proof.
  intros Hn. revert l. induction fuel as [| fuel IH]; intros l; simpl.
  - constructor.
  - destruct l as [| x l]; [constructor |].
    constructor; [| apply IH].
    rewrite length_firstn. change (length (x :: l)) with (S (length l)).
    lia.
Qed.

Lemma predict_batches_ok (r : Embedding.Reranker)
    (bs : list (list (string * string))) :
  (forall b, In b bs -> Embedding.predict_raises r b = false) ->
  Embedding.predict_batches r bs
  = Ok (map (fun p => Embedding.predict_one r (fst p) (snd p)) (concat bs)).
Proof.
  induction bs as [| b bs IH]; intros Hok; simpl.
  - reflexivity.
  - unfold Embedding.predict. rewrite (Hok b (or_introl eq_refl)). simpl.
    rewrite IH by (intros b' Hb'; apply Hok; right; exact Hb').
    simpl. rewrite map_app. reflexivity.
Qed.

Lemma predict_batches_raise (r : Embedding.Reranker)
    (bs : list (list (string * string))) (b : list (string * string)) :
  In b bs -> Embedding.predict_raises r b = true ->
  exists e, Embedding.predict_batches r bs = Raise e.
Proof.
  induction bs as [| b0 bs IH]; intros Hin Hb; [destruct Hin |].
  simpl. unfold Embedding.predict.
  destruct (Embedding.predict_raises r b0) eqn:H0; simpl; [eauto |].
  destruct Hin as [-> | Hin]; [congruence |].
  destruct (IH Hin Hb) as [e He]. rewrite He. simpl. eauto.
Qed.

(** X8.  The scoring loop cuts the pairs into consecutive batches of one
    to eight pairs that, put end to end, are the pairs; so when no batch
    raises, it returns exactly one score per pair, in the order of the
    pairs, and when some batch raises, it raises. *)
Theorem scoring_loop_covers_pairs (r : Embedding.Reranker)
    (pairs : list (string * string)) :
  let bs := Embedding.batches Embedding.RERANKER_BATCH_SIZE pairs in
  concat bs = pairs
  /\ Forall (fun b => 0 < length b <= 8) bs
  /\ ((forall b, In b bs -> Embedding.predict_raises r b = false) ->
      Embedding.predict_batches r bs
      = Ok (map (fun p => Embedding.predict_one r (fst p) (snd p)) pairs))
  /\ (forall b, In b bs -> Embedding.predict_raises r b = true ->
        exists e, Embedding.predict_batches r bs = Raise e).
Proof.
  cbv zeta.
  assert (Hc : concat (Embedding.batches Embedding.RERANKER_BATCH_SIZE pairs)
               = pairs).
  { unfold Embedding.batches. apply concat_batches_from;
      [unfold Embedding.RERANKER_BATCH_SIZE; lia | lia]. }
  split; [exact Hc |]. split.
  - unfold Embedding.batches. apply batches_from_bounds.
    unfold Embedding.RERANKER_BATCH_SIZE. lia.
  - split.
    + intros Hok. rewrite (predict_batches_ok Hok), Hc. reflexivity.
    + intros b. apply predict_batches_raise.
Qed.

Lemma scoring_loop_covers_pairs_witness :
  map (@length _)
    (Embedding.batches Embedding.RERANKER_BATCH_SIZE
       (map (fun n => ("q", string_of_list_ascii [ascii_of_nat (97 + n)]))
            (seq 0 19)))
  = [8; 8; 3]
  /\ Embedding.predict_batches harsh_reranker
       (Embedding.batches Embedding.RERANKER_BATCH_SIZE
          (map (fun n => ("q", string_of_list_ascii [ascii_of_nat (97 + n)]))
               (seq 0 19)))
     = Ok (map (fun p => Embedding.predict_one harsh_reranker (fst p) (snd p))
             (map (fun n => ("q", string_of_list_ascii [ascii_of_nat (97 + n)]))
                  (seq 0 19))).
Proof.
  split; [reflexivity |].
  apply (@scoring_loop_covers_pairs harsh_reranker
           (map (fun n => ("q", string_of_list_ascii [ascii_of_nat (97 + n)]))
                (seq 0 19))).
  intros b _. reflexivity.
Defined.

(* ------------------------------------------------------------------ *)
(** ** Retrieval: the heuristic order and what [retrieve] can return *)

Lemma map_fst_combine (A B : Type) (l : list A) (l' : list B) :
  map fst (combine l l') = firstn (length l') l.
Proof.
  revert l'. induction l as [| x l IH]; intros [| y l']; simpl;
    try reflexivity.
  rewrite IH. reflexivity.
Qed.

Lemma map_snd_combine (A B : Type) (l : list A) (l' : list B) :
  length l = length l' -> map snd (combine l l') = l'.
Proof.
  revert l'. induction l as [| x l IH]; intros [| y l'] Hl; simpl in *;
    try reflexivity; try discriminate.
  rewrite IH by lia. reflexivity.
Qed.

Lemma nodup_map_firstn (A B : Type) (f : A -> B) (n : nat) (l : list A) :
  NoDup (map f l) -> NoDup (map f (firstn n l)).
Proof.
  intros Hnd. rewrite <- (firstn_skipn n l), map_app in Hnd.
  exact (NoDup_app_remove_r _ _ Hnd).
Qed.

Lemma in_firstn (A : Type) (n : nat) (l : list A) (x : A) :
  In x (firstn n l) -> In x l.
Proof.
  intros Hin. rewrite <- (firstn_skipn n l). apply in_or_app. left. exact Hin.
Qed.

Lemma slice_to_firstn (A : Type) (n : Z) (l : list A) :
  exists k, PyList.slice_to n l = firstn k l.
Proof. unfold PyList.slice_to. destruct (0 <=? n)%Z; eauto. Qed.

Lemma slice_to_at_most (A : Type) (n : Z) (l : list A) :
  (0 <= n)%Z -> (Z.of_nat (length (PyList.slice_to n l)) <= n)%Z.
Proof. intros Hn. rewrite slice_to_length by exact Hn. lia. Qed.

Section HeuristicOrder.
Context `{rt : PyRuntime}.

Lemma heuristic_before_total (x y : Z * nat * Embedding.Document) :
  Embedding.heuristic_before x y = false ->
  Embedding.heuristic_before y x = true.
Proof.
  unfold Embedding.heuristic_before. cbv zeta.
  destruct (Z.ltb_spec (- fst (fst x)) (- fst (fst y)));
    destruct (Z.eqb_spec (- fst (fst x)) (- fst (fst y)));
    destruct (Nat.leb_spec (snd (fst x)) (snd (fst y)));
    destruct (Z.ltb_spec (- fst (fst y)) (- fst (fst x)));
    destruct (Z.eqb_spec (- fst (fst y)) (- fst (fst x)));
    destruct (Nat.leb_spec (snd (fst y)) (snd (fst x)));
    simpl; intros; try reflexivity; try discriminate; lia.
Qed.

Lemma scored_docs (docs : list Embedding.Document) :
  map snd
    (map (fun id => (Embedding.heuristic_score (snd id), fst id, snd id))
         (PyList.enumerate docs)) = docs.
Proof.
  rewrite map_map. simpl. unfold PyList.enumerate.
  apply map_snd_combine. apply length_seq.
Qed.

Lemma heuristic_sort_perm (query : string) (docs : list Embedding.Document) :
  Permutation docs
    (Embedding._heuristic_sort_when_reranker_disabled query docs).
Proof.
  unfold Embedding._heuristic_sort_when_reranker_disabled.
  destruct (_ || _); [apply Permutation_refl |].
  rewrite <- (scored_docs docs) at 1.
  apply Permutation_map, sorted_perm.
Qed.

(** The rows built by the loop carry the score of their document, and the
    sort moves rows only. *)
Lemma scored_rows_sorted (docs : list Embedding.Document)
    (row : Z * nat * Embedding.Document) :
  In row
    (PyList.sorted Embedding.heuristic_before
       (map (fun id => (Embedding.heuristic_score (snd id), fst id, snd id))
            (PyList.enumerate docs))) ->
  fst (fst row) = Embedding.heuristic_score (snd row).
Proof.
  intros Hin.
  apply (Permutation_in _ (Permutation_sym (sorted_perm _ _))) in Hin.
  apply in_map_iff in Hin. destruct Hin as [id [<- _]]. reflexivity.
Qed.

Lemma sorted_rows_scores (rows : list (Z * nat * Embedding.Document)) :
  Sorted (fun u v => Embedding.heuristic_before u v = true) rows ->
  (forall row, In row rows ->
     fst (fst row) = Embedding.heuristic_score (snd row)) ->
  Sorted (fun a b =>
            (Embedding.heuristic_score b <= Embedding.heuristic_score a)%Z)
         (map snd rows).
Proof.
  induction 1 as [| x l Hs IH Hx]; intros Hscore; simpl.
  - constructor.
  - constructor.
    + apply IH. intros row Hin. apply Hscore. right. exact Hin.
    + destruct Hx as [| y l Hxy]; simpl; constructor.
      rewrite <- (Hscore x (or_introl eq_refl)).
      rewrite <- (Hscore y (or_intror (or_introl eq_refl))).
      unfold Embedding.heuristic_before in Hxy. cbv zeta in Hxy.
      apply orb_true_iff in Hxy. destruct Hxy as [Hlt | Heq].
      * apply Z.ltb_lt in Hlt. lia.
      * apply andb_true_iff in Heq. destruct Heq as [Heq _].
        apply Z.eqb_eq in Heq. lia.
Qed.

(** X9.  The heuristic reordering never drops or repeats a candidate: its
    result is a permutation of the candidates.  For a query without any of
    the opening-hours terms it is the list it was given; otherwise the
    candidates come in descending order of their heuristic score. *)
Theorem heuristic_sort_reorders (query : string)
    (docs : list Embedding.Document) :
  let sorted_docs :=
    Embedding._heuristic_sort_when_reranker_disabled query docs in
  Permutation docs sorted_docs
  /\ (PyStr.any_in (str_lower query) Embedding.hours_terms = false ->
      sorted_docs = docs)
  /\ (PyStr.any_in (str_lower query) Embedding.hours_terms = true ->
      Sorted (fun a b =>
                (Embedding.heuristic_score b <= Embedding.heuristic_score a)%Z)
             sorted_docs).
Proof.
  cbv zeta. split; [apply heuristic_sort_perm |].
  unfold Embedding._heuristic_sort_when_reranker_disabled. split.
  - intros ->. reflexivity.
  - intros ->. cbn [negb orb].
    destruct docs as [| d docs]; [constructor |].
    apply sorted_rows_scores.
    + apply sorted_in_order. apply heuristic_before_total.
    + intros row. apply scored_rows_sorted.
Qed.

(** X10.  Whatever the collaborators do, for [top_n >= 0] [retrieve]
    returns at most [top_n] documents, no two of them with the same text,
    and each of them one that the semantic or the lexical retriever
    returned for this query. *)
Theorem retrieve_returns_candidates (env : Embedding.Collaborators)
    (query : string) (top_n : Z) :
  (0 <= top_n)%Z ->
  let final_docs := Embedding.retrieve env query top_n in
  (Z.of_nat (length final_docs) <= top_n)%Z
  /\ NoDup (map Embedding.page_content final_docs)
  /\ (forall doc, In doc final_docs ->
        exists faiss_docs bm25_docs,
          Embedding.faiss_invoke env query
            (top_n * Embedding.CANDIDATE_MULTIPLIER) = Ok faiss_docs
          /\ Embedding.bm25_invoke env (Embedding.normalize_query query)
               (top_n * Embedding.CANDIDATE_MULTIPLIER) = Ok bm25_docs
          /\ In doc (faiss_docs ++ bm25_docs)).
Proof.
  intros Hn. cbv zeta.
  assert (Hempty :
    (Z.of_nat (length (@nil Embedding.Document)) <= top_n)%Z
    /\ NoDup (map Embedding.page_content [])
    /\ (forall doc, In doc [] ->
          exists faiss_docs bm25_docs,
            Embedding.faiss_invoke env query
              (top_n * Embedding.CANDIDATE_MULTIPLIER) = Ok faiss_docs
            /\ Embedding.bm25_invoke env (Embedding.normalize_query query)
                 (top_n * Embedding.CANDIDATE_MULTIPLIER) = Ok bm25_docs
            /\ In doc (faiss_docs ++ bm25_docs))).
  { split; [simpl; lia |]. split; [constructor | intros doc []]. }
  unfold Embedding.retrieve, Embedding.retrieve_try.
  destruct (Embedding.build_or_load_vectorstore env); [| exact Hempty].
  cbn [bind].
  destruct (Embedding.load_all_chunks env); [| exact Hempty]. cbn [bind].
  destruct (Embedding.faiss_invoke env query _) as [faiss_docs |] eqn:Hf;
    [| exact Hempty].
  cbn [bind].
  destruct (Embedding.bm25_invoke env _ _) as [bm25_docs |] eqn:Hb;
    [| exact Hempty].
  cbn [bind].
  set (combined := Embedding._deduplicate (faiss_docs ++ bm25_docs)).
  assert (Hnd : NoDup (map Embedding.page_content combined))
    by apply deduplicate_from_nodup.
  assert (Hsub : forall doc, In doc combined ->
            In doc (faiss_docs ++ bm25_docs))
    by (intros doc Hd; apply (deduplicate_from_in Hd)).
  (* a slice of a reordering of the candidates *)
  assert (Hslice : forall reordered,
    Permutation combined reordered ->
    (Z.of_nat (length (PyList.slice_to top_n reordered)) <= top_n)%Z
    /\ NoDup (map Embedding.page_content (PyList.slice_to top_n reordered))
    /\ (forall doc, In doc (PyList.slice_to top_n reordered) ->
          exists f b,
            Ok faiss_docs = Ok f /\ Ok bm25_docs = Ok b
            /\ In doc (f ++ b))).
  { intros reordered Hperm.
    split; [apply slice_to_at_most, Hn |].
    destruct (slice_to_firstn top_n reordered) as [k ->]. split.
    - apply nodup_map_firstn.
      apply (Permutation_NoDup (Permutation_map _ Hperm) Hnd).
    - intros doc Hin. exists faiss_docs, bm25_docs.
      split; [reflexivity |]. split; [reflexivity |].
      apply Hsub. apply (Permutation_in _ (Permutation_sym Hperm)).
      exact (in_firstn Hin). }
  destruct combined as [| d rest] eqn:Hc; [exact Hempty |].
  rewrite <- Hc in *. clear Hc d rest.
  destruct (negb (Embedding.RERANKER_ENABLED env));
    [apply Hslice, heuristic_sort_perm |].
  destruct (Embedding.load_reranker env) as [reranker |]; [| exact Hempty].
  cbn [bind].
  destruct (Embedding.predict_batches reranker _) as [scores |] eqn:Hp;
    [| apply Hslice, heuristic_sort_perm].
  apply predict_batches_length in Hp. rewrite length_map in Hp.
  fold (ranked_rows
          (Embedding.web_boost_of (Embedding.classify_query_intent query))
          combined scores).
  unfold ranked_rows.
  rewrite threshold_filter_sorted by (exact Hn || apply rank_sorted).
  destruct (slice_to_firstn top_n
              (Embedding.rank
                 (combine
                    (combine combined
                       (Embedding.boost_scores
                          (Embedding.web_boost_of
                             (Embedding.classify_query_intent query))
                          combined scores)) scores))) as [k Hk].
  pose proof (@slice_to_at_most _ top_n
                (Embedding.rank
                   (combine
                      (combine combined
                         (Embedding.boost_scores
                            (Embedding.web_boost_of
                               (Embedding.classify_query_intent query))
                            combined scores)) scores)) Hn) as Hlen.
  rewrite Hk in *. clear Hk.
  assert (Hdocs :
    Permutation combined
      (map Embedding.doc_of
         (Embedding.rank
            (combine
               (combine combined
                  (Embedding.boost_scores
                     (Embedding.web_boost_of
                        (Embedding.classify_query_intent query))
                     combined scores)) scores)))).
  { eapply perm_trans; [| apply Permutation_map, sorted_perm].
    unfold Embedding.doc_of.
    rewrite <- (map_map fst fst), map_fst_combine, <- firstn_map,
      map_fst_combine.
    rewrite boost_scores_length by exact Hp.
    rewrite firstn_all, Hp, firstn_all. apply Permutation_refl. }
  rewrite length_map. split; [exact Hlen |].
  rewrite <- firstn_map. split.
  - apply nodup_map_firstn.
    apply (Permutation_NoDup (Permutation_map _ Hdocs) Hnd).
  - intros doc Hin. exists faiss_docs, bm25_docs.
    split; [reflexivity |]. split; [reflexivity |].
    apply Hsub. apply (Permutation_in _ (Permutation_sym Hdocs)).
    exact (in_firstn Hin).
Qed.

End HeuristicOrder.

Lemma heuristic_sort_reorders_witness :
  Embedding._heuristic_sort_when_reranker_disabled (rt := ascii_runtime)
    "what services do you offer" [pdf_form; web_team; web_hours]
  = [pdf_form; web_team; web_hours]
  /\ Embedding._heuristic_sort_when_reranker_disabled (rt := ascii_runtime)
       "opening hours" [pdf_form; web_team; web_hours]
     = [web_hours; pdf_form; web_team].
Proof.
  split; [| vm_compute; reflexivity].
  apply (@heuristic_sort_reorders ascii_runtime "what services do you offer"
           [pdf_form; web_team; web_hours]).
  vm_compute. reflexivity.
Defined.

Lemma retrieve_returns_candidates_witness :
  Embedding.retrieve (rt := ascii_runtime) strict_env "opening hours" 2
  = [web_hours; pdf_form]
  /\ NoDup
       (map Embedding.page_content
          (Embedding.retrieve (rt := ascii_runtime) strict_env
             "opening hours" 2)).
Proof.
  split; [vm_compute; reflexivity |].
  apply (@retrieve_returns_candidates ascii_runtime strict_env
           "opening hours" 2).
  lia.
Defined.

(* ------------------------------------------------------------------ *)
(** ** Answer composer *)

Section Composer.
Context `{rt : PyRuntime}.

(** X11.  [ask_llm] raises only when the vector store is not loaded yet
    and loading it fails.  Otherwise it returns a string: the fixed "no
    relevant information" sentence, without consulting the model, whenever
    [retrieve] comes back empty, which is also what any failure inside
    [retrieve] ends in; else the model's answer to the question and the
    retrieved texts, or an error sentence when the model call raises. *)
Theorem ask_llm_degrades (vector_store : bool)
    (env : Embedding.Collaborators) (llm : Chating.Llm) (query : string) :
  let r := Chating.ask_llm vector_store env llm query in
  ((exists e, fst r = Raise e)
   <-> vector_store = false
       /\ exists e, Embedding.build_or_load_vectorstore env = Raise e)
  /\ ((vector_store = true
       \/ exists u, Embedding.build_or_load_vectorstore env = Ok u) ->
      (Embedding.retrieve env query 20 = [] ->
       r = (Ok Chating.no_information, true))
      /\ ((exists e, Embedding.retrieve_try env query 20 = Raise e) ->
          r = (Ok Chating.no_information, true))
      /\ (Embedding.retrieve env query 20 <> [] ->
          let context :=
            PyStr.join (State.nl ++ State.nl)%string
              (map Embedding.page_content (Embedding.retrieve env query 20)) in
          r = (Ok (match Chating.invoke llm query context with
                   | Ok content => content
                   | Raise e =>
                       ("Fehler beim Abrufen der Antwort: "
                        ++ exn_message e)%string
                   end), true))).
Proof.
  cbv zeta. unfold Chating.ask_llm. split.
  - destruct vector_store.
    + split.
      * intros [e He].
        destruct (Embedding.retrieve env query 20); [discriminate He |].
        destruct (Chating.invoke llm query _); discriminate He.
      * intros [Hf _]. discriminate Hf.
    + destruct (Embedding.build_or_load_vectorstore env) as [u | e0].
      * split.
        -- intros [e He].
           destruct (Embedding.retrieve env query 20); [discriminate He |].
           destruct (Chating.invoke llm query _); discriminate He.
        -- intros [_ [e He]]. discriminate He.
      * split; [intros _; split; [reflexivity | eexists; reflexivity]
               | intros _; eexists; reflexivity].
  - intros Hloaded.
    assert (Hok : (if vector_store then Ok tt
                   else Embedding.build_or_load_vectorstore env)
                  = Ok tt).
    { destruct vector_store; [reflexivity |].
      destruct Hloaded as [Hf | [[] Hu]]; [discriminate Hf | exact Hu]. }
    rewrite Hok. split; [| split].
    + intros ->. reflexivity.
    + intros [e He]. unfold Embedding.retrieve. rewrite He. reflexivity.
    + intros Hne.
      destruct (Embedding.retrieve env query 20) as [| d docs];
        [congruence |].
      destruct (Chating.invoke llm query _); reflexivity.
Qed.

End Composer.

Lemma ask_llm_degrades_witness :
  Chating.ask_llm (rt := ascii_runtime) true unloadable_env
    {| Chating.invoke := fun _ _ => Ok "unused" |} "opening hours"
  = (Ok Chating.no_information, true).
Proof.
  destruct (@ask_llm_degrades ascii_runtime true unloadable_env
              {| Chating.invoke := fun _ _ => Ok "unused" |} "opening hours")
    as [_ Hloaded].
  destruct (Hloaded (or_introl eq_refl)) as (_ & Hraised & _).
  apply Hraised. eexists. vm_compute. reflexivity.
Defined.

(* ------------------------------------------------------------------ *)
(** ** Dialogue engine: intents and services *)

Section Intents.
Context `{rt : PyRuntime}.

Lemma first_alias_canonical (text_lower : string)
    (aliases : list (string * string)) (found : string) :
  Forall (fun a => In (snd a) Agent.CANONICAL_SERVICES) aliases ->
  Agent.first_alias text_lower aliases = Some found ->
  In found Agent.CANONICAL_SERVICES.
Proof.
  induction 1 as [| [alias canonical] aliases Ha _ IH]; simpl.
  - discriminate.
  - destruct (PyStr.contains text_lower alias); [| exact IH].
    intros Hf. injection Hf as <-. exact Ha.
Qed.

Lemma aliases_are_canonical :
  Forall (fun a => In (snd a) Agent.CANONICAL_SERVICES) Agent.SERVICE_ALIASES.
Proof.
  unfold Agent.SERVICE_ALIASES, Agent.CANONICAL_SERVICES.
  repeat (constructor; [simpl; tauto |]). constructor.
Qed.

(** X12.  Whatever [detect_service] finds is one of the seven canonical
    services, so never an empty name; it finds one as soon as the
    lower-cased, stripped text contains an alias of the table. *)
Theorem detect_service_is_canonical (text : string) :
  (forall found, Agent.detect_service text = Some found ->
     In found Agent.CANONICAL_SERVICES
     /\ PyStr.truthy (Some found) = true)
  /\ (forall alias canonical,
        In (alias, canonical) Agent.SERVICE_ALIASES ->
        PyStr.contains (str_strip (str_lower text)) alias = true ->
        exists found, Agent.detect_service text = Some found).
Proof.
  split.
  - intros found Hf. unfold Agent.detect_service in Hf.
    pose proof (first_alias_canonical aliases_are_canonical Hf) as Hin.
    split; [exact Hin |].
    unfold Agent.CANONICAL_SERVICES in Hin. simpl in Hin.
    repeat (destruct Hin as [<- | Hin]; [reflexivity |]). destruct Hin.
  - intros alias canonical Hin Hc. unfold Agent.detect_service.
    induction Agent.SERVICE_ALIASES as [| [a c] aliases IH];
      [destruct Hin |].
    simpl. destruct (PyStr.contains _ a) eqn:Ha; [eauto |].
    destruct Hin as [E | Hin]; [| exact (IH Hin)].
    injection E as -> ->. congruence.
Qed.

(** X13.  [detect_intent] answers "cancel", "go_back", "book" or "faq" and
    nothing else; a cancel word decides for "cancel" whatever else the
    text holds; and "faq" is answered only for a text in which
    [detect_service] finds no service. *)
Theorem detect_intent_range (text : string) :
  (Agent.detect_intent text = "cancel"
   \/ Agent.detect_intent text = "go_back"
   \/ Agent.detect_intent text = "book"
   \/ Agent.detect_intent text = "faq")
  /\ (PyStr.any_in (str_lower text) Agent.cancel_words = true <->
      Agent.detect_intent text = "cancel")
  /\ (Agent.detect_intent text = "faq" ->
      PyStr.truthy (Agent.detect_service text) = false).
Proof.
  unfold Agent.detect_intent.
  destruct (PyStr.any_in (str_lower text) Agent.cancel_words).
  { split; [tauto |]. split; [tauto | discriminate]. }
  destruct (PyStr.any_in (str_lower text) Agent.back_words).
  { split; [tauto |]. split; [| discriminate].
    split; discriminate. }
  destruct (PyStr.any_in (str_lower text) Agent.book_words).
  { split; [tauto |]. split; [| discriminate].
    split; discriminate. }
  destruct (PyStr.truthy (Agent.detect_service text)).
  { split; [tauto |]. split; [| discriminate].
    split; discriminate. }
  split; [tauto |]. split; [| reflexivity].
  split; discriminate.
Qed.

End Intents.

Lemma detect_service_is_canonical_witness :
  Agent.detect_service (rt := ascii_runtime) "I need some Physio please"
  = Some "physiotherapy"
  /\ In "physiotherapy" Agent.CANONICAL_SERVICES.
Proof.
  split; [vm_compute; reflexivity |].
  apply (@detect_service_is_canonical ascii_runtime
           "I need some Physio please").
  vm_compute. reflexivity.
Defined.

Lemma detect_intent_range_witness :
  Agent.detect_intent (rt := ascii_runtime) "please cancel my booking"
  = "cancel"
  /\ PyStr.truthy
       (Agent.detect_service (rt := ascii_runtime) "where are you located")
     = false.
Proof.
  destruct (@detect_intent_range ascii_runtime "please cancel my booking")
    as (_ & [Hcancel _] & _).
  destruct (@detect_intent_range ascii_runtime "where are you located")
    as (_ & _ & Hfaq).
  split; [apply Hcancel | apply Hfaq]; vm_compute; reflexivity.
Defined.

(* ------------------------------------------------------------------ *)
(** ** Dialogue engine: what a turn does and does not do *)

(** Breaks the goal along the tests of a state block. *)
Ltac by_tests :=
  repeat match goal with
    | |- context [if ?b then _ else _] => destruct b eqn:?
    | |- context [match ?x with Some _ => _ | None => _ end] =>
        destruct x eqn:?
    | |- context [match ?x with [] => _ | _ :: _ => _ end] => destruct x eqn:?
    | |- context [let (_, _) := ?p in _] => destruct p eqn:?
    | |- context [match ?r with DB.Success _ => _ | DB.Failure _ => _ end] =>
        destruct r eqn:?
    end.

Section Turns.
Context `{rt : PyRuntime}.

Lemma detect_language_early_outside (text : string)
    (session : State.BookingSession) :
  Agent.in_idle_or_greeting (State.state session) = false ->
  Agent.detect_language_early text session = (session, State.language session).
Proof. intros Hst. unfold Agent.detect_language_early. rewrite Hst. reflexivity. Qed.

(** X14.  Outside IDLE and GREETING a text with a cancel word ends the
    booking whatever the state: the turn answers "cancelled" in the
    session's language, leaves the session as [reset_booking] makes it
    (IDLE, no booking data, no history, no interrupt memory) and does not
    touch the store; in CONFIRM_BOOKING in particular nothing is booked. *)
Theorem cancel_resets_everywhere (env : Agent.Env) (text : string)
    (session : State.BookingSession) (db : DB.Database) :
  Agent.in_idle_or_greeting (State.state session) = false ->
  PyStr.any_in (str_lower text) Agent.cancel_words = true ->
  Agent.process_message env text session db
  = (Ok (Agent.R "cancelled" (State.language session) []),
     State.reset_booking session, db).
Proof.
  intros Hst Hk. unfold Agent.process_message, Agent.process_message_body.
  rewrite (detect_language_early_outside text Hst), Hst.
  unfold Agent.detect_intent. rewrite Hk. reflexivity.
Qed.

(** Each state block other than CONFIRM_BOOKING leaves the store alone. *)
Lemma state_logic_db
    (again : Agent.Env -> string -> State.BookingSession -> DB.Database
             -> Agent.Turn)
    (env : Agent.Env) (lang text : string) (st : State.ConversationState)
    (session : State.BookingSession) (db : DB.Database) :
  (forall e t s d, State.state s = State.IDLE -> db_of (again e t s d) = d) ->
  st <> State.CONFIRM_BOOKING ->
  db_of (Agent.state_logic again env lang text st session db) = db.
Proof.
  intros Hagain Hst. unfold db_of.
  destruct st; cbn [Agent.state_logic]; try congruence; try reflexivity.
  - unfold Agent.handle_idle_greeting. by_tests; reflexivity.
  - unfold Agent.handle_idle_greeting. by_tests; reflexivity.
  - unfold Agent.handle_faq. by_tests; reflexivity.
  - unfold Agent.handle_collect_service. by_tests; reflexivity.
  - unfold Agent.handle_collect_date. by_tests; reflexivity.
  - unfold Agent.handle_collect_slot. by_tests; reflexivity.
  - unfold Agent.handle_collect_name. by_tests; reflexivity.
  - unfold Agent.handle_collect_phone. by_tests; reflexivity.
  - apply Hagain. reflexivity.
Qed.

Lemma universal_go_back_db (lang : string) (session : State.BookingSession)
    (db : DB.Database) :
  db_of (Agent.universal_go_back lang session db) = db.
Proof.
  unfold Agent.universal_go_back. destruct (State.go_back session) as [[] s'];
    reflexivity.
Qed.

Lemma process_message_body_db
    (again : Agent.Env -> string -> State.BookingSession -> DB.Database
             -> Agent.Turn)
    (env : Agent.Env) (text : string) (session : State.BookingSession)
    (db : DB.Database) :
  (forall e t s d, State.state s = State.IDLE -> db_of (again e t s d) = d) ->
  State.state session <> State.CONFIRM_BOOKING ->
  db_of (Agent.process_message_body again env text session db) = db.
Proof.
  intros Hagain Hst. unfold Agent.process_message_body.
  destruct (Agent.detect_language_early text session) as [s' lang].
  destruct (_ && _); [reflexivity |].
  destruct (String.eqb _ "go_back"); [apply universal_go_back_db |].
  apply state_logic_db; assumption.
Qed.

(** X15.  A turn writes to the store in one situation only: the session
    is in CONFIRM_BOOKING and the text is a yes; what it then leaves is
    what [book_appointment] leaves for the name, phone, service, date,
    time and room of the session.  In every other turn the tables are
    untouched. *)
Theorem only_confirmed_yes_writes (env : Agent.Env) (text : string)
    (session : State.BookingSession) (db : DB.Database) :
  let turn := Agent.process_message env text session db in
  db_of turn = db
  \/ (State.state session = State.CONFIRM_BOOKING
      /\ Agent.detect_yes_no text = Some "yes"
      /\ db_of turn
         = snd (DB.book_appointment (Agent.sql_env env) (State.name session)
                  (State.phone session) (State.service session)
                  (State.date session) (State.time session)
                  (State.room_id session) db)).
Proof.
  cbv zeta.
  destruct (State.state_eqb (State.state session) State.CONFIRM_BOOKING)
    eqn:Hc.
  - assert (Hst : State.state session = State.CONFIRM_BOOKING)
      by (destruct (State.state session); try discriminate Hc; reflexivity).
    unfold Agent.process_message, Agent.process_message_body.
    rewrite (@detect_language_early_outside text session)
      by (rewrite Hst; reflexivity).
    rewrite Hst. cbn [Agent.in_idle_or_greeting negb andb].
    rewrite andb_true_r.
    destruct (String.eqb _ "cancel"); [left; reflexivity |].
    destruct (String.eqb _ "go_back"); [left; apply universal_go_back_db |].
    cbn [Agent.state_logic]. unfold Agent.handle_confirm_booking.
    destruct (Agent.detect_yes_no text) as [reply |] eqn:Hyn;
      [| left; reflexivity].
    destruct (String.eqb reply "yes") eqn:Hyes.
    + apply String.eqb_eq in Hyes. subst reply. right.
      split; [reflexivity |]. split; [reflexivity |].
      destruct (DB.book_appointment _ _ _ _ _ _ _ db) as [[i | e] db'];
        reflexivity.
    + left. destruct (String.eqb reply "no"); reflexivity.
  - left. unfold Agent.process_message. apply process_message_body_db.
    + intros e t s d Hs. apply process_message_body_db.
      * intros e0 t0 s0 d0 _. reflexivity.
      * rewrite Hs. discriminate.
    + intros Hst. rewrite Hst in Hc. discriminate Hc.
Qed.

(** X16.  In CONFIRM_BOOKING (the text holding no cancel and no go-back
    word) a yes or a no always leaves the session as [reset_booking] makes
    it, whether the booking succeeded or not: a yes answers
    "booking_success" with the new id when [book_appointment] reports
    success and "booking_failed" when it reports failure, a no answers
    "cancelled" and books nothing; any other text asks again and leaves
    the session as it is. *)
Theorem confirm_booking_outcomes (env : Agent.Env) (text : string)
    (session : State.BookingSession) (db : DB.Database) :
  State.state session = State.CONFIRM_BOOKING ->
  Agent.detect_intent text <> "cancel" ->
  Agent.detect_intent text <> "go_back" ->
  let booked :=
    DB.book_appointment (Agent.sql_env env) (State.name session)
      (State.phone session) (State.service session) (State.date session)
      (State.time session) (State.room_id session) db in
  let lang := State.language session in
  Agent.process_message env text session db
  = match Agent.detect_yes_no text with
    | Some reply =>
        if String.eqb reply "yes" then
          (Ok (match fst booked with
               | DB.Success appt_id =>
                   Agent.R "booking_success" lang
                     [("appt_id", Agent.VInt appt_id)]
               | DB.Failure _ => Agent.R "booking_failed" lang []
               end),
           State.reset_booking session, snd booked)
        else if String.eqb reply "no" then
          (Ok (Agent.R "cancelled" lang []), State.reset_booking session, db)
        else (Ok (Agent.R "confirm_yes_no" lang []), session, db)
    | None => (Ok (Agent.R "confirm_yes_no" lang []), session, db)
    end.
Proof.
  intros Hst Hnc Hnb. cbv zeta.
  unfold Agent.process_message, Agent.process_message_body.
  rewrite (@detect_language_early_outside text session)
    by (rewrite Hst; reflexivity).
  rewrite Hst.
  apply String.eqb_neq in Hnc. apply String.eqb_neq in Hnb.
  rewrite Hnc, Hnb. cbn [andb Agent.state_logic].
  unfold Agent.handle_confirm_booking.
  destruct (Agent.detect_yes_no text) as [reply |]; [| reflexivity].
  destruct (String.eqb reply "yes"); [| reflexivity].
  destruct (DB.book_appointment _ _ _ _ _ _ _ db) as [[i | e] db'];
    reflexivity.
Qed.

End Turns.

Lemma cancel_resets_everywhere_witness :
  Agent.process_message (rt := ascii_runtime) quiet_env "nein, abbrechen"
    confirming empty_db
  = (Ok (Agent.R "cancelled" "de" []), State.reset_booking confirming,
     empty_db).
Proof.
  apply (@cancel_resets_everywhere ascii_runtime quiet_env "nein, abbrechen"
           confirming empty_db); vm_compute; reflexivity.
Defined.

Lemma confirm_booking_outcomes_witness :
  Agent.process_message (rt := ascii_runtime) quiet_env "ja" confirming
    open_db
  = (Ok (Agent.R "booking_success" "de" [("appt_id", Agent.VInt 1)]),
     State.reset_booking confirming,
     snd (DB.book_appointment quiet_sql (Some "Maria Muster")
            (Some "+41791234567") (Some "massage") (Some "2025-03-20")
            (Some "10:00") "room-1" open_db)).
Proof.
  rewrite (@confirm_booking_outcomes ascii_runtime quiet_env "ja" confirming
             open_db eq_refl).
  - vm_compute. reflexivity.
  - vm_compute. discriminate.
  - vm_compute. discriminate.
Defined.

(* ------------------------------------------------------------------ *)
(** ** Dialogue engine: which turns raise *)

Section Raising.
Context `{rt : PyRuntime}.




End Raising.


(* ------------------------------------------------------------------ *)
(** ** Dialogue engine: interrupts, offered slots, identity *)

Section Progress.
Context `{rt : PyRuntime}.

Lemma faq_intent_no_service (text : string) :
  Agent.detect_intent text = "faq" ->
  PyStr.truthy (Agent.detect_service text) = false.
Proof.
  unfold Agent.detect_intent.
  destruct (PyStr.any_in (str_lower text) Agent.cancel_words);
    [discriminate |].
  destruct (PyStr.any_in (str_lower text) Agent.back_words);
    [discriminate |].
  destruct (PyStr.any_in (str_lower text) Agent.book_words);
    [discriminate |].
  destruct (PyStr.truthy (Agent.detect_service text));
    [discriminate | reflexivity].
Qed.

Lemma faq_interrupt_round_trip (session : State.BookingSession) :
  State.pre_faq_state session = None ->
  Agent.faq_interrupt_leave
    (Agent.faq_interrupt_enter session (State.state session))
    (State.state session) = session.
Proof.
  intros Hpre. destruct session. simpl in *. subst. reflexivity.
Qed.

(** X18.  A question asked in the middle of a booking costs nothing: in
    COLLECT_SERVICE, and in COLLECT_DATE when the text holds no date, a
    text of intent "faq" is answered by the answer composer followed by the
    prompt of the state, and the session (state, history, booking data) and
    the store are after the turn exactly what they were before. *)
Theorem faq_interrupt_keeps_session (env : Agent.Env) (text : string)
    (session : State.BookingSession) (db : DB.Database) :
  State.pre_faq_state session = None ->
  Agent.detect_intent text = "faq" ->
  (State.state session = State.COLLECT_SERVICE ->
   Agent.process_message env text session db
   = (Ok (Agent.lit (Agent._ask_rag env text)
          ++ Agent.lit Agent.two_newlines
          ++ Agent.R "ask_service" (State.language session) []),
      session, db))
  /\ (State.state session = State.COLLECT_DATE ->
      PyStr.truthy (Agent.detect_date text) = false ->
      Agent.process_message env text session db
      = (Ok (Agent.lit (Agent._ask_rag env text)
             ++ Agent.lit Agent.two_newlines
             ++ Agent.R "ask_date" (State.language session) []),
         session, db)).
Proof.
  intros Hpre Hi. split.
  - intros Hst. unfold Agent.process_message, Agent.process_message_body.
    rewrite (@detect_language_early_outside _ text session)
      by (rewrite Hst; reflexivity).
    rewrite Hi, Hst. cbn [String.eqb Ascii.eqb Bool.eqb andb Agent.state_logic].
    unfold Agent.handle_collect_service.
    rewrite Hi, (faq_intent_no_service Hi).
    cbn [String.eqb Ascii.eqb Bool.eqb andb negb].
    rewrite <- Hst, (faq_interrupt_round_trip Hpre). reflexivity.
  - intros Hst Hnd. unfold Agent.process_message, Agent.process_message_body.
    rewrite (@detect_language_early_outside _ text session)
      by (rewrite Hst; reflexivity).
    rewrite Hi, Hst. cbn [String.eqb Ascii.eqb Bool.eqb andb Agent.state_logic].
    unfold Agent.handle_collect_date.
    rewrite Hi, Hnd.
    cbn [String.eqb Ascii.eqb Bool.eqb andb negb].
    rewrite <- Hst, (faq_interrupt_round_trip Hpre). reflexivity.
Qed.

Lemma available_slot_is_free (date_str : string) (service_ : option string)
    (db : DB.Database) (slot : DB.Slot) :
  In slot (DB.get_available_slots date_str service_ db) ->
  DB.is_booked slot = 0%Z /\ DB.slot_date slot = date_str.
Proof.
  unfold DB.get_available_slots, DB.order_by_time. intros Hin.
  destruct (PyStr.truthy service_);
    apply (Permutation_in _ (Permutation_sym (sorted_perm _ _))) in Hin;
    apply filter_In in Hin; destruct Hin as [_ Hk];
    repeat (apply andb_true_iff in Hk; destruct Hk as [Hk ?]);
    split; try (apply Z.eqb_eq; assumption);
    apply String.eqb_eq; assumption.
Qed.

(** X19.  When a turn taken in COLLECT_DATE returns in COLLECT_SLOT, the
    session holds a date and, as [available_slots], the non-empty answer of
    [get_available_slots] for that date and the session's service on the
    store as it is at that turn: every slot it holds is of that date and
    was free; the service is unchanged and COLLECT_DATE has been pushed on
    the history. *)
Theorem collect_date_stores_free_slots (env : Agent.Env) (text : string)
    (session : State.BookingSession) (db : DB.Database) :
  State.state session = State.COLLECT_DATE ->
  let turn := Agent.process_message env text session db in
  returned turn ->
  State.state (session_of turn) = State.COLLECT_SLOT ->
  exists parsed_date,
    State.date (session_of turn) = Some parsed_date
    /\ State.available_slots (session_of turn)
       = DB.get_available_slots parsed_date (State.service session) db
    /\ State.available_slots (session_of turn) <> []
    /\ (forall slot, In slot (State.available_slots (session_of turn)) ->
          DB.is_booked slot = 0%Z /\ DB.slot_date slot = parsed_date)
    /\ State.service (session_of turn) = State.service session
    /\ State.state_history (session_of turn)
       = State.state_history session ++ [State.COLLECT_DATE].
Proof.
  intros Hst. cbv zeta.
  unfold Agent.process_message, Agent.process_message_body.
  rewrite (@detect_language_early_outside _ text session)
    by (rewrite Hst; reflexivity).
  rewrite Hst. cbn [Agent.in_idle_or_greeting negb]. rewrite andb_true_r.
  destruct (String.eqb _ "cancel"); [intros _ H; discriminate H |].
  destruct (String.eqb _ "go_back").
  { intros Hret. rewrite (universal_go_back_returned Hret). congruence. }
  cbn [Agent.state_logic]. unfold Agent.handle_collect_date.
  destruct (_ && _).
  { intros _ H. unfold session_of in H. simpl in H. discriminate H. }
  destruct (Agent.detect_date text) as [parsed_date |] eqn:Hd;
    [| intros _ H; unfold session_of in H; simpl in H; congruence].
  destruct (negb (PyStr.truthy (Some parsed_date)));
    [intros _ H; unfold session_of in H; simpl in H; congruence |].
  cbn [PyStr.or_empty].
  destruct (DB.get_available_slots parsed_date (State.service session) db)
    as [| slot slots] eqn:Hslots;
    [intros _ H; unfold session_of in H; simpl in H; congruence |].
  intros _ _. exists parsed_date. unfold session_of. simpl.
  split; [reflexivity |]. split; [symmetry; exact Hslots |].
  split; [discriminate |].
  split; [| rewrite Hst; split; reflexivity].
  intros s Hin.
  apply (@available_slot_is_free parsed_date (State.service session) db).
  rewrite Hslots. exact Hin.
Qed.

Lemma state_logic_room
    (again : Agent.Env -> string -> State.BookingSession -> DB.Database
             -> Agent.Turn)
    (env : Agent.Env) (lang text : string) (st : State.ConversationState)
    (session : State.BookingSession) (db : DB.Database) :
  (forall e t s d,
     State.room_id (session_of (again e t s d)) = State.room_id s) ->
  State.room_id (session_of (Agent.state_logic again env lang text st
                               session db))
  = State.room_id session
  /\ (st <> State.BOOKING_DONE ->
      State.language (session_of (Agent.state_logic again env lang text st
                                    session db))
      = State.language session).
Proof.
  intros Hagain. unfold session_of.
  destruct st; cbn [Agent.state_logic].
  - unfold Agent.handle_idle_greeting. by_tests; split; reflexivity.
  - unfold Agent.handle_idle_greeting. by_tests; split; reflexivity.
  - split; reflexivity.
  - unfold Agent.handle_faq. by_tests; split; reflexivity.
  - unfold Agent.handle_collect_service. by_tests; split; reflexivity.
  - unfold Agent.handle_collect_date. by_tests; split; reflexivity.
  - split; reflexivity.
  - unfold Agent.handle_collect_slot. by_tests; split; reflexivity.
  - unfold Agent.handle_collect_name. by_tests; split; reflexivity.
  - unfold Agent.handle_collect_phone. by_tests; split; reflexivity.
  - unfold Agent.handle_confirm_booking. by_tests; split; reflexivity.
  - split; [apply (Hagain env text (State.reset_booking session) db) |].
    congruence.
Qed.

Lemma process_message_body_room
    (again : Agent.Env -> string -> State.BookingSession -> DB.Database
             -> Agent.Turn)
    (env : Agent.Env) (text : string) (session : State.BookingSession)
    (db : DB.Database) :
  (forall e t s d,
     State.room_id (session_of (again e t s d)) = State.room_id s) ->
  State.room_id (session_of (Agent.process_message_body again env text
                               session db))
  = State.room_id session
  /\ (Agent.in_idle_or_greeting (State.state session) = false ->
      State.state session <> State.BOOKING_DONE ->
      State.language (session_of (Agent.process_message_body again env text
                                    session db))
      = State.language session).
Proof.
  intros Hagain. unfold Agent.process_message_body.
  assert (Hroom : State.room_id (fst (Agent.detect_language_early text session))
                  = State.room_id session).
  { unfold Agent.detect_language_early. by_tests; reflexivity. }
  pose proof (@detect_language_early_outside _ text session) as Hout.
  destruct (Agent.detect_language_early text session) as [s' lang].
  cbn [fst] in Hroom.
  destruct (_ && _).
  { split; [exact Hroom |]. intros Hidle _.
    specialize (Hout Hidle). injection Hout as -> _. reflexivity. }
  destruct (String.eqb _ "go_back").
  { unfold Agent.universal_go_back, State.go_back, session_of.
    destruct (State.pop (State.state_history s')) as [[init last] |];
      (split; [exact Hroom |]; intros Hidle _;
       specialize (Hout Hidle); injection Hout as -> _; reflexivity). }
  destruct (@state_logic_room again env lang text (State.state session) s' db
              Hagain) as [Hr Hl].
  split; [rewrite Hr; exact Hroom |].
  intros Hidle Hdone. rewrite (Hl Hdone).
  specialize (Hout Hidle). injection Hout as -> _. reflexivity.
Qed.

(** X20.  A turn never changes the room a session belongs to, and it can
    change the session's language only when it is taken in IDLE, GREETING
    or BOOKING_DONE: once a booking is under way the language is fixed
    until the session is back in IDLE. *)
Theorem turn_keeps_room_and_language (env : Agent.Env) (text : string)
    (session : State.BookingSession) (db : DB.Database) :
  let turn := Agent.process_message env text session db in
  State.room_id (session_of turn) = State.room_id session
  /\ (Agent.in_idle_or_greeting (State.state session) = false ->
      State.state session <> State.BOOKING_DONE ->
      State.language (session_of turn) = State.language session).
Proof.
  cbv zeta. unfold Agent.process_message.
  apply process_message_body_room.
  intros e t s d. apply process_message_body_room.
  intros e0 t0 s0 d0. reflexivity.
Qed.

End Progress.

Lemma faq_interrupt_keeps_session_witness :
  Agent.process_message (rt := ascii_runtime) quiet_env "what are your hours"
    mid_booking empty_db
  = (Ok (Agent.lit "We are open from 8 to 18."
         ++ Agent.lit Agent.two_newlines ++ Agent.R "ask_date" "en" []),
     mid_booking, empty_db).
Proof.
  apply (@faq_interrupt_keeps_session ascii_runtime quiet_env
           "what are your hours" mid_booking empty_db);
    vm_compute; reflexivity.
Defined.

Lemma collect_date_stores_free_slots_witness :
  exists parsed_date,
    State.date
      (session_of
         (Agent.process_message (rt := ascii_runtime) quiet_env "tomorrow"
            mid_booking tomorrow_db)) = Some parsed_date
    /\ map DB.slot_time
         (State.available_slots
            (session_of
               (Agent.process_message (rt := ascii_runtime) quiet_env
                  "tomorrow" mid_booking tomorrow_db)))
       = ["09:00"; "11:00"].
Proof.
  destruct (@collect_date_stores_free_slots ascii_runtime quiet_env "tomorrow"
              mid_booking tomorrow_db eq_refl)
    as [parsed_date (Hdate & _)].
  - vm_compute. eexists. reflexivity.
  - vm_compute. reflexivity.
  - exists parsed_date. split; [exact Hdate | vm_compute; reflexivity].
Defined.

Lemma turn_keeps_room_and_language_witness :
  State.language
    (session_of
       (Agent.process_message (rt := ascii_runtime) quiet_env
          "ich bin die Maria und das ist mein Name" naming empty_db))
  = "en".
Proof.
  apply (@turn_keeps_room_and_language ascii_runtime quiet_env
           "ich bin die Maria und das ist mein Name" naming empty_db).
  - reflexivity.
  - discriminate.
Defined.

(* ------------------------------------------------------------------ *)
(** ** The session store *)

Lemma lookup_store_same (room : string) (session : State.BookingSession)
    (sessions : Agent.Sessions) :
  Agent.lookup_session room (Agent.store_session room session sessions)
  = Some session.
Proof.
  induction sessions as [| [k v] sessions IH]; simpl.
  - rewrite String.eqb_refl. reflexivity.
  - destruct (String.eqb k room) eqn:E; simpl; rewrite E;
      [reflexivity | exact IH].
Qed.

Lemma lookup_store_other (room other : string)
    (session : State.BookingSession) (sessions : Agent.Sessions) :
  other <> room ->
  Agent.lookup_session other (Agent.store_session room session sessions)
  = Agent.lookup_session other sessions.
Proof.
  intros Hne. induction sessions as [| [k v] sessions IH]; simpl.
  - destruct (String.eqb_spec room other); [congruence | reflexivity].
  - destruct (String.eqb_spec k room) as [-> | Hk]; simpl.
    + destruct (String.eqb_spec room other); [congruence | reflexivity].
    + destruct (String.eqb k other); [reflexivity | exact IH].
Qed.

Lemma lookup_clear_other (room other : string) (sessions : Agent.Sessions) :
  other <> room ->
  Agent.lookup_session other (Agent.clear_session room sessions)
  = Agent.lookup_session other sessions.
Proof.
  intros Hne. induction sessions as [| [k v] sessions IH]; simpl.
  - reflexivity.
  - destruct (String.eqb_spec k room) as [-> | Hk]; simpl.
    + destruct (String.eqb_spec room other); [congruence | reflexivity].
    + destruct (String.eqb k other); [reflexivity | exact IH].
Qed.

Lemma lookup_missing (room : string) (sessions : Agent.Sessions) :
  ~ In room (map fst sessions) -> Agent.lookup_session room sessions = None.
Proof.
  induction sessions as [| [k v] sessions IH]; simpl; intros Hnot.
  - reflexivity.
  - destruct (String.eqb_spec k room) as [-> | Hk].
    + exfalso. apply Hnot. left. reflexivity.
    + apply IH. intros Hin. apply Hnot. right. exact Hin.
Qed.

Lemma lookup_clear_same (room : string) (sessions : Agent.Sessions) :
  NoDup (map fst sessions) ->
  Agent.lookup_session room (Agent.clear_session room sessions) = None.
Proof.
  induction sessions as [| [k v] sessions IH]; simpl; intros Hnd.
  - reflexivity.
  - inversion Hnd as [| k0 ks Hnot Hnd']; subst.
    destruct (String.eqb_spec k room) as [-> | Hk]; simpl.
    + apply lookup_missing, Hnot.
    + destruct (String.eqb_spec k room); [congruence |]. apply IH, Hnd'.
Qed.

Lemma store_keeps_unique (room : string) (session : State.BookingSession)
    (sessions : Agent.Sessions) :
  NoDup (map fst sessions) ->
  NoDup (map fst (Agent.store_session room session sessions)).
Proof.
  induction sessions as [| [k v] sessions IH]; simpl; intros Hnd.
  - constructor; [intros [] | constructor].
  - inversion Hnd as [| k0 ks Hnot Hnd']; subst.
    destruct (String.eqb_spec k room) as [-> | Hk]; simpl.
    + exact Hnd.
    + constructor; [| apply IH, Hnd'].
      intros Hin. apply Hnot.
      clear - Hin Hk. induction sessions as [| [k1 v1] sessions IH];
        simpl in *.
      * destruct Hin as [E | []]. congruence.
      * destruct (String.eqb_spec k1 room) as [-> | Hk1]; simpl in *.
        -- exact Hin.
        -- destruct Hin as [E | Hin]; [left; exact E | right; exact (IH Hin)].
Qed.

Section Rooms.
Context `{rt : PyRuntime}.

(** X21.  Conversations do not see each other: a message handled for one
    room leaves the session of every other room as it was.  The session
    the message is processed on is the one stored for the room, a new one
    if there is none; what the turn leaves of it is what the store holds
    for the room afterwards, also when the turn raises; and the store keeps
    one session per room. *)
Theorem rooms_are_isolated (env : Agent.Env) (room text : string)
    (sessions : Agent.Sessions) (db : DB.Database) :
  let start :=
    match Agent.lookup_session room sessions with
    | Some session => session
    | None => State.new_session room
    end in
  let turn := Agent.process_message env text start db in
  let handled := Main.test_agent_message env room text sessions db in
  Agent.lookup_session room (snd (fst handled)) = Some (session_of turn)
  /\ (forall other, other <> room ->
        Agent.lookup_session other (snd (fst handled))
        = Agent.lookup_session other sessions)
  /\ snd handled = db_of turn
  /\ (NoDup (map fst sessions) -> NoDup (map fst (snd (fst handled)))).
Proof.
  cbv zeta. unfold Main.test_agent_message, Agent.get_session, session_of,
    db_of.
  destruct (Agent.lookup_session room sessions) as [session |] eqn:Hl.
  - generalize (Agent.process_message env text session db).
    intros turn. cbn [fst snd].
    split; [apply lookup_store_same |].
    split; [intros other Hne; apply lookup_store_other, Hne |].
    split; [reflexivity |]. apply store_keeps_unique.
  - generalize (Agent.process_message env text (State.new_session room) db).
    intros turn. cbn [fst snd].
    split; [apply lookup_store_same |].
    split; [intros other Hne; rewrite !lookup_store_other by exact Hne;
            reflexivity |].
    split; [reflexivity |].
    intros Hnd. apply store_keeps_unique, store_keeps_unique, Hnd.
Qed.

End Rooms.

(** X22.  [clear_session] forgets one room and only that room: in a store
    with one session per room, the next [get_session] for the cleared room
    starts from a new session in IDLE with no booking data, and every other
    room still has the session it had. *)
Theorem clear_session_forgets_one_room (room : string)
    (sessions : Agent.Sessions) :
  NoDup (map fst sessions) ->
  fst (Agent.get_session room (Agent.clear_session room sessions))
  = State.new_session room
  /\ (forall other, other <> room ->
        Agent.lookup_session other (Agent.clear_session room sessions)
        = Agent.lookup_session other sessions)
  /\ forall other, other <> room ->
       fst (Agent.get_session other (Agent.clear_session room sessions))
       = fst (Agent.get_session other sessions).
Proof.
  intros Hnd. split; [| split].
  - unfold Agent.get_session. rewrite (lookup_clear_same room Hnd).
    reflexivity.
  - intros other Hne. apply lookup_clear_other, Hne.
  - intros other Hne. unfold Agent.get_session.
    rewrite (lookup_clear_other sessions Hne).
    destruct (Agent.lookup_session other sessions); reflexivity.
Qed.

Lemma rooms_are_isolated_witness :
  Agent.lookup_session "room-2"
    (snd (fst (Main.test_agent_message (rt := ascii_runtime) quiet_env
                 "room-1" "ten please" two_rooms empty_db)))
  = Some mid_booking
  /\ NoDup
       (map fst
          (snd (fst (Main.test_agent_message (rt := ascii_runtime) quiet_env
                       "room-1" "ten please" two_rooms empty_db)))).
Proof.
  destruct (@rooms_are_isolated ascii_runtime quiet_env "room-1" "ten please"
              two_rooms empty_db) as (_ & Hother & _ & Hunique).
  split.
  - rewrite (Hother "room-2"); [reflexivity | discriminate].
  - apply Hunique. repeat constructor; simpl; intuition discriminate.
Defined.

Lemma clear_session_forgets_one_room_witness :
  fst (Agent.get_session "room-1" (Agent.clear_session "room-1" two_rooms))
  = State.new_session "room-1"
  /\ Agent.lookup_session "room-2" (Agent.clear_session "room-1" two_rooms)
     = Some mid_booking.
Proof.
  destruct (@clear_session_forgets_one_room "room-1" two_rooms)
    as (Hnew & Hother & _).
  - repeat constructor; simpl; intuition discriminate.
  - split; [exact Hnew |].
    rewrite (Hother "room-2"); [reflexivity | discriminate].
Defined.

(* ------------------------------------------------------------------ *)
(** ** The dashboard query *)

Lemma get_appointments_lists (date_str : option string) (db : DB.Database)
    (a : DB.Appointment) :
  In a (DB.appointments db) ->
  PyStr.truthy date_str = false \/ date_str = Some (DB.date a) ->
  In a (DB.get_appointments date_str db).
Proof.
  intros Hin Hd. unfold DB.get_appointments, DB.appointments_by_time,
    DB.appointments_by_date_time.
  destruct (PyStr.truthy date_str) eqn:Ht.
  - destruct Hd as [Hf | ->]; [discriminate Hf |].
    apply (Permutation_in _ (sorted_perm _ _)). apply filter_In.
    split; [exact Hin |]. simpl. apply String.eqb_refl.
  - apply (Permutation_in _ (sorted_perm _ _)). exact Hin.
Qed.

(** X23.  Nothing is ever taken off the dashboard: [get_appointments]
    returns rows of the table only, every row of the asked date (every row
    at all when no date is given), whatever its status; and after a
    successful [cancel_appointment] the appointment is still listed for its
    date, with the status cancelled. *)
Theorem cancelled_appointment_stays_listed (env : DB.CancelEnv) (i : Z)
    (db : DB.Database) (date_str : option string) :
  (forall a, In a (DB.get_appointments date_str db) ->
     In a (DB.appointments db))
  /\ (forall a, In a (DB.appointments db) ->
        PyStr.truthy date_str = false \/ date_str = Some (DB.date a) ->
        In a (DB.get_appointments date_str db))
  /\ (fst (DB.cancel_appointment env i db) = DB.Cancelled i ->
      exists a,
        In a (DB.appointments db) /\ DB.id a = i
        /\ In (DB.set_status a "cancelled")
             (DB.get_appointments (Some (DB.date a))
                (snd (DB.cancel_appointment env i db)))
        /\ In (DB.set_status a "cancelled")
             (DB.get_appointments None
                (snd (DB.cancel_appointment env i db)))).
Proof.
  split; [| split].
  - intros a Hin. unfold DB.get_appointments, DB.appointments_by_time,
      DB.appointments_by_date_time in Hin.
    destruct (PyStr.truthy date_str);
      apply (Permutation_in _ (Permutation_sym (sorted_perm _ _))) in Hin;
      [apply filter_In in Hin; exact (proj1 Hin) | exact Hin].
  - intros a. apply get_appointments_lists.
  - intros Hok.
    destruct (cancel_appointment_cases env i db)
      as [[msg He] | [appt (_ & _ & _ & _ & Hfind & He)]];
      rewrite He in *; [discriminate Hok |].
    apply find_some in Hfind. destruct Hfind as [Hin Hid].
    apply Z.eqb_eq in Hid. exists appt.
    split; [exact Hin |]. split; [exact Hid |].
    assert (Hrow : In (DB.set_status appt "cancelled")
                     (DB.mark_cancelled i (DB.appointments db))).
    { unfold DB.mark_cancelled. apply in_map_iff. exists appt.
      rewrite Hid, Z.eqb_refl. split; [reflexivity | exact Hin]. }
    cbn [snd]. split.
    + apply get_appointments_lists; [exact Hrow |]. right. reflexivity.
    + apply get_appointments_lists; [exact Hrow |]. left. reflexivity.
Qed.

Lemma cancelled_appointment_stays_listed_witness :
  map DB.status
    (DB.get_appointments (Some "2025-03-20")
       (snd (DB.cancel_appointment quiet_cancel 1 taken_db)))
  = ["cancelled"]
  /\ exists a,
       In a (DB.appointments taken_db)
       /\ In (DB.set_status a "cancelled")
            (DB.get_appointments (Some (DB.date a))
               (snd (DB.cancel_appointment quiet_cancel 1 taken_db))).
Proof.
  split; [reflexivity |].
  destruct (@cancelled_appointment_stays_listed quiet_cancel 1 taken_db None)
    as (_ & _ & Hcancel).
  destruct (Hcancel eq_refl) as [a (Hin & _ & Hlisted & _)].
  exists a. split; assumption.
Defined.
